(** * graphene_django_plus: permissioned connections, nodes and mutations

    A shallow embedding of the permission layer of graphene_django_plus
    ([connections.py], [types.py], [fields.py], [node.py], [mutations.py])
    and the properties of its query and mutation paths.

    Python values that flow through keyword dictionaries are a small sum
    type with Python's truthiness; a raised exception is the [Raise] side of
    [result]; the database and the order in which a handler touches its
    collaborators are an explicit [World] threaded by the monad [M]. *)

From Stdlib Require Import ZArith List String Ascii Bool Lia DecimalString.
Import ListNotations.
Open Scope string_scope.
Open Scope Z_scope.

(** ** Python values, truthiness and exceptions *)

Module Py.

(** The values found in [**args] and [**input]: [None], integers, strings,
    lists of strings ([orderBy]) and lists of ids (many-to-many sets). *)
Inductive value : Type :=
| PNone
| PInt (z : Z)
| PStr (s : string)
| PStrs (l : list string)
| PInts (l : list Z).

(** [bool(v)]. *)
Definition truthy (v : value) : bool :=
  match v with
  | PNone => false
  | PInt z => negb (z =? 0)
  | PStr s => negb (s =? "")%string
  | PStrs l => match l with [] => false | _ => true end
  | PInts l => match l with [] => false | _ => true end
  end.

(** [a or b]. *)
Definition por (a b : value) : value := if truthy a then a else b.

Definition str_of_Z (z : Z) : string := NilZero.string_of_int (Z.to_int z).

Definition Z_of_str (s : string) : option Z :=
  option_map Z.of_int (NilZero.int_of_string s).

(** [str(v)], as an f-string interpolates it. *)
Definition str (v : value) : string :=
  match v with
  | PNone => "None"
  | PInt z => str_of_Z z
  | PStr s => s
  | PStrs l => "[" ++ String.concat ", " (map (fun s => "'" ++ s ++ "'") l) ++ "]"
  | PInts l => "[" ++ String.concat ", " (map str_of_Z l) ++ "]"
  end.

Definition value_eqb (a b : value) : bool :=
  match a, b with
  | PNone, PNone => true
  | PInt x, PInt y => x =? y
  | PStr x, PStr y => (x =? y)%string
  | PStrs x, PStrs y => if list_eq_dec string_dec x y then true else false
  | PInts x, PInts y => if list_eq_dec Z.eq_dec x y then true else false
  | _, _ => false
  end.

(** A keyword dictionary. *)
Definition dict : Type := list (string * value).

Fixpoint lookup (k : string) (d : dict) : option value :=
  match d with
  | [] => None
  | (k', v) :: d' => if (k =? k')%string then Some v else lookup k d'
  end.

(** [k in d]. *)
Definition contains (k : string) (d : dict) : bool :=
  match lookup k d with Some _ => true | None => false end.

(** [d.get(k)]: [None] when the key is absent. *)
Definition get (k : string) (d : dict) : value :=
  match lookup k d with Some v => v | None => PNone end.

(** [d[k] = v]. *)
Fixpoint set (k : string) (v : value) (d : dict) : dict :=
  match d with
  | [] => [(k, v)]
  | (k', v') :: d' =>
      if (k =? k')%string then (k, v) :: d' else (k', v') :: set k v d'
  end.

(** The exception classes the layer raises or lets through. *)
Inductive exn : Type :=
| GraphQLError (msg : string)
| Exception (msg : string)
| AssertionError (msg : string)
| NotImplementedError (msg : string)
| ValueError (msg : string)
| KeyError (key : string)
| TypeError (msg : string)
| AttributeError (msg : string)
| FieldError (msg : string)
| InvalidCursor (msg : string)
| DoesNotExist.

Inductive result (A : Type) : Type :=
| Ok (a : A)
| Raise (e : exn).
Arguments Ok {A} a.
Arguments Raise {A} e.

Definition rbind {A B} (r : result A) (k : A -> result B) : result B :=
  match r with
  | Ok a => k a
  | Raise e => Raise e
  end.

Definition is_ok {A} (r : result A) : bool :=
  match r with Ok _ => true | Raise _ => false end.

(** [needle in haystack] on strings. *)
Fixpoint substring_at (needle hay : string) (fuel : nat) : bool :=
  if prefix needle hay then true
  else match fuel, hay with
       | S n, String _ rest => substring_at needle rest n
       | _, _ => false
       end.

Definition str_contains (needle hay : string) : bool :=
  substring_at needle hay (String.length hay).

End Py.
Export Py.

Notation "'let?' x ':=' r 'in' k" := (rbind r (fun x => k))
  (at level 10, x name, r at level 100, k at level 200).

(** ** Data model *)

(** [info.context.user], already resolved by the caller. *)
Definition User : Type := Z.

(** A model instance: its class name, [obj.id] ([None] until it is saved)
    and its field values. *)
Record Instance : Type := mkInstance {
  obj_class : string;
  obj_id : option Z;
  obj_attrs : dict
}.

(** [bool(obj.id)]: an id that is [None] or [0] is falsy. *)
Definition id_truthy (obj : Instance) : bool :=
  match obj_id obj with
  | Some z => negb (z =? 0)
  | None => false
  end.

(** An ordered collection, as a Django [QuerySet] yields it. *)
Definition QuerySet : Type := list Instance.

(** What a parent resolver may hand back: a queryset, a manager (which
    [maybe_queryset] turns into its queryset) or some other iterable. *)
Inductive iterable : Type :=
| IQuerySet (qs : QuerySet)
| IManager (qs : QuerySet)
| IList (l : list Instance).

Definition elements (it : iterable) : list Instance :=
  match it with
  | IQuerySet qs => qs
  | IManager qs => qs
  | IList l => l
  end.

(** [graphene_django.utils.maybe_queryset]. *)
Definition maybe_queryset (it : iterable) : iterable :=
  match it with
  | IManager qs => IQuerySet qs
  | other => other
  end.

(** Modelled from the spec: the caller's result selection, which
    [get_fields(info)] of [utils.py] (not among the sources) returns as a
    nested dictionary keyed by the requested field names. *)
#[warnings="-register-all"]
Inductive selection : Type :=
| Sel (fields : list (string * selection)).

Definition sel_fields (s : selection) : list (string * selection) :=
  match s with Sel fs => fs end.

Fixpoint sel_lookup (k : string) (fs : list (string * selection)) : option selection :=
  match fs with
  | [] => None
  | (k', s) :: fs' => if (k =? k')%string then Some s else sel_lookup k fs'
  end.

(** [bool(requested_fields.get(k))]: the key is present and its own
    dictionary is not empty. *)
Definition sel_get_truthy (k : string) (s : selection) : bool :=
  match sel_lookup k (sel_fields s) with
  | Some (Sel (_ :: _)) => true
  | _ => false
  end.

Record Info : Type := mkInfo {
  context_user : User;
  field_name : string;
  get_fields : selection
}.

(** Modelled from the spec: the interface of [permissions.Permission]
    ([permissions.py] is not among the sources).  A policy exposes the
    query-time filters (viewable, changeable, deletable), each returning a
    filtered collection, and the instance-time predicates ([can_view],
    [can_add], [can_change], [can_delete]), each a boolean for one entity.
    Every one reads the [queryset] the caller binds to the fresh permission
    object, which is the first argument here. *)
Record PermissionClass : Type := mkPermission {
  get_viewable : QuerySet -> User -> QuerySet;
  get_changeable : QuerySet -> User -> QuerySet;
  get_deletable : QuerySet -> User -> QuerySet;
  can_view : QuerySet -> User -> Instance -> bool;
  can_add : QuerySet -> User -> Instance -> bool;
  can_change : QuerySet -> User -> Instance -> bool;
  can_delete : QuerySet -> User -> Instance -> bool
}.

(** ** Pages and connections ([connections.py]) *)

Record Page : Type := mkPage {
  items : list Instance;
  has_next : bool;
  has_previous : bool
}.

(** A [CursorPaginator] bound to a queryset and an ordering. *)
Record Paginator : Type := mkPaginator {
  page : value -> value -> value -> value -> result Page;
  cursor : Instance -> string
}.

Record Edge : Type := mkEdge {
  node : Instance;
  edge_cursor : string
}.

Record PageInfo : Type := mkPageInfo {
  start_cursor : option string;
  end_cursor : option string;
  has_previous_page : bool;
  has_next_page : bool
}.

Record Connection : Type := mkConnection {
  edges : list Edge;
  page_info : PageInfo;
  conn_iterable : option iterable;
  conn_length : option Z
}.

(** The storage and pagination collaborators the layer calls into:
    [QuerySet.order_by], [DjangoConnectionField.merge_querysets],
    [QuerySet.count] (a query of its own, which the store may fail) and the
    [CursorPaginator] constructor. *)
Record Backend : Type := mkBackend {
  order_by : QuerySet -> list string -> result QuerySet;
  merge_querysets : QuerySet -> QuerySet -> QuerySet;
  count : QuerySet -> result Z;
  CursorPaginator : iterable -> list string -> result Paginator
}.

(** [args["orderBy"]]. *)
Definition args_orderBy (args : dict) : result (list string) :=
  match lookup "orderBy" args with
  | Some (PStrs l) => Ok l
  | Some _ => Raise (TypeError "orderBy is not a list of strings")
  | None => Raise (KeyError "orderBy")
  end.

Definition head_cursor (es : list Edge) : option string :=
  match es with
  | [] => None
  | e :: _ => Some (edge_cursor e)
  end.

Definition last_cursor (es : list Edge) : option string :=
  head_cursor (rev es).

Section Connections.

Context (B : Backend).

Definition get_paginator_for_queryset (qs : iterable) (ordering : list string)
  : result Paginator :=
  CursorPaginator B qs ordering.

Definition connection_from_queryset (qs : iterable) (args : dict)
  : result Connection :=
  let? ordering := args_orderBy args in
  let? paginator := get_paginator_for_queryset qs ordering in
  let? pg := page paginator (get "first" args) (get "last" args)
                  (get "before" args) (get "after" args) in
  let edges := map (fun n => mkEdge n (cursor paginator n)) (items pg) in
  Ok (mkConnection edges
        (mkPageInfo (head_cursor edges) (last_cursor edges)
                    (has_previous pg) (has_next pg))
        None None).

(** The iterable [resolve_connection] paginates: the default manager when
    the resolver returned [None]; otherwise the resolver's iterable, merged
    with the default queryset when it is a queryset.  The resolver's result
    is an object of its own, so it is the default manager itself exactly
    when the resolver returned [None]. *)
Definition paginated_iterable (default_manager : QuerySet)
           (it : option iterable) : iterable :=
  match it with
  | None => IQuerySet default_manager
  | Some i =>
      match maybe_queryset i with
      | IQuerySet q => IQuerySet (merge_querysets B default_manager q)
      | other => other
      end
  end.

(** [iterable.count()] for a queryset, [len(iterable)] otherwise. *)
Definition length_of (iterable : iterable) : result Z :=
  match iterable with
  | IQuerySet qs => count B qs
  | other => Ok (Z.of_nat (List.length (elements other)))
  end.

(** [PermissionedConnectionField.resolve_connection]: the length is taken
    before the connection is built. *)
Definition resolve_connection (default_manager : QuerySet) (args : dict)
           (it : option iterable) : result Connection :=
  let iterable := paginated_iterable default_manager it in
  let? _len := length_of iterable in
  let? connection := connection_from_queryset iterable args in
  Ok (mkConnection (edges connection) (page_info connection)
                   (Some iterable) (Some _len)).

Definition order_queryset (qs : QuerySet) (order_by_array : list string)
  : result QuerySet :=
  order_by B qs order_by_array.

End Connections.

(** ** The parent field class

    [PermissionedConnectionField.connection_resolver] ends in a [super()]
    call.  The two parent methods it reaches belong to graphene_django
    ([DjangoFilterConnectionField] and [DjangoConnectionField]); they are
    written out here so that the source's resolver and the source's
    [resolve_connection], which the parent calls back through [cls], are
    joined the way they run. *)

Definition FilterSetClass : Type := dict -> QuerySet -> QuerySet.

Definition Resolver : Type := option Instance -> Info -> dict -> result (option iterable).

Definition first_or_last_message (info : Info) : string :=
  "You must provide a `first` or `last` value to properly paginate the `"
  ++ field_name info ++ "` connection.".

(** [if max_limit: if n: assert n <= max_limit; args[key] = min(n, max_limit)]. *)
Definition apply_max_limit (key : string) (max_limit : value) (info : Info)
           (args : dict) : result dict :=
  match max_limit, get key args with
  | PInt m, PInt n =>
      if truthy (PInt m) && truthy (PInt n) then
        if n <=? m then Ok (set key (PInt (Z.min n m)) args)
        else Raise (AssertionError
                      ("Requesting " ++ str_of_Z n ++ " records on the `"
                       ++ field_name info ++ "` connection exceeds the `" ++ key
                       ++ "` limit of " ++ str_of_Z m ++ " records."))
      else Ok args
  | _, _ => Ok args
  end.

(** The head of [DjangoConnectionField.connection_resolver]: the
    [enforce_first_or_last] assertion and the two [max_limit] checks, which
    give the arguments the resolver and the paginator see. *)
Definition checked_bounds (max_limit : value) (enforce_first_or_last : bool)
           (info : Info) (args : dict) : result dict :=
  let? _ := if enforce_first_or_last
               && negb (truthy (por (get "first" args) (get "last" args)))
            then Raise (AssertionError (first_or_last_message info))
            else Ok tt in
  let? args := apply_max_limit "first" max_limit info args in
  apply_max_limit "last" max_limit info args.

Definition DjangoConnectionField_connection_resolver
           (cls_resolve_connection : QuerySet -> dict -> option iterable -> result Connection)
           (resolver : Resolver) (default_manager : QuerySet) (max_limit : value)
           (enforce_first_or_last : bool)
           (root : option Instance) (info : Info) (args : dict) : result Connection :=
  let? args := checked_bounds max_limit enforce_first_or_last info args in
  let? it := resolver root info args in
  cls_resolve_connection default_manager args it.

Definition DjangoFilterConnectionField_connection_resolver
           (cls_resolve_connection : QuerySet -> dict -> option iterable -> result Connection)
           (resolver : Resolver) (default_manager : QuerySet) (max_limit : value)
           (enforce_first_or_last : bool)
           (filterset_class : FilterSetClass) (filtering_args : list string)
           (root : option Instance) (info : Info) (args : dict) : result Connection :=
  let filter_kwargs :=
    filter (fun kv => existsb (String.eqb (fst kv)) filtering_args) args in
  let qs := filterset_class filter_kwargs default_manager in
  DjangoConnectionField_connection_resolver cls_resolve_connection resolver qs
    max_limit enforce_first_or_last root info args.

Section ConnectionResolver.

Context (B : Backend).

(** [PermissionedConnectionField.connection_resolver]: order the base
    queryset, bind it to a fresh permission object, keep what the user may
    view, and hand that to the parent as its manager's queryset. *)
Definition connection_resolver
           (resolver : Resolver) (default_manager : QuerySet) (max_limit : value)
           (enforce_first_or_last : bool)
           (filterset_class : FilterSetClass) (filtering_args : list string)
           (permission_class : PermissionClass)
           (root : option Instance) (info : Info) (args : dict) : result Connection :=
  let qs := default_manager in
  let? ordering := args_orderBy args in
  let? qs := order_queryset B qs ordering in
  let qs := get_viewable permission_class qs (context_user info) in
  DjangoFilterConnectionField_connection_resolver (resolve_connection B)
    resolver qs max_limit enforce_first_or_last filterset_class filtering_args
    root info args.

End ConnectionResolver.

(** ** An in-memory store

    A list-backed stand-in for the collaborators of [Backend], used to run
    the layer on concrete requests.  As in Django, [order_by] is lazy: it
    records the ordering and resolves no field name; a name the model does
    not have is refused with [FieldError] where the queryset is evaluated
    or filtered, which for a list query is the paginator's [page].
    Querysets intersect on merging, [count] is a query of its own that
    does not look at the ordering, and the paginator follows
    django-cursor-pagination's [CursorPaginator] (cursors are kept as the
    joined position text, without the transport encoding). *)

Module ListStore.

(** [getattr(obj, name)] for a model field. *)
Definition getattr (name : string) (obj : Instance) : value :=
  if (name =? "id")%string || (name =? "pk")%string
  then match obj_id obj with Some z => PInt z | None => PNone end
  else get name (obj_attrs obj).

Definition is_desc (token : string) : bool := prefix "-" token.

(** [token.lstrip('-')]. *)
Fixpoint lstrip_dash (token : string) : string :=
  match token with
  | String "-"%char rest => lstrip_dash rest
  | _ => token
  end.

Definition compare_values (a b : value) : comparison :=
  match a, b with
  | PInt x, PInt y => Z.compare x y
  | PStr x, PStr y => String.compare x y
  | PNone, PNone => Eq
  | PNone, _ => Lt
  | _, PNone => Gt
  | _, _ => Eq
  end.

(** The comparison an ordering imposes on two instances. *)
Fixpoint compare_by (ordering : list string) (a b : Instance) : comparison :=
  match ordering with
  | [] => Eq
  | token :: rest =>
      let f := lstrip_dash token in
      let c := compare_values (getattr f a) (getattr f b) in
      let c := if is_desc token then CompOpp c else c in
      match c with
      | Eq => compare_by rest a b
      | _ => c
      end
  end.

Fixpoint insert_by (ordering : list string) (x : Instance) (l : list Instance)
  : list Instance :=
  match l with
  | [] => [x]
  | y :: l' =>
      match compare_by ordering x y with
      | Gt => y :: insert_by ordering x l'
      | _ => x :: l
      end
  end.

Definition sort_by (ordering : list string) (l : list Instance) : list Instance :=
  fold_right (insert_by ordering) [] l.

Section WithModel.

(** The names the model resolves, in the order its error message lists
    them. *)
Context (model_fields : list string).

(** The first token of an ordering that names no field of the model. *)
Definition unknown_field (ordering : list string) : option string :=
  find (fun token => negb (existsb (String.eqb (lstrip_dash token)) model_fields))
       ordering.

Definition cannot_resolve_keyword (name : string) : string :=
  "Cannot resolve keyword '" ++ name ++ "' into field. Choices are: "
  ++ String.concat ", " model_fields.

(** Resolving the names of an ordering, as evaluating or filtering the
    ordered queryset does. *)
Definition resolve_fields (ordering : list string) : result unit :=
  match unknown_field ordering with
  | Some token => Raise (FieldError (cannot_resolve_keyword (lstrip_dash token)))
  | None => Ok tt
  end.

(** [QuerySet.order_by]: lazy, no name is resolved here.  The list
    holds the rows in the order an evaluation under a valid ordering
    yields them. *)
Definition order_by (qs : QuerySet) (ordering : list string) : result QuerySet :=
  Ok (sort_by ordering qs).

(** [qs.count()]: the ordering plays no part in it. *)
Definition count (qs : QuerySet) : result Z :=
  Ok (Z.of_nat (List.length qs)).

Definition same_id (a b : Instance) : bool :=
  match obj_id a, obj_id b with
  | Some x, Some y => x =? y
  | _, _ => false
  end.

(** [queryset & default_queryset]: the rows of the default queryset that
    the other one holds too. *)
Definition merge_querysets (default_queryset queryset : QuerySet) : QuerySet :=
  filter (fun a => existsb (same_id a) queryset) default_queryset.

Definition position_from_instance (ordering : list string) (obj : Instance)
  : list value :=
  map (fun token => getattr (lstrip_dash token) obj) ordering.

Definition cursor_of (ordering : list string) (obj : Instance) : string :=
  String.concat "|" (map str (position_from_instance ordering obj)).

Fixpoint split_on (sep : ascii) (s : string) (acc : string) : list string :=
  match s with
  | EmptyString => [acc]
  | String c rest =>
      if Ascii.eqb c sep then acc :: split_on sep rest ""
      else split_on sep rest (acc ++ String c "")
  end.

Definition decode_cursor (c : string) : list string := split_on "|"%char c "".

Definition compare_component (v : value) (c : string) : option comparison :=
  match v with
  | PInt z => option_map (Z.compare z) (Z_of_str c)
  | PStr s => Some (String.compare s c)
  | _ => None
  end.

Fixpoint compare_position (vs : list value) (cs : list string) : option comparison :=
  match vs, cs with
  | [], [] => Some Eq
  | v :: vs', c :: cs' =>
      match compare_component v c with
      | Some Eq => compare_position vs' cs'
      | r => r
      end
  | _, _ => None
  end.

(** [apply_cursor]: the rows strictly beyond the cursor's position. *)
Definition apply_cursor (ordering : list string) (c : string) (qs : QuerySet)
           (reverse : bool) : QuerySet :=
  let position := decode_cursor c in
  let is_reversed := match ordering with t :: _ => is_desc t | [] => false end in
  let want := if Bool.eqb reverse is_reversed then Gt else Lt in
  filter (fun obj =>
            match compare_position (position_from_instance ordering obj) position with
            | Some r => match r, want with
                        | Gt, Gt => true
                        | Lt, Lt => true
                        | _, _ => false
                        end
            | None => false
            end) qs.

Definition nat_of_value (v : value) : nat :=
  match v with PInt z => Z.to_nat z | _ => 0%nat end.

Definition is_cursor (v : value) : bool :=
  match v with PStr _ => true | _ => false end.

(** [CursorPaginator.page].  Without a page size the whole queryset is
    the page, evaluated when its items are read; a cursor filters on the
    ordering's fields, which resolves them; [first] together with [last] is
    refused before anything is fetched; otherwise the slice is fetched. *)
Definition paginator_page (ordering : list string) (queryset : QuerySet)
           (first last before after : value) : result Page :=
  match por first last with
  | PNone =>
      let? _ := resolve_fields ordering in
      Ok (mkPage queryset false false)
  | page_size =>
      let? _ := if is_cursor after || is_cursor before
                then resolve_fields ordering
                else Ok tt in
      let qs := match after with
                | PStr c => apply_cursor ordering c queryset false
                | _ => queryset
                end in
      let qs := match before with
                | PStr c => apply_cursor ordering c qs true
                | _ => qs
                end in
      match first, last with
      | PNone, PNone =>
          let? _ := resolve_fields ordering in
          Ok (mkPage queryset false false)
      | _, PNone =>
          let? _ := resolve_fields ordering in
          let qs := firstn (nat_of_value first + 1) qs in
          let items := firstn (nat_of_value page_size) qs in
          Ok (mkPage items (Nat.ltb (List.length items) (List.length qs)) false)
      | PNone, _ =>
          let? _ := resolve_fields ordering in
          (* the reversed ordering lists the rows backwards *)
          let qs := firstn (nat_of_value last + 1) (rev qs) in
          let items := firstn (nat_of_value page_size) qs in
          Ok (mkPage (rev items) false
                     (Nat.ltb (List.length items) (List.length qs)))
      | _, _ => Raise (ValueError "Cannot process first and last")
      end
  end.

Definition directions_match (ordering : list string) : bool :=
  forallb is_desc ordering || forallb (fun t => negb (is_desc t)) ordering.

Definition CursorPaginator (it : iterable) (ordering : list string)
  : result Paginator :=
  match it with
  | IList _ => Raise (AttributeError "'list' object has no attribute 'order_by'")
  | IQuerySet qs | IManager qs =>
      let? queryset := order_by qs ordering in
      if directions_match ordering
      then Ok (mkPaginator (paginator_page ordering queryset) (cursor_of ordering))
      else Raise (InvalidCursor "Direction of orderings must match")
  end.

Definition backend : Backend :=
  mkBackend order_by merge_querysets count CursorPaginator.

End WithModel.

End ListStore.

(** ** The world a request runs in

    Node lookups and mutations read and write the database and consult the
    permission object.  The [World] holds the rows and, as ghost state, the
    [trace] of the collaborator calls a handler has made so far, in order. *)

Inductive Event : Type :=
| EvLookup (model : string) (id_val : value)
| EvCanView (user : User) (obj : Instance)
| EvCanAdd (user : User) (obj : Instance)
| EvCanChange (user : User) (obj : Instance)
| EvCanDelete (user : User) (obj : Instance)
| EvIsValid (data : dict)
| EvSave (instance : option Instance) (data : dict)
| EvDelete (obj : Instance).

Definition is_policy_event (ev : Event) : bool :=
  match ev with
  | EvCanView _ _ | EvCanAdd _ _ | EvCanChange _ _ | EvCanDelete _ _ => true
  | _ => false
  end.

Record World : Type := mkWorld {
  db : list Instance;
  trace : list Event
}.

Definition M (A : Type) : Type := World -> result A * World.

Definition ret {A} (a : A) : M A := fun w => (Ok a, w).

Definition raise {A} (e : exn) : M A := fun w => (Raise e, w).

Definition bind {A B} (m : M A) (k : A -> M B) : M B :=
  fun w =>
    match m w with
    | (Ok a, w') => k a w'
    | (Raise e, w') => (Raise e, w')
    end.

Notation "x <- m ;; k" := (bind m (fun x => k))
  (at level 61, m at next level, right associativity).

Definition emit (ev : Event) : M unit :=
  fun w => (Ok tt, mkWorld (db w) (trace w ++ [ev])).

(** [try: m except DoesNotExist: handler]. *)
Definition except_DoesNotExist {A} (m : M A) (handler : M A) : M A :=
  fun w =>
    match m w with
    | (Raise DoesNotExist, w') => handler w'
    | r => r
    end.

(** The events a run appended to the trace it started from. *)
Definition new_events (w w' : World) : list Event :=
  skipn (List.length (trace w)) (trace w').

(** ** Models and their managers *)

Record ModelClass : Type := mkModel {
  model_name : string;
  model_repr : string
}.

(** [model.objects.all()]. *)
Definition objects_all (model : string) : M QuerySet :=
  fun w => (Ok (filter (fun o => (obj_class o =? model)%string) (db w)), w).

(** The primary key a lookup value denotes: [None] matches no row, a number
    or its decimal text matches the row of that id, anything else is
    refused by the field. *)
Definition pk_of_value (v : value) : result (option Z) :=
  match v with
  | PNone => Ok None
  | PInt z => Ok (Some z)
  | PStr s =>
      match Z_of_str s with
      | Some z => Ok (Some z)
      | None => Raise (ValueError ("Field 'id' expected a number but got '" ++ s ++ "'."))
      end
  | _ => Raise (TypeError "Field 'id' expected a number")
  end.

Definition has_pk (k : option Z) (obj : Instance) : bool :=
  match k, obj_id obj with
  | Some a, Some b => a =? b
  | _, _ => false
  end.

(** [model.objects.filter(id=id_val).first()]. *)
Definition objects_filter_first (model : ModelClass) (id_val : value)
  : M (option Instance) :=
  _ <- emit (EvLookup (model_name model) id_val) ;;
  qs <- objects_all (model_name model) ;;
  match pk_of_value id_val with
  | Ok k => ret (find (has_pk k) qs)
  | Raise e => raise e
  end.

(** [model.objects.get(pk=id)]. *)
Definition objects_get (model : ModelClass) (id_val : value) : M Instance :=
  found <- objects_filter_first model id_val ;;
  match found with
  | Some inst => ret inst
  | None => raise DoesNotExist
  end.

(** ** Permissioned types, fields and nodes
    ([types.py], [fields.py], [node.py]) *)

Record PermissionedType : Type := mkType {
  meta_model : ModelClass;
  permission_class : PermissionClass
}.

Definition view_denied_message (cls : PermissionedType) : string :=
  "You do not have permission to view this " ++ model_name (meta_model cls)
  ++ " instance.".

(** [PermissionedType.ensure_user_can_view_instance]. *)
Definition ensure_user_can_view_instance (cls : PermissionedType) (info : Info)
           (inst : Instance) : M unit :=
  queryset <- objects_all (model_name (meta_model cls)) ;;
  _ <- emit (EvCanView (context_user info) inst) ;;
  if negb (can_view (permission_class cls) queryset (context_user info) inst)
  then raise (GraphQLError (view_denied_message cls))
  else ret tt.

(** The message of [get_node] when the row is missing.  The source's
    literal carries no [f] prefix, so the braces reach the caller as
    written. *)
Definition not_found_message : string :=
  "Requested {cls._meta.model.__name__} instance does not exist.".

(** [PermissionedType.get_node]. *)
Definition get_node (cls : PermissionedType) (info : Info) (id : value)
  : M Instance :=
  inst <- except_DoesNotExist
            (objects_get (meta_model cls) id)
            (raise (GraphQLError not_found_message)) ;;
  _ <- ensure_user_can_view_instance cls info inst ;;
  ret inst.

(** The resolver a [PermissionedTypeField] wraps: a related instance or
    [None]. *)
Definition FieldResolver : Type := option Instance -> Info -> dict -> M (option Instance).

(** [PermissionedTypeField.get_resolver]: [res] is the parent class's
    resolver for the field, [base_type] the type given to the
    constructor. *)
Definition resolve_with_permission_check (base_type : PermissionedType)
           (res : FieldResolver)
           (root : option Instance) (info : Info) (kwargs : dict)
  : M (option Instance) :=
  inst <- res root info kwargs ;;
  _ <- match inst with
       | Some i => ensure_user_can_view_instance base_type info i
       | None => ret tt
       end ;;
  ret inst.

Module PermissionedNode.

(** [PermissionedNode.from_global_id]. *)
Definition from_global_id {G A : Type} (global_id : G) : result A :=
  Raise (NotImplementedError "from_global_id has yet to be implemented").

(** [PermissionedNode.to_global_id]. *)
Definition to_global_id {T I : Type} (type : T) (id : I) : I := id.

(** [PermissionedNode.get_node_from_global_id]; [implements] tells whether
    the node interface is among [only_type._meta.interfaces]. *)
Definition get_node_from_global_id (info : Info) (global_id : value)
           (only_type : option (PermissionedType * bool)) : M (option Instance) :=
  match only_type with
  | None => raise (AssertionError "PermissionedNode requres only_type to be specified")
  | Some (cls, implements) =>
      if negb implements then ret None
      else node <- get_node cls info global_id ;; ret (Some node)
  end.

End PermissionedNode.

(** ** Mutations ([mutations.py]) *)

Definition EDGE_ORDER_BY_INPUT_FIELD : string := "edge_cursor_order_by".

Definition permission_error_message : string :=
  "You do not have permission to perform this mutation".

Definition _raise_permission_error {A} : M A :=
  raise (GraphQLError permission_error_message).

Definition edge_without_ordering_message : string :=
  "You cannot request the `edge` field without also specifying an ordering value using `edgeCursorOrderBy` in the mutation input. Otherwise, the mutation handler does not know how to compute the cursor for the resulting edge.".

(** Modelled from the spec: the interface of the serializer class a
    mutation is built from (the external validator; [ModelSerializer] of
    the enclosing project is not among the sources): validation against
    the rows, the field errors of invalid data, the candidate object of
    [build_obj], and [save], the collection's create/update primitive. *)
Record SerializerClass : Type := mkSerializerClass {
  is_valid : list Instance -> option Instance -> dict -> bool;
  errors : list Instance -> option Instance -> dict -> list (string * list string);
  build_obj : option Instance -> dict -> Instance;
  save : option Instance -> dict -> list Instance -> result Instance * list Instance
}.

(** [serializer_class(instance=..., data=..., context=...)]. *)
Record Serializer : Type := mkSerializer {
  ser_class : SerializerClass;
  instance : option Instance;
  data : dict
}.

Definition serializer_is_valid (s : Serializer) : M bool :=
  fun w =>
    (Ok (is_valid (ser_class s) (db w) (instance s) (data s)),
     mkWorld (db w) (trace w ++ [EvIsValid (data s)])).

Definition serializer_errors (s : Serializer) : M (list (string * list string)) :=
  fun w => (Ok (errors (ser_class s) (db w) (instance s) (data s)), w).

Definition serializer_save (s : Serializer) : M Instance :=
  fun w =>
    let '(r, rows) := save (ser_class s) (instance s) (data s) (db w) in
    (r, mkWorld rows (trace w ++ [EvSave (instance s) (data s)])).

Record ErrorType : Type := mkErrorType {
  field : string;
  messages : list string
}.

Record Payload : Type := mkPayload {
  payload_errors : option (list ErrorType);
  payload_result : option Instance;
  payload_edge : option Edge;
  ok : bool
}.

Record MutationClass : Type := mkMutation {
  lookup_field : option string;
  model_class : option ModelClass;
  model_operations : list string;
  serializer_class : SerializerClass;
  mutation_permission_class : PermissionClass
}.

Definition in_ops (op : string) (cls : MutationClass) : bool :=
  existsb (String.eqb op) (model_operations cls).

(** [input[lookup_field]] when [lookup_field in input]. *)
Definition input_lookup (cls : MutationClass) (input : dict) : option value :=
  match lookup_field cls with
  | Some f => lookup f input
  | None => None
  end.

(** A request that loads no instance: the branch of
    [get_serializer_kwargs] that binds the serializer to [None]. *)
Definition is_create_request (cls : MutationClass) (input : dict) : bool :=
  match model_class cls with
  | Some _ =>
      match (if in_ops "update" cls then input_lookup cls input else None) with
      | Some _ => false
      | None => in_ops "create" cls
      end
  | None => true
  end.

(** The guard at the head of [mutate_and_get_payload]: the edge is
    requested and the input carries no ordering for it. *)
Definition edge_without_ordering (info : Info) (input : dict) : bool :=
  sel_get_truthy "edge" (get_fields info)
  && negb (truthy (get "edge_cursor_order_by" input)).

Definition dquote : string := String (ascii_of_nat 34) EmptyString.

Definition lookup_repr (cls : MutationClass) : string :=
  match lookup_field cls with Some f => f | None => "None" end.

Definition does_not_exist_message (model : ModelClass) (id_val : value) : string :=
  model_repr model ++ " instance with ID " ++ str id_val ++ " does not exist.".

(** The object a mutation authorizes: [serializer.instance or
    serializer.build_obj()]. *)
Definition authorized_object (serializer : Serializer) : Instance :=
  match instance serializer with
  | Some inst => inst
  | None => build_obj (ser_class serializer) (instance serializer) (data serializer)
  end.

Section Mutations.

Context (B : Backend).

(** [get_serializer_kwargs]: the instance the serializer is bound to.
    The first branch is taken when ["update"] is among the operations and
    the lookup field is a key of [input]. *)
Definition get_serializer_kwargs (cls : MutationClass) (info : Info) (input : dict)
  : M (option Instance) :=
  match model_class cls with
  | Some model =>
      match (if in_ops "update" cls then input_lookup cls input else None) with
      | Some id_val =>
          found <- objects_filter_first model id_val ;;
          match found with
          | Some inst => ret (Some inst)
          | None => raise (Exception (does_not_exist_message model id_val))
          end
      | None =>
          if in_ops "create" cls then ret None
          else raise (Exception ("Invalid update operation. Input parameter "
                                 ++ dquote ++ lookup_repr cls ++ dquote
                                 ++ " required."))
      end
  | None => ret None
  end.

(** [_get_edge]. *)
Definition _get_edge (cls : MutationClass) (obj : Instance) (ordering : list string)
  : M Edge :=
  match model_class cls with
  | None => raise (AttributeError "'NoneType' object has no attribute 'objects'")
  | Some model =>
      queryset <- objects_all (model_name model) ;;
      match get_paginator_for_queryset B (IQuerySet queryset) ordering with
      | Ok paginator => ret (mkEdge obj (cursor paginator obj))
      | Raise e => raise e
      end
  end.

(** [_save_and_get_payload]. *)
Definition _save_and_get_payload (cls : MutationClass) (serializer : Serializer)
           (input : dict) : M Payload :=
  obj <- serializer_save serializer ;;
  let ordering := get EDGE_ORDER_BY_INPUT_FIELD input in
  edge <- (if truthy ordering then
             match ordering with
             | PStrs l => e <- _get_edge cls obj l ;; ret (Some e)
             | _ => raise (TypeError "ordering is not a list of strings")
             end
           else ret None) ;;
  ret (mkPayload None (Some obj) edge true).

(** [perform_mutate]. *)
Definition perform_mutate (cls : MutationClass) (serializer : Serializer)
           (info : Info) (input : dict) : M Payload :=
  let obj := authorized_object serializer in
  queryset <- objects_all (obj_class obj) ;;
  let perm_inst := mutation_permission_class cls in
  has_permission <-
    (if id_truthy obj then
       _ <- emit (EvCanChange (context_user info) obj) ;;
       ret (can_change perm_inst queryset (context_user info) obj)
     else
       _ <- emit (EvCanAdd (context_user info) obj) ;;
       ret (can_add perm_inst queryset (context_user info) obj)) ;;
  if negb has_permission then _raise_permission_error
  else _save_and_get_payload cls serializer input.

(** [mutate_and_get_payload]. *)
Definition mutate_and_get_payload (cls : MutationClass) (info : Info) (input : dict)
  : M Payload :=
  let requested_fields := get_fields info in
  if sel_get_truthy "edge" requested_fields
     && negb (truthy (get EDGE_ORDER_BY_INPUT_FIELD input))
  then raise (Exception edge_without_ordering_message)
  else
    inst <- get_serializer_kwargs cls info input ;;
    let serializer := mkSerializer (serializer_class cls) inst input in
    valid <- serializer_is_valid serializer ;;
    if valid then perform_mutate cls serializer info input
    else
      errs <- serializer_errors serializer ;;
      ret (mkPayload (Some (map (fun kv => mkErrorType (fst kv) (snd kv)) errs))
                     None None false).

End Mutations.

(** What Django's deletion collector makes of the rows that refer to an
    object about to be deleted: the other rows as the deletion leaves them
    (those deleted by cascade gone, references set to null updated), or
    the error a protected reference raises. *)
Definition OnDelete : Type := Instance -> list Instance -> result (list Instance).

(** [obj.delete()]: the collector handles the referring rows, then the
    object's own row goes.  The deletion is atomic: when it raises, no row
    has changed. *)
Definition delete_row (on_delete : OnDelete) (obj : Instance) : M unit :=
  fun w =>
    match on_delete obj (db w) with
    | Ok rows =>
        (Ok tt,
         mkWorld (filter (fun o => negb (has_pk (obj_id obj) o
                                         && (obj_class o =? obj_class obj)%string))
                         rows)
                 (trace w ++ [EvDelete obj]))
    | Raise e => (Raise e, mkWorld (db w) (trace w ++ [EvDelete obj]))
    end.

(** [PermissionedDeletionMutation.mutate]; [on_delete] is what the model's
    relations make of a deletion. *)
Definition deletion_mutate (on_delete : OnDelete) (model : ModelClass)
           (permission : PermissionClass)
           (info : Info) (input_id : value) : M bool :=
  found <- objects_filter_first model input_id ;;
  match found with
  | None => raise (Exception (does_not_exist_message model input_id))
  | Some obj =>
      queryset <- objects_all (model_name model) ;;
      _ <- emit (EvCanDelete (context_user info) obj) ;;
      if negb (can_delete permission queryset (context_user info) obj)
      then _raise_permission_error
      else
        _ <- delete_row on_delete obj ;;
        ret true
  end.

(** ** The test schema ([tests/schema.py])

    The [Group] model with the permission class and serializer the
    integration tests build their schema from.  A group row keeps its
    members under ["user"].  The instance-time predicates a permission
    class inherits are membership in the matching query-time filter, which
    is what the tests observe of them. *)

Module TestSchema.

Definition DISALLOW_CREATION : string := "disallow_creation".

Definition Group : ModelClass :=
  mkModel "Group" "<class 'django.contrib.auth.models.Group'>".

(** The names Django resolves on [Group]: its two columns and its two
    relations. *)
Definition group_fields : list string := ["id"; "name"; "permissions"; "user"].

Definition group (id : Z) (name : string) (members : list Z) : Instance :=
  mkInstance "Group" (Some id) [("name", PStr name); ("user", PInts members)].

(** [queryset.filter(user=user)]. *)
Definition filter_user (queryset : QuerySet) (user : User) : QuerySet :=
  filter (fun g => match get "user" (obj_attrs g) with
                   | PInts l => existsb (Z.eqb user) l
                   | _ => false
                   end) queryset.

Definition in_queryset (queryset : QuerySet) (obj : Instance) : bool :=
  existsb (ListStore.same_id obj) queryset.

Definition GroupPermission : PermissionClass :=
  mkPermission
    filter_user
    filter_user
    filter_user
    (fun qs user obj => in_queryset (filter_user qs user) obj)
    (fun _ _ obj => negb (value_eqb (get "name" (obj_attrs obj)) (PStr DISALLOW_CREATION)))
    (fun qs user obj => in_queryset (filter_user qs user) obj)
    (fun qs user obj => in_queryset (filter_user qs user) obj).

Definition GroupType : PermissionedType := mkType Group GroupPermission.

Definition name_is_valid (data : dict) : bool :=
  match get "name" data with
  | PStr s => negb (s =? "")%string
  | _ => false
  end.

Definition next_id (rows : list Instance) : Z :=
  1 + fold_right (fun o m => match obj_id o with Some z => Z.max z m | None => m end)
                 0 rows.

Definition set_name (data : dict) (obj : Instance) : Instance :=
  mkInstance (obj_class obj) (obj_id obj) (set "name" (get "name" data) (obj_attrs obj)).

Definition GroupMutationSerializer : SerializerClass :=
  mkSerializerClass
    (fun _ _ data => name_is_valid data)
    (fun _ _ data => if name_is_valid data then []
                     else [("name", ["This field is required."])])
    (fun _ data => mkInstance "Group" None [("name", get "name" data); ("user", PInts [])])
    (fun inst data rows =>
       match inst with
       | None =>
           let obj := mkInstance "Group" (Some (next_id rows))
                                 [("name", get "name" data); ("user", PInts [])] in
           (Ok obj, (rows ++ [obj])%list)
       | Some old =>
           let obj := set_name data old in
           (Ok obj,
            map (fun o => if ListStore.same_id o old
                             && (obj_class o =? obj_class old)%string
                          then obj else o) rows)
       end).

Definition backend : Backend := ListStore.backend group_fields.

(** Nothing refers to a group row: it keeps its members itself. *)
Definition group_on_delete : OnDelete := fun _ rows => Ok rows.


Definition GroupMutation : MutationClass :=
  mkMutation (Some "id") (Some Group) ["create"; "update"; "delete"]
             GroupMutationSerializer GroupPermission.

(** The signed-in test user and two stored groups: the user belongs to the
    first only. *)
Definition test_user : User := 7.

Definition g1 : Instance := group 1 "g1" [test_user].
Definition g2 : Instance := group 2 "g2" [].

Definition world0 : World := mkWorld [g1; g2] [].

(** A store whose only group was inserted with the id [0]. *)
Definition g0 : Instance := group 0 "g0" [test_user].

Definition world_zero : World := mkWorld [g0] [].

Definition info_for (requested : list (string * selection)) : Info :=
  mkInfo test_user "Group__List" (Sel requested).

Definition selection_ok : list (string * selection) := [("ok", Sel [])].

Definition selection_ok_edge : list (string * selection) :=
  [("ok", Sel []);
   ("edge", Sel [("cursor", Sel []); ("node", Sel [("name", Sel [])])])].

Definition create_input (name : string) : dict := [("name", PStr name)].


(** A group as the serializer creates it: no members yet. *)
Definition new_group (id : Z) (name : string) : Instance :=
  mkInstance "Group" (Some id) [("name", PStr name); ("user", PInts [])].

Definition update_input (id : Z) (name : string) : dict :=
  [("id", PInt id); ("name", PStr name)].

Definition list_args (ordering : list string) (bounds : dict) : dict :=
  ("orderBy", PStrs ordering) :: bounds.

Definition no_filter : FilterSetClass := fun _ qs => qs.

Definition no_resolver : Resolver := fun _ _ _ => Ok None.

End TestSchema.

(** ** Reading traces *)

Definition is_save_event (ev : Event) : bool :=
  match ev with
  | EvSave _ _ => true
  | _ => false
  end.

Definition is_delete_event (ev : Event) : bool :=
  match ev with
  | EvDelete _ => true
  | _ => false
  end.

(** The row [obj.delete()] removes: same model, same id. *)
Definition same_row (obj o : Instance) : bool :=
  has_pk (obj_id obj) o && (obj_class o =? obj_class obj)%string.

(** ** Declaring mutation classes and types
    ([__init_subclass_with_meta__] of [mutations.py] and [types.py]) *)

(** A dictionary keyed by names, as [input_fields] is. *)
Fixpoint assoc_set {A} (k : string) (v : A) (d : list (string * A))
  : list (string * A) :=
  match d with
  | [] => [(k, v)]
  | (k', v') :: d' =>
      if (k =? k')%string then (k, v) :: d' else (k', v') :: assoc_set k v d'
  end.

Definition assoc_has {A} (k : string) (d : list (string * A)) : bool :=
  existsb (fun kv => (k =? fst kv)%string) d.

(** [d.pop(k)]: [KeyError] when the key is absent. *)
Definition assoc_pop {A} (k : string) (d : list (string * A))
  : result (list (string * A)) :=
  if assoc_has k d
  then Ok (filter (fun kv => negb (k =? fst kv)%string) d)
  else Raise (KeyError k).

Inductive InputFieldKind : Type :=
| SerializerInput (name : string)
| GlobalIDInput (required : bool)
| OrderByInput (required : bool).

(** A serializer class as the declaration reads it: the class itself, the
    model of its [Meta] (if any), and the names [fields_for_serializer]
    yields for it under the declaration's [only_fields] and
    [exclude_fields]. *)
Record SerializerDecl : Type := mkSerializerDecl {
  decl_class : SerializerClass;
  decl_meta_model : option ModelClass;
  decl_input_names : list string
}.

Record MutationOptions : Type := mkMutationOptions {
  opt_permission_class : option PermissionClass;
  opt_output_type : option string;
  opt_edge_output_type : option string;
  opt_lookup_field : option string;
  opt_serializer_class : option SerializerDecl;
  opt_model_class : option ModelClass;
  opt_model_operations : list string
}.

(** What the declaration leaves on the class and hands to the parent. *)
Record MutationDecl : Type := mkMutationDecl {
  decl_mutation : MutationClass;
  decl_output_type : string;
  decl_edge_output_type : option string;
  decl_fields : list string;
  decl_input_fields : list (string * InputFieldKind)
}.

Section MutationDeclaration.

(** [model_class._meta.pk.name]. *)
Context (pk_name : ModelClass -> string).

(** [PermissionedSerializerMutation.__init_subclass_with_meta__]. *)
Definition mutation_init_subclass_with_meta (o : MutationOptions)
  : result MutationDecl :=
  match opt_permission_class o with
  | None => Raise (AssertionError
                     "A permission class is required when using PermissionedSerializerMutation.")
  | Some permission_class =>
  match opt_output_type o with
  | None => Raise (AssertionError
                     "An output type is required when using PermissionedSerializerMutation.")
  | Some output_type =>
  match opt_serializer_class o with
  | None => Raise (Exception "serializer_class is required for the SerializerMutation")
  | Some serializer_class =>
      let model_operations := opt_model_operations o in
      if negb (existsb (String.eqb "update") model_operations)
         && negb (existsb (String.eqb "create") model_operations)
      then Raise (Exception ("model_operations must contain " ++ dquote ++ "create"
                             ++ dquote ++ " and/or " ++ dquote ++ "update" ++ dquote))
      else
        let model_class :=
          match opt_model_class o with
          | Some m => Some m
          | None => decl_meta_model serializer_class
          end in
        let lookup_field :=
          match opt_lookup_field o, model_class with
          | None, Some m => Some (pk_name m)
          | given, _ => given
          end in
        let input_fields :=
          map (fun n => (n, SerializerInput n)) (decl_input_names serializer_class) in
        let? input_fields :=
          if existsb (String.eqb "update") model_operations
          then Ok (assoc_set "id" (GlobalIDInput false) input_fields)
          else assoc_pop "id" input_fields in
        let input_fields :=
          assoc_set EDGE_ORDER_BY_INPUT_FIELD (OrderByInput false) input_fields in
        Ok (mkMutationDecl
              (mkMutation lookup_field model_class model_operations
                          (decl_class serializer_class) permission_class)
              output_type (opt_edge_output_type o)
              ["result"; "edge"] input_fields)
  end end end.

End MutationDeclaration.

(** [PermissionedDeletionMutation.__init_subclass_with_meta__]. *)
Definition deletion_init_subclass_with_meta
           (permission_class : option PermissionClass) (model : option ModelClass)
  : result (ModelClass * PermissionClass) :=
  match permission_class with
  | None => Raise (AssertionError
                     "A permission class is required when using PermissionedDeletionMutation.")
  | Some p =>
      match model with
      | None => Raise (AssertionError
                         "A model is required when using PermissionedDeletionMutation")
      | Some m => Ok (m, p)
      end
  end.

Record TypeOptions : Type := mkTypeOptions {
  topt_name : string;
  topt_interfaces : list string;
  topt_permission_class : option PermissionClass;
  topt_filter_fields : list string;
  topt_filterset_class : option FilterSetClass;
  topt_model : option ModelClass
}.

Record TypeDecl : Type := mkTypeDecl {
  decl_type : PermissionedType;
  decl_interfaces : list string;
  decl_filterset_class : FilterSetClass
}.

(** [PermissionedType.__init_subclass_with_meta__];
    [deprecated_create_filter_class] is the default filterset of
    [filters.py]. *)
Definition type_init_subclass_with_meta
           (deprecated_create_filter_class : ModelClass -> FilterSetClass)
           (o : TypeOptions) : result TypeDecl :=
  let interfaces := (topt_interfaces o ++ ["PermissionedNode"])%list in
  match topt_permission_class o with
  | None => Raise (AssertionError
                     ("You must specify a `permission_class` to use for the "
                      ++ topt_name o ++ " type."))
  | Some permission_class =>
      match topt_filter_fields o with
      | _ :: _ =>
          Raise (AssertionError
                   "Please use the `filterset_class` option instead of setting `filter_fields` directly.")
      | [] =>
          match topt_model o with
          | None => Raise (KeyError "model")
          | Some model =>
              let default := deprecated_create_filter_class model in
              Ok (mkTypeDecl (mkType model permission_class) interfaces
                    (match topt_filterset_class o with
                     | Some f => f
                     | None => default
                     end))
          end
      end
  end.

(** [cls not in only_type._meta.interfaces], for [cls] the node
    interface. *)
Definition implements_node (interfaces : list string) : bool :=
  existsb (String.eqb "PermissionedNode") interfaces.

(** ** Converting relations ([converter.py], [fields.py]) *)

(** A type of the registry, as the converters see it: its name and the
    two attributes they test with [hasattr], each of which a type may
    carry without the other.  [hasattr] looks at presence only, so a
    present [permission_class] may still hold [None]. *)
Record GrapheneType : Type := mkGrapheneType {
  graphene_name : string;
  attr_permission_class : option (option PermissionClass);
  attr_ensure_user_can_view_instance : option (Info -> Instance -> M unit)
}.

(** A declared [PermissionedType] carries both attributes. *)
Definition graphene_type_of (name : string) (t : PermissionedType) : GrapheneType :=
  mkGrapheneType name (Some (Some (permission_class t)))
                 (Some (ensure_user_can_view_instance t)).

(** [registry.get_type_for_model(model)]. *)
Definition Registry : Type := string -> option GrapheneType.

Record RelationField : Type := mkRelationField {
  related_model : string;
  help_text : string;
  null : bool
}.

(** The fields the converters build: the connection field
    [create_permissioned_connection_field_for_type] makes for a type, and
    a [PermissionedTypeField]. *)
Inductive ConvertedField : Type :=
| PermissionedConnection (type : GrapheneType)
| PermissionedField (base_type : GrapheneType) (description : option string)
                    (required : bool).

Inductive ConversionError : Type :=
| ConversionAssertionError (msg : string)
| ConversionNameError (name : string).

(** What calling a converter's [dynamic_type] gives: no field, a field, or
    an error. *)
Inductive Converted : Type :=
| NoField
| Field (f : ConvertedField)
| ConversionFails (e : ConversionError).

(** [PermissionedTypeField.__init__]. *)
Definition PermissionedTypeField_init (type : GrapheneType)
           (description : option string) (required : bool) : Converted :=
  match attr_ensure_user_can_view_instance type with
  | Some _ => Field (PermissionedField type description required)
  | None =>
      ConversionFails
        (ConversionAssertionError
           "Types which are passed to PermissionField should sub-class `PermissionedType`")
  end.

(** [PermissionedTypeField.get_resolver] for the [base_type] the
    constructor kept; calling an attribute the type lacks is an
    [AttributeError]. *)
Definition PermissionedTypeField_get_resolver (base_type : GrapheneType)
           (res : FieldResolver) : FieldResolver :=
  fun root info kwargs =>
    inst <- res root info kwargs ;;
    _ <- match inst with
         | Some i =>
             match attr_ensure_user_can_view_instance base_type with
             | Some ensure => ensure info i
             | None =>
                 raise (AttributeError
                          ("type object '" ++ graphene_name base_type
                           ++ "' has no attribute 'ensure_user_can_view_instance'"))
             end
         | None => ret tt
         end ;;
    ret inst.

(** [convert_field_to_list_or_connection] (many-to-many and reverse
    relations); the connection field is the one
    [create_permissioned_connection_field_for_type] builds for the type. *)
Definition convert_field_to_list_or_connection (field : RelationField)
           (registry : Registry) : Converted :=
  match registry (related_model field) with
  | None => NoField
  | Some _type =>
      match attr_permission_class _type with
      | Some _ => Field (PermissionedConnection _type)
      | None =>
          ConversionFails
            (ConversionAssertionError
               "Attempt to connect to type which does not have a permission_class. Ensure it does by sub-classing `graphene_django_plus.types.PermissionedType`")
      end
  end.

(** [convert_onetoone_field_to_djangomodel] (reverse one-to-one): the
    [required] argument reads a name, [null], that nothing binds. *)
Definition convert_onetoone_field_to_djangomodel (field : RelationField)
           (registry : Registry) : Converted :=
  match registry (related_model field) with
  | None => NoField
  | Some _ => ConversionFails (ConversionNameError "null")
  end.

(** [convert_field_to_djangomodel] (one-to-one and foreign key). *)
Definition convert_field_to_djangomodel (field : RelationField)
           (registry : Registry) : Converted :=
  match registry (related_model field) with
  | None => NoField
  | Some type =>
      PermissionedTypeField_init type (Some (help_text field)) (negb (null field))
  end.

(** The resolver of a converted single-instance field. *)
Definition converted_resolver (f : ConvertedField) (res : FieldResolver)
  : option FieldResolver :=
  match f with
  | PermissionedField base_type _ _ =>
      Some (PermissionedTypeField_get_resolver base_type res)
  | PermissionedConnection _ => None
  end.

(** The declarations of the test schema's factories: the group serializer
    exposes [name] only. *)
Definition GroupSerializerDecl : SerializerDecl :=
  mkSerializerDecl TestSchema.GroupMutationSerializer (Some TestSchema.Group) ["name"].

Definition group_mutation_options (operations : list string) : MutationOptions :=
  mkMutationOptions (Some TestSchema.GroupPermission) (Some "GroupType")
                    (Some "GroupTypeEdge") None (Some GroupSerializerDecl) None
                    operations.

Definition group_type_options : TypeOptions :=
  mkTypeOptions "GroupType" [] (Some TestSchema.GroupPermission) []
                (Some TestSchema.no_filter) (Some TestSchema.Group).

Definition id_pk_name : ModelClass -> string := fun _ => "id".

(** ** Reporting execution errors ([views.py]) *)

(** An error of an execution result and what its [original_error]
    attribute holds: the exception that caused it, [None], or nothing at
    all (the attribute is missing). *)
Inductive OriginalError : Type :=
| Original (e : exn)
| OriginalNone
| NoOriginalAttribute.

Record ExecutionError : Type := mkExecutionError {
  error_class : string;
  error_message : string;
  original_error : OriginalError
}.

(** The result of the parent view's [execute_graphql_request]; [errors]
    may be [None]. *)
Record ExecutionResult : Type := mkExecutionResult {
  result_data : option string;
  result_errors : option (list ExecutionError)
}.

(** What the view sends out besides its result: the exceptions handed to
    Sentry and the lines printed, oldest first. *)
Record Reports : Type := mkReports {
  captured : list exn;
  printed : list string
}.

(** The exception [raise error.original_error] raises. *)
Definition raise_original_error (error : ExecutionError) : exn :=
  match original_error error with
  | Original e => e
  | OriginalNone => TypeError "exceptions must derive from BaseException"
  | NoOriginalAttribute =>
      AttributeError ("'" ++ error_class error
                      ++ "' object has no attribute 'original_error'")
  end.

Section ExceptionHandlingView.

(** [traceback.format_exc()] for the exception being handled. *)
Context (format_exc : exn -> string).

(** The body of the loop: every exception of the [try] is an [Exception],
    so the handler runs. *)
Definition report_error (r : Reports) (error : ExecutionError) : Reports :=
  let e := raise_original_error error in
  mkReports (captured r ++ [e])
            (printed r ++ ["Exception was caught by GraphQL Core. Original error:";
                           format_exc e]).

(** [ExceptionHandlingGraphQLView.execute_graphql_request], given the
    parent's result. *)
Definition execute_graphql_request (result : option ExecutionResult) (r : Reports)
  : option ExecutionResult * Reports :=
  match result with
  | Some res =>
      match result_errors res with
      | Some (e :: es) => (result, fold_left report_error (e :: es) r)
      | _ => (result, r)
      end
  | None => (result, r)
  end.

End ExceptionHandlingView.

(** ** The test case helpers ([testing.py]) *)

(** A response as the helpers read it: [res.get("errors")] and
    [str(res)]. *)
Record Response : Type := mkResponse {
  response_errors : list string;
  response_str : string
}.

Definition CRITICAL : Z := 50.
Definition NOTSET : Z := 0.

Definition newline : string := String (ascii_of_nat 10) EmptyString.

Section GrapheneTestCase.

Context {Schema Store : Type}.

(** [Client(schema).execute(q_string, context_value=req)] for a request
    of the given user ([None]: the anonymous user): the query runs against
    the test database, which a mutation changes, and gives a response. *)
Context (client_execute :
           Schema -> option User -> string -> Store -> Response * Store).

(** What the helpers read and write: the test case's user and schema, the
    level the logging module is disabled at, and the test database. *)
Record TestCase : Type := mkTestCase {
  test_user_of : option User;
  test_schema : option Schema;
  logging_disabled : Z;
  test_store : Store
}.

Definition new_test_case (store : Store) : TestCase :=
  mkTestCase None None NOTSET store.

Definition set_schema (schema : Schema) (t : TestCase) : TestCase :=
  mkTestCase (test_user_of t) (Some schema) (logging_disabled t) (test_store t).

Definition set_user (user : User) (t : TestCase) : TestCase :=
  mkTestCase (Some user) (test_schema t) (logging_disabled t) (test_store t).

(** [execute]: [get_graphene_client], then one execution of the query. *)
Definition test_execute (q_string : string) (t : TestCase)
  : result Response * TestCase :=
  match test_schema t with
  | None => (Raise (AssertionError
                      "Please call `set_schema` before calling `get_graphene_client`."),
             t)
  | Some schema =>
      let '(res, store) := client_execute schema (test_user_of t) q_string
                                          (test_store t) in
      (Ok res, mkTestCase (test_user_of t) (test_schema t) (logging_disabled t) store)
  end.

Definition assertOK (q_string : string) (t : TestCase) : result Response * TestCase :=
  match test_execute q_string t with
  | (Raise e, t) => (Raise e, t)
  | (Ok res, t) =>
      match response_errors res with
      | _ :: _ =>
          (Raise (AssertionError
                    ("GraphQL operation unexpectedly failed with errors. Response was:"
                     ++ newline ++ newline ++ response_str res)), t)
      | [] => (Ok res, t)
      end
  end.

Definition assertError (q_string err_string : string) (t : TestCase)
  : result Response * TestCase :=
  let t := mkTestCase (test_user_of t) (test_schema t) CRITICAL (test_store t) in
  match test_execute q_string t with
  | (Raise e, t) => (Raise e, t)
  | (Ok res, t) =>
      match response_errors res with
      | [] =>
          (Raise (AssertionError
                    ("GraphQL operation unexpectedly succeeded. Response was:"
                     ++ newline ++ newline ++ response_str res)), t)
      | _ :: _ =>
          if str_contains err_string (response_str res)
          then (Ok res, mkTestCase (test_user_of t) (test_schema t) NOTSET
                                   (test_store t))
          else (Raise (AssertionError
                         ("Error was raised, but expected error string " ++ dquote
                          ++ err_string ++ dquote
                          ++ " was not included. Response was:"
                          ++ newline ++ newline ++ response_str res)), t)
      end
  end.

End GrapheneTestCase.

(** ** File fields ([DjangoFileType] of [types.py]) *)

(** The scan of [str.replace] for a non-empty [old]: left to right, the
    occurrences found do not overlap. [skip] counts the characters of an
    occurrence still to pass over. *)
Fixpoint replace_from (old new : string) (skip : nat) (s : string) : string :=
  match s with
  | EmptyString => EmptyString
  | String c rest =>
      match skip with
      | S k => replace_from old new k rest
      | O =>
          if prefix old s
          then new ++ replace_from old new (String.length old - 1) rest
          else String c (replace_from old new 0 rest)
      end
  end.

(** [s.replace(old, new)]; an empty [old] matches before every character
    and at the end. *)
Definition py_replace (s old new : string) : string :=
  match old with
  | EmptyString =>
      new ++ String.concat "" (map (fun c => String c new) (list_ascii_of_string s))
  | _ => replace_from old new 0 s
  end.

Record MediaSettings : Type := mkMediaSettings {
  MEDIA_URL : string;
  DEBUG : bool;
  PROD_MEDIA_URL : string;
  LOCALHOST_MEDIA_URL : string
}.

(** A file field's value: [value.url], which raises [ValueError] when no
    file is associated with the field. *)
Record FieldFile : Type := mkFieldFile {
  file_url : option string
}.

(** [DjangoFileType.serialize]; [image_file_exists] tells whether the
    file is present locally. *)
Definition DjangoFileType_serialize (settings : MediaSettings)
           (image_file_exists : FieldFile -> bool) (value : FieldFile) : string :=
  match file_url value with
  | None => ""
  | Some value_url =>
      let url := py_replace value_url (MEDIA_URL settings) (PROD_MEDIA_URL settings) in
      if DEBUG settings && image_file_exists value
      then py_replace value_url (MEDIA_URL settings) (LOCALHOST_MEDIA_URL settings)
      else url
  end.

(** ** Schema field factories ([factories.py]) *)

Definition LIST_FIELD_FORMAT (type_name : string) : string := type_name ++ "___List".
Definition RETRIEVE_FIELD_FORMAT (type_name : string) : string := type_name ++ "___Item".
Definition CREATE_MUTATION_FIELD (type_name : string) : string := type_name ++ "___Create".
Definition UPDATE_MUTATION_FIELD (type_name : string) : string := type_name ++ "___Update".
Definition DELETE_MUTATION_FIELD (type_name : string) : string := type_name ++ "___Delete".

(** The five kinds of field a factory names. *)
Inductive FieldKind : Type :=
| KindList
| KindRetrieve
| KindCreate
| KindUpdate
| KindDelete.

Definition field_name_of (kind : FieldKind) (type_name : string) : string :=
  match kind with
  | KindList => LIST_FIELD_FORMAT type_name
  | KindRetrieve => RETRIEVE_FIELD_FORMAT type_name
  | KindCreate => CREATE_MUTATION_FIELD type_name
  | KindUpdate => UPDATE_MUTATION_FIELD type_name
  | KindDelete => DELETE_MUTATION_FIELD type_name
  end.

(** The objects a factory makes and keeps on its class: the list and
    retrieve fields [utils.py] builds for the type, and the two mutation
    classes. *)
Inductive FactoryObject : Type :=
| ListFieldObject (t : PermissionedType)
| RetrieveFieldObject (t : PermissionedType)
| MutationClassObject (name : string) (d : MutationDecl)
| DeleteMutationClassObject (name : string) (model : ModelClass)
                            (permission : PermissionClass).

(** The attributes set on a factory class. *)
Definition FactoryAttrs : Type := list (string * FactoryObject).

Fixpoint getattr_or_None (name : string) (attrs : FactoryAttrs) : option FactoryObject :=
  match attrs with
  | [] => None
  | (k, v) :: attrs' =>
      if (name =? k)%string then Some v else getattr_or_None name attrs'
  end.

(** A class method of a factory: it may set attributes and may raise. *)
Definition Making (A : Type) : Type := FactoryAttrs -> result A * FactoryAttrs.

(** [_get_or_make]: every object a factory makes is truthy, so the
    attribute is made exactly when it is not set yet. *)
Definition _get_or_make (attr_name : string) (make_func : Making FactoryObject)
  : Making FactoryObject :=
  fun attrs =>
    match getattr_or_None attr_name attrs with
    | Some obj => (Ok obj, attrs)
    | None =>
        match make_func attrs with
        | (Ok obj, attrs') => (Ok obj, assoc_set attr_name obj attrs')
        | (Raise e, attrs') => (Raise e, attrs')
        end
    end.

(** A factory class with its three attributes set. *)
Record Factory : Type := mkFactory {
  type_class : PermissionedType;
  type_class_name : string;
  mutation_serializer_class : option SerializerDecl;
  mutation_operations : list string
}.

Section Factories.

Context (pk_name : ModelClass -> string).

(** The name of [ListField().type.Edge] for a type. *)
Context (edge_type_name : PermissionedType -> string).

Context (f : Factory).

Definition get_model : ModelClass := meta_model (type_class f).

Definition ListField : Making FactoryObject :=
  _get_or_make "_list_field" (fun attrs => (Ok (ListFieldObject (type_class f)), attrs)).

Definition RetrieveField : Making FactoryObject :=
  _get_or_make "_retrieve_field"
               (fun attrs => (Ok (RetrieveFieldObject (type_class f)), attrs)).

(** [make_mutation_class]: declaring the class runs
    [PermissionedSerializerMutation.__init_subclass_with_meta__] on its
    [Meta]. *)
Definition make_mutation_class (edge_output : string) : result FactoryObject :=
  let type_name := "CreateOrUpdate" ++ model_name get_model ++ "Mutation" in
  let? d := mutation_init_subclass_with_meta pk_name
              (mkMutationOptions (Some (permission_class (type_class f)))
                                 (Some (type_class_name f))
                                 (Some edge_output)
                                 None
                                 (mutation_serializer_class f)
                                 None
                                 (mutation_operations f)) in
  Ok (MutationClassObject type_name d).

Definition CreateAndUpdateMutationClass : Making FactoryObject :=
  _get_or_make "_mutation_class"
    (fun attrs =>
       match ListField attrs with
       | (Ok _, attrs') =>
           (make_mutation_class (edge_type_name (type_class f)), attrs')
       | (Raise e, attrs') => (Raise e, attrs')
       end).

(** [make_delete_mutation_class]. *)
Definition make_delete_mutation_class : result FactoryObject :=
  let type_name := "Delete" ++ model_name get_model ++ "Mutation" in
  let? mp := deletion_init_subclass_with_meta
               (Some (permission_class (type_class f))) (Some get_model) in
  Ok (DeleteMutationClassObject type_name (fst mp) (snd mp)).

Definition DeleteMutationClass : Making FactoryObject :=
  _get_or_make "_delete_mutation_type" (fun attrs => (make_delete_mutation_class, attrs)).

(** [QueryFieldsClass]: the attributes of the class it returns. *)
Definition QueryFieldsClass : Making (list (string * FactoryObject)) :=
  fun attrs =>
    let type_name := model_name get_model in
    match ListField attrs with
    | (Raise e, attrs1) => (Raise e, attrs1)
    | (Ok list_field, attrs1) =>
        let Query := assoc_set (LIST_FIELD_FORMAT type_name) list_field [] in
        match RetrieveField attrs1 with
        | (Raise e, attrs2) => (Raise e, attrs2)
        | (Ok retrieve_field, attrs2) =>
            (Ok (assoc_set (RETRIEVE_FIELD_FORMAT type_name) retrieve_field Query),
             attrs2)
        end
    end.

(** One [if op in cls.mutation_operations: setattr(Mutation, name, make())]
    step of [MutationFieldsClass]. *)
Definition add_mutation_field (op : string) (field_name : string)
           (make : Making FactoryObject)
           (st : list (string * FactoryObject) * FactoryAttrs)
  : result (list (string * FactoryObject)) * FactoryAttrs :=
  let '(Mutation, attrs) := st in
  if existsb (String.eqb op) (mutation_operations f) then
    match make attrs with
    | (Ok obj, attrs') => (Ok (assoc_set field_name obj Mutation), attrs')
    | (Raise e, attrs') => (Raise e, attrs')
    end
  else (Ok Mutation, attrs).

(** [MutationFieldsClass]: the attributes of the class it returns. *)
Definition MutationFieldsClass : Making (list (string * FactoryObject)) :=
  fun attrs =>
    match mutation_operations f, mutation_serializer_class f with
    | _ :: _, None =>
        (Raise (AssertionError
                  "If mutation_operations are defined, you must also define a mutation_serializer_class."),
         attrs)
    | _, _ =>
        let type_name := model_name get_model in
        match add_mutation_field "create" (CREATE_MUTATION_FIELD type_name)
                                 CreateAndUpdateMutationClass ([], attrs) with
        | (Raise e, attrs1) => (Raise e, attrs1)
        | (Ok Mutation, attrs1) =>
            match add_mutation_field "update" (UPDATE_MUTATION_FIELD type_name)
                                     CreateAndUpdateMutationClass (Mutation, attrs1) with
            | (Raise e, attrs2) => (Raise e, attrs2)
            | (Ok Mutation, attrs2) =>
                add_mutation_field "delete" (DELETE_MUTATION_FIELD type_name)
                                   DeleteMutationClass (Mutation, attrs2)
            end
        end
    end.

End Factories.

(** The group factory of the test schema. *)
Definition GroupSchemaFieldsFactory : Factory :=
  mkFactory TestSchema.GroupType "GroupType" (Some GroupSerializerDecl)
            ["create"; "update"; "delete"].

Definition group_edge_type_name : PermissionedType -> string := fun _ => "GroupTypeEdge".


(** Attributes once set stay as they are. *)
Definition attrs_kept (attrs attrs' : FactoryAttrs) : Prop :=
  forall k v, getattr_or_None k attrs = Some v -> getattr_or_None k attrs' = Some v.





(** * Properties *)

(** ** Running the monad *)

Lemma new_events_app (w : World) (rows : list Instance) (evs : list Event) :
  new_events w (mkWorld rows (trace w ++ evs)) = evs.
Proof.
  unfold new_events; cbn [trace].
  induction (trace w) as [ | ev t IH ]; [ reflexivity | exact IH ].
Qed.

Lemma new_events_refl (w : World) : new_events w w = [].
Proof.
  unfold new_events. induction (trace w) as [ | ev t IH ]; [ reflexivity | exact IH ].
Qed.

Lemma bind_ok {A B} (m : M A) (k : A -> M B) (w w' : World) (a : A) :
  m w = (Ok a, w') -> bind m k w = k a w'.
Proof. intros H. unfold bind. rewrite H. reflexivity. Qed.

Lemma bind_raise {A B} (m : M A) (k : A -> M B) (w w' : World) (e : exn) :
  m w = (Raise e, w') -> bind m k w = (Raise e, w').
Proof. intros H. unfold bind. rewrite H. reflexivity. Qed.

(** ** Node identifiers *)

(** C10. [to_global_id] returns the identifier it is given, whatever the
    type, so the ids at this interface are the database ids; and
    [from_global_id] raises [NotImplementedError] on every input.  The node
    lookup accordingly hands the id it receives straight to [get_node]. *)
Theorem to_global_id_is_identity :
  (forall (T I : Type) (type : T) (id : I),
      PermissionedNode.to_global_id type id = id)
  /\ (forall (G A : Type) (global_id : G),
         @PermissionedNode.from_global_id G A global_id
         = Raise (NotImplementedError "from_global_id has yet to be implemented"))
  /\ (forall cls info global_id w,
         PermissionedNode.get_node_from_global_id info global_id (Some (cls, true)) w
         = match get_node cls info global_id w with
           | (Ok n, w') => (Ok (Some n), w')
           | (Raise e, w') => (Raise e, w')
           end).
Proof.
  split; [ | split ].
  - intros; reflexivity.
  - intros; reflexivity.
  - intros cls info gid w. cbn [PermissionedNode.get_node_from_global_id negb].
    unfold bind at 1. destruct (get_node cls info gid w) as [[n | e] w']; reflexivity.
Qed.

(** ** Related-instance fields *)

Lemma ensure_user_can_view_instance_run (cls : PermissionedType) (info : Info)
      (inst : Instance) (w : World) :
  let queryset :=
    filter (fun o => (obj_class o =? model_name (meta_model cls))%string) (db w) in
  let w' := mkWorld (db w) (trace w ++ [EvCanView (context_user info) inst]) in
  ensure_user_can_view_instance cls info inst w
  = if can_view (permission_class cls) queryset (context_user info) inst
    then (Ok tt, w')
    else (Raise (GraphQLError (view_denied_message cls)), w').
Proof.
  cbv zeta. unfold ensure_user_can_view_instance, bind, objects_all, emit, raise, ret.
  cbn [db trace].
  destruct (can_view _ _ _ _); reflexivity.
Qed.

Lemma resolve_with_permission_check_run
      (base_type : PermissionedType) (res : FieldResolver)
      (root : option Instance) (info : Info) (kwargs : dict) (w : World) :
  resolve_with_permission_check base_type res root info kwargs w
  = match res root info kwargs w with
    | (Raise e, w1) => (Raise e, w1)
    | (Ok None, w1) => (Ok None, w1)
    | (Ok (Some inst), w1) =>
        let queryset :=
          filter (fun o => (obj_class o =? model_name (meta_model base_type))%string)
                 (db w1) in
        let w2 := mkWorld (db w1) (trace w1 ++ [EvCanView (context_user info) inst]) in
        if can_view (permission_class base_type) queryset (context_user info) inst
        then (Ok (Some inst), w2)
        else (Raise (GraphQLError (view_denied_message base_type)), w2)
    end.
Proof.
  unfold resolve_with_permission_check.
  destruct (res root info kwargs w) as [[[inst | ] | e] w1] eqn:Hres.
  - rewrite (bind_ok _ _ _ _ _ Hres). unfold bind.
    rewrite ensure_user_can_view_instance_run. cbv zeta.
    destruct (can_view _ _ _ _); reflexivity.
  - rewrite (bind_ok _ _ _ _ _ Hres). reflexivity.
  - rewrite (bind_raise _ _ _ _ _ Hres). reflexivity.
Qed.

(** C9. The resolver of a permissioned related-instance field raises the
    permission error exactly when the wrapped resolver returned an instance
    that [can_view] rejects.  When the wrapped resolver returned [None] the
    world is left as that resolver left it (no permission check is made)
    and [None] is returned; an instance is checked once, and returned when
    the check passes; an error of the wrapped resolver passes through. *)
Theorem permission_check_iff_instance_rejected
        (base_type : PermissionedType) (res : FieldResolver)
        (root : option Instance) (info : Info) (kwargs : dict) (w : World) :
  let inner := res root info kwargs w in
  let run := resolve_with_permission_check base_type res root info kwargs w in
  let user := context_user info in
  let queryset :=
    filter (fun o => (obj_class o =? model_name (meta_model base_type))%string)
           (db (snd inner)) in
  ((exists inst, fst inner = Ok (Some inst)
                 /\ can_view (permission_class base_type) queryset user inst = false)
   <-> (fst run = Raise (GraphQLError (view_denied_message base_type))
        /\ exists inst, new_events (snd inner) (snd run) = [EvCanView user inst]))
  /\ (fst inner = Ok None -> run = (Ok None, snd inner))
  /\ (forall inst, fst inner = Ok (Some inst) ->
        new_events (snd inner) (snd run) = [EvCanView user inst]
        /\ db (snd run) = db (snd inner)
        /\ (can_view (permission_class base_type) queryset user inst = true ->
            fst run = Ok (Some inst)))
  /\ (forall e, fst inner = Raise e -> run = (Raise e, snd inner)).
Proof.
  cbv zeta. rewrite resolve_with_permission_check_run.
  destruct (res root info kwargs w) as [[[inst | ] | e] w1]; cbn [fst snd].
  - (* an instance came back: it is checked once *)
    cbv zeta.
    destruct (can_view (permission_class base_type) _ (context_user info) inst) eqn:Hview;
      cbn [fst snd]; rewrite !new_events_app; cbn [db].
    + split; [ split | split; [ | split ] ].
      * intros [i [Hi Hrej]]. injection Hi as <-. congruence.
      * intros [Hr _]. discriminate.
      * discriminate.
      * intros i Hi. injection Hi as <-.
        split; [ reflexivity | split; [ reflexivity | reflexivity ] ].
      * discriminate.
    + split; [ split | split; [ | split ] ].
      * intros _. split; [ reflexivity | exists inst; reflexivity ].
      * intros _. exists inst. split; [ reflexivity | exact Hview ].
      * discriminate.
      * intros i Hi. injection Hi as <-.
        split; [ reflexivity | split; [ reflexivity | intros Hv; congruence ] ].
      * discriminate.
  - (* None came back: nothing is checked *)
    rewrite new_events_refl.
    split; [ split | split; [ | split ] ].
    + intros [i [Hi _]]. discriminate.
    + intros [Hr _]. discriminate.
    + reflexivity.
    + discriminate.
    + discriminate.
  - (* the wrapped resolver raised *)
    rewrite new_events_refl.
    split; [ split | split; [ | split ] ].
    + intros [i [Hi _]]. discriminate.
    + intros [_ [i Hi]]. discriminate.
    + discriminate.
    + discriminate.
    + intros e' He. injection He as <-. reflexivity.
Qed.

(** ** Mutations: which predicate authorizes *)

Lemma new_events_trace (w w' : World) (evs : list Event) :
  trace w' = (trace w ++ evs)%list -> new_events w w' = evs.
Proof.
  intros H. unfold new_events. rewrite H. clear H.
  induction (trace w) as [ | ev t IH ]; [ reflexivity | exact IH ].
Qed.

Lemma _get_edge_world (B : Backend) (cls : MutationClass) (obj : Instance)
      (ordering : list string) (w : World) :
  snd (_get_edge B cls obj ordering w) = w.
Proof.
  unfold _get_edge. destruct (model_class cls) as [model | ]; [ | reflexivity ].
  unfold bind, objects_all.
  destruct (get_paginator_for_queryset B _ ordering); reflexivity.
Qed.

(** Saving appends one [EvSave] to the trace and nothing else. *)
Lemma _save_and_get_payload_trace (B : Backend) (cls : MutationClass)
      (serializer : Serializer) (input : dict) (w : World) :
  trace (snd (_save_and_get_payload B cls serializer input w))
  = (trace w ++ [EvSave (instance serializer) (data serializer)])%list.
Proof.
  unfold _save_and_get_payload, bind at 1, serializer_save.
  destruct (save _ _ _ _) as [[obj | e] rows]; [ | reflexivity ].
  set (w1 := mkWorld rows _).
  unfold bind at 1.
  destruct (truthy (get EDGE_ORDER_BY_INPUT_FIELD input)); [ | reflexivity ].
  destruct (get EDGE_ORDER_BY_INPUT_FIELD input) as [ | z | s | l | l ];
    try reflexivity.
  unfold bind at 1.
  pose proof (_get_edge_world B cls obj l w1) as Hw.
  destruct (_get_edge B cls obj l w1) as [[e | e] w2]; cbn [snd] in Hw; subst w2;
    reflexivity.
Qed.

Lemma perform_mutate_run (B : Backend) (cls : MutationClass)
      (serializer : Serializer) (info : Info) (input : dict) (w : World) :
  let obj := authorized_object serializer in
  let user := context_user info in
  let queryset := filter (fun o => (obj_class o =? obj_class obj)%string) (db w) in
  let perm_inst := mutation_permission_class cls in
  let ev := if id_truthy obj then EvCanChange user obj else EvCanAdd user obj in
  let has_permission := if id_truthy obj then can_change perm_inst queryset user obj
                        else can_add perm_inst queryset user obj in
  let w1 := mkWorld (db w) (trace w ++ [ev]) in
  perform_mutate B cls serializer info input w
  = if has_permission then _save_and_get_payload B cls serializer input w1
    else (Raise (GraphQLError permission_error_message), w1).
Proof.
  cbv zeta. unfold perform_mutate.
  set (obj := authorized_object serializer).
  unfold bind at 1, objects_all. unfold bind at 1.
  destruct (id_truthy obj); unfold bind, emit, ret; cbn [db trace].
  - destruct (can_change _ _ _ _); reflexivity.
  - destruct (can_add _ _ _ _); reflexivity.
Qed.


(** ** Mutations: the edge precondition *)

(** C3. A mutation whose result selection requests [edge] while the input
    carries no (or an empty) [edge_cursor_order_by] fails with the
    missing-ordering exception, and the world comes back as it was: no row
    is created or updated, and neither the database nor the serializer nor
    the permission object has been touched. *)
Theorem edge_without_ordering_rejected
        (B : Backend) (cls : MutationClass) (info : Info) (input : dict) (w : World) :
  sel_get_truthy "edge" (get_fields info) = true ->
  truthy (get EDGE_ORDER_BY_INPUT_FIELD input) = false ->
  mutate_and_get_payload B cls info input w
  = (Raise (Exception edge_without_ordering_message), w).
Proof.
  intros Hedge Hord. unfold mutate_and_get_payload.
  rewrite Hedge, Hord. reflexivity.
Qed.

Lemma edge_without_ordering_rejected_witness :
  mutate_and_get_payload TestSchema.backend TestSchema.GroupMutation
    (TestSchema.info_for TestSchema.selection_ok_edge)
    (TestSchema.create_input "someGroup") TestSchema.world0
  = (Raise (Exception edge_without_ordering_message), TestSchema.world0).
Proof.
  apply edge_without_ordering_rejected; reflexivity.
Defined.

(** ** Mutations: loading, validating, authorizing *)

Lemma get_serializer_kwargs_create (cls : MutationClass) (info : Info)
      (input : dict) (w : World) :
  is_create_request cls input = true ->
  get_serializer_kwargs cls info input w = (Ok None, w).
Proof.
  unfold is_create_request, get_serializer_kwargs.
  destruct (model_class cls) as [model | ]; [ | reflexivity ].
  destruct (if in_ops "update" cls then input_lookup cls input else None);
    [ discriminate | ].
  intros ->. reflexivity.
Qed.

Lemma get_serializer_kwargs_update (cls : MutationClass) (model : ModelClass)
      (info : Info) (input : dict) (id_val : value) (w : World) :
  model_class cls = Some model ->
  in_ops "update" cls = true ->
  input_lookup cls input = Some id_val ->
  let rows := filter (fun o => (obj_class o =? model_name model)%string) (db w) in
  let w1 := mkWorld (db w) (trace w ++ [EvLookup (model_name model) id_val]) in
  get_serializer_kwargs cls info input w
  = match pk_of_value id_val with
    | Ok k =>
        match find (has_pk k) rows with
        | Some inst => (Ok (Some inst), w1)
        | None => (Raise (Exception (does_not_exist_message model id_val)), w1)
        end
    | Raise e => (Raise e, w1)
    end.
Proof.
  intros Hmodel Hupd Hid. cbv zeta. unfold get_serializer_kwargs.
  rewrite Hmodel, Hupd, Hid.
  unfold bind at 1, objects_filter_first, bind at 1, emit, bind at 1, objects_all.
  cbn [db trace].
  destruct (pk_of_value id_val) as [k | e]; [ | reflexivity ].
  unfold ret. destruct (find (has_pk k) _); reflexivity.
Qed.

(** Past the edge guard: validate against the loaded instance, then
    either authorize or report the field errors. *)
Lemma mutate_and_get_payload_after_load (B : Backend) (cls : MutationClass)
      (info : Info) (input : dict) (inst : option Instance) (w w1 : World) :
  edge_without_ordering info input = false ->
  get_serializer_kwargs cls info input w = (Ok inst, w1) ->
  let serializer := mkSerializer (serializer_class cls) inst input in
  let w2 := mkWorld (db w1) (trace w1 ++ [EvIsValid input]) in
  mutate_and_get_payload B cls info input w
  = if is_valid (serializer_class cls) (db w1) inst input
    then perform_mutate B cls serializer info input w2
    else (Ok (mkPayload
                (Some (map (fun kv => mkErrorType (fst kv) (snd kv))
                           (errors (serializer_class cls) (db w1) inst input)))
                None None false), w2).
Proof.
  intros Hedge Hload. cbv zeta. unfold mutate_and_get_payload.
  unfold edge_without_ordering in Hedge.
  change (get EDGE_ORDER_BY_INPUT_FIELD input) with (get "edge_cursor_order_by" input).
  rewrite Hedge. rewrite (bind_ok _ _ _ _ _ Hload).
  unfold bind at 1, serializer_is_valid. cbn [ser_class instance data].
  destruct (is_valid (serializer_class cls) (db w1) inst input); [ reflexivity | ].
  reflexivity.
Qed.

Lemma mutate_and_get_payload_load_fails (B : Backend) (cls : MutationClass)
      (info : Info) (input : dict) (e : exn) (w w1 : World) :
  edge_without_ordering info input = false ->
  get_serializer_kwargs cls info input w = (Raise e, w1) ->
  mutate_and_get_payload B cls info input w = (Raise e, w1).
Proof.
  intros Hedge Hload. unfold mutate_and_get_payload.
  unfold edge_without_ordering in Hedge.
  change (get EDGE_ORDER_BY_INPUT_FIELD input) with (get "edge_cursor_order_by" input).
  rewrite Hedge. apply bind_raise. exact Hload.
Qed.

(** C2, as amended. A create request that passes the edge guard, whose
    data is valid, whose built object has no truthy id and is refused by
    [can_add], raises the permission [GraphQLError]; no payload (hence no
    [ok] field) is returned.  The rows are unchanged and the trace shows
    validation and the [can_add] check only: [save] was never called. *)
Theorem create_denied_raises_and_keeps_rows
        (B : Backend) (cls : MutationClass) (info : Info) (input : dict) (w : World) :
  let obj := build_obj (serializer_class cls) None input in
  let user := context_user info in
  let queryset := filter (fun o => (obj_class o =? obj_class obj)%string) (db w) in
  is_create_request cls input = true ->
  edge_without_ordering info input = false ->
  is_valid (serializer_class cls) (db w) None input = true ->
  id_truthy obj = false ->
  can_add (mutation_permission_class cls) queryset user obj = false ->
  mutate_and_get_payload B cls info input w
  = (Raise (GraphQLError permission_error_message),
     mkWorld (db w) (trace w ++ [EvIsValid input; EvCanAdd user obj])).
Proof.
  cbv zeta. intros Hcreate Hedge Hvalid Hid Hadd.
  rewrite (mutate_and_get_payload_after_load B cls info input None w w Hedge
             (get_serializer_kwargs_create cls info input w Hcreate)).
  rewrite Hvalid. rewrite perform_mutate_run. cbv zeta.
  unfold authorized_object. cbn [instance ser_class data db trace].
  rewrite Hid, Hadd. rewrite <- app_assoc. reflexivity.
Qed.

Lemma create_denied_raises_and_keeps_rows_witness :
  mutate_and_get_payload TestSchema.backend TestSchema.GroupMutation
    (TestSchema.info_for TestSchema.selection_ok)
    (TestSchema.create_input TestSchema.DISALLOW_CREATION) TestSchema.world0
  = (Raise (GraphQLError permission_error_message),
     mkWorld (db TestSchema.world0)
       (trace TestSchema.world0
        ++ [EvIsValid (TestSchema.create_input TestSchema.DISALLOW_CREATION);
            EvCanAdd (context_user (TestSchema.info_for TestSchema.selection_ok))
              (build_obj (serializer_class TestSchema.GroupMutation) None
                 (TestSchema.create_input TestSchema.DISALLOW_CREATION))])).
Proof.
  apply create_denied_raises_and_keeps_rows; reflexivity.
Defined.

(** C2, the claim as worded fails: on the test schema, creating a group
    named [disallow_creation] — data that [can_add] refuses — returns no
    payload at all: the handler raises, and the rows stay as they were. *)
Lemma create_denied_returns_no_payload :
  let input := TestSchema.create_input TestSchema.DISALLOW_CREATION in
  let info := TestSchema.info_for TestSchema.selection_ok in
  let run := mutate_and_get_payload TestSchema.backend TestSchema.GroupMutation
               info input TestSchema.world0 in
  can_add TestSchema.GroupPermission (db TestSchema.world0) (context_user info)
          (build_obj TestSchema.GroupMutationSerializer None input) = false
  /\ fst run = Raise (GraphQLError permission_error_message)
  /\ (forall p : Payload, fst run <> Ok p)
  /\ db (snd run) = db TestSchema.world0.
Proof.
  cbv zeta. split; [ reflexivity | ].
  split; [ reflexivity | ].
  split; [ intros p; discriminate | reflexivity ].
Qed.

Lemma find_filter_class (model : string) (rows : list Instance) (k : option Z)
      (inst : Instance) :
  find (has_pk k) (filter (fun o => (obj_class o =? model)%string) rows) = Some inst ->
  obj_class inst = model.
Proof.
  intros H. apply find_some in H. destruct H as [Hin _].
  apply filter_In in Hin. destruct Hin as [_ Hc].
  apply String.eqb_eq. exact Hc.
Qed.

(** C7, as amended. On an update request (the lookup field is in the
    input) that passes the edge guard and whose id denotes a primary key,
    the target row is looked up first.  When no row has the id the handler
    raises the does-not-exist exception with the lookup as the only event:
    no policy predicate has been evaluated.  When the row exists and the
    data is invalid the field errors are returned, again with no policy
    predicate evaluated.  When the row exists, the data is valid and the
    row's id is truthy, [can_change] on the loaded row is the one policy
    predicate consulted, and it decides between the permission error and
    saving. *)
Theorem update_loads_target_before_authorizing
        (B : Backend) (cls : MutationClass) (model : ModelClass)
        (info : Info) (input : dict) (id_val : value) (k : option Z) (w : World) :
  let rows := filter (fun o => (obj_class o =? model_name model)%string) (db w) in
  let user := context_user info in
  let perm_inst := mutation_permission_class cls in
  let run := mutate_and_get_payload B cls info input w in
  let looked_up := EvLookup (model_name model) id_val in
  model_class cls = Some model ->
  in_ops "update" cls = true ->
  input_lookup cls input = Some id_val ->
  pk_of_value id_val = Ok k ->
  edge_without_ordering info input = false ->
  match find (has_pk k) rows with
  | None =>
      run = (Raise (Exception (does_not_exist_message model id_val)),
             mkWorld (db w) (trace w ++ [looked_up]))
  | Some inst =>
      if is_valid (serializer_class cls) (db w) (Some inst) input then
        id_truthy inst = true ->
        filter is_policy_event (new_events w (snd run)) = [EvCanChange user inst]
        /\ (if can_change perm_inst rows user inst
            then run = _save_and_get_payload B cls
                         (mkSerializer (serializer_class cls) (Some inst) input) input
                         (mkWorld (db w)
                            (trace w ++ [looked_up; EvIsValid input;
                                         EvCanChange user inst]))
            else run = (Raise (GraphQLError permission_error_message),
                        mkWorld (db w)
                          (trace w ++ [looked_up; EvIsValid input;
                                       EvCanChange user inst])))
      else
        run = (Ok (mkPayload
                     (Some (map (fun kv => mkErrorType (fst kv) (snd kv))
                                (errors (serializer_class cls) (db w) (Some inst) input)))
                     None None false),
               mkWorld (db w) (trace w ++ [looked_up; EvIsValid input]))
  end.
Proof.
  cbv zeta. intros Hmodel Hupd Hid Hpk Hedge.
  pose proof (get_serializer_kwargs_update cls model info input id_val w
                Hmodel Hupd Hid) as Hload.
  cbv zeta in Hload. rewrite Hpk in Hload.
  destruct (find (has_pk k) _) as [inst | ] eqn:Hfind.
  - pose proof (find_filter_class _ _ _ _ Hfind) as Hclass.
    rewrite (mutate_and_get_payload_after_load B cls info input (Some inst) w _
               Hedge Hload).
    cbn [db trace].
    destruct (is_valid (serializer_class cls) (db w) (Some inst) input).
    + intros Htruthy.
      rewrite perform_mutate_run. cbv zeta.
      unfold authorized_object. cbn [instance db trace].
      rewrite Htruthy, Hclass.
      rewrite <- !app_assoc. cbn [app].
      destruct (can_change (mutation_permission_class cls) _ (context_user info) inst).
      * split; [ | reflexivity ].
        rewrite (new_events_trace w _
                   [EvLookup (model_name model) id_val; EvIsValid input;
                    EvCanChange (context_user info) inst;
                    EvSave (Some inst) input]).
        -- reflexivity.
        -- rewrite _save_and_get_payload_trace. cbn [trace instance data].
           rewrite <- app_assoc. reflexivity.
      * split; [ | reflexivity ].
        cbn [snd]. rewrite new_events_app. reflexivity.
    + rewrite <- app_assoc. reflexivity.
  - apply (mutate_and_get_payload_load_fails B cls info input _ w _ Hedge Hload).
Qed.

Lemma update_loads_target_before_authorizing_witness :
  filter is_policy_event
    (new_events TestSchema.world0
       (snd (mutate_and_get_payload TestSchema.backend TestSchema.GroupMutation
               (TestSchema.info_for TestSchema.selection_ok)
               (TestSchema.update_input 1 "newName") TestSchema.world0)))
  = [EvCanChange TestSchema.test_user TestSchema.g1].
Proof.
  exact (proj1 (update_loads_target_before_authorizing
                  TestSchema.backend TestSchema.GroupMutation TestSchema.Group
                  (TestSchema.info_for TestSchema.selection_ok)
                  (TestSchema.update_input 1 "newName") (PInt 1) (Some 1)
                  TestSchema.world0
                  eq_refl eq_refl eq_refl eq_refl eq_refl eq_refl)).
Defined.

(** C7, the claim as worded fails in two places.  An update of an existing
    row whose id is [0] is authorized by [can_add], not [can_change]; and
    an update that names a missing row while requesting [edge] without an
    ordering fails with the missing-ordering exception, not with the
    does-not-exist one. *)
Lemma update_not_always_can_change_or_not_found :
  (let run := mutate_and_get_payload TestSchema.backend TestSchema.GroupMutation
                (TestSchema.info_for TestSchema.selection_ok)
                (TestSchema.update_input 0 "renamed") TestSchema.world_zero in
   find (has_pk (Some 0)) (db TestSchema.world_zero) = Some TestSchema.g0
   /\ filter is_policy_event (trace (snd run))
      = [EvCanAdd TestSchema.test_user TestSchema.g0])
  /\ (let run := mutate_and_get_payload TestSchema.backend TestSchema.GroupMutation
                   (TestSchema.info_for TestSchema.selection_ok_edge)
                   (TestSchema.update_input 99 "renamed") TestSchema.world0 in
      find (has_pk (Some 99)) (db TestSchema.world0) = None
      /\ fst run = Raise (Exception edge_without_ordering_message)).
Proof.
  cbv zeta. repeat split; reflexivity.
Qed.

(** ** Node lookup *)

Lemma objects_get_run (model : ModelClass) (id : value) (w : World) :
  let rows := filter (fun o => (obj_class o =? model_name model)%string) (db w) in
  let w1 := mkWorld (db w) (trace w ++ [EvLookup (model_name model) id]) in
  objects_get model id w
  = match pk_of_value id with
    | Raise e => (Raise e, w1)
    | Ok k =>
        match find (has_pk k) rows with
        | Some inst => (Ok inst, w1)
        | None => (Raise DoesNotExist, w1)
        end
    end.
Proof.
  cbv zeta. unfold objects_get, bind at 1, objects_filter_first.
  unfold bind at 1, emit, bind at 1, objects_all. cbn [db trace].
  destruct (pk_of_value id) as [k | e]; [ | reflexivity ].
  unfold ret at 1. destruct (find (has_pk k) _); reflexivity.
Qed.

(** The lookup field refuses a value with [ValueError] or [TypeError],
    never with [DoesNotExist]. *)
Lemma pk_of_value_not_DoesNotExist (id : value) :
  pk_of_value id <> Raise DoesNotExist.
Proof.
  destruct id as [ | z | s | l | l ]; cbn [pk_of_value]; try discriminate.
  destruct (Z_of_str s); discriminate.
Qed.

Lemma get_node_run
        (cls : PermissionedType) (info : Info) (id : value) (w : World) :
  let model := model_name (meta_model cls) in
  let rows := filter (fun o => (obj_class o =? model)%string) (db w) in
  let user := context_user info in
  get_node cls info id w
  = match pk_of_value id with
    | Raise e => (Raise e, mkWorld (db w) (trace w ++ [EvLookup model id]))
    | Ok k =>
        match find (has_pk k) rows with
        | None => (Raise (GraphQLError not_found_message),
                   mkWorld (db w) (trace w ++ [EvLookup model id]))
        | Some inst =>
            let w2 := mkWorld (db w)
                              (trace w ++ [EvLookup model id; EvCanView user inst]) in
            if can_view (permission_class cls) rows user inst
            then (Ok inst, w2)
            else (Raise (GraphQLError (view_denied_message cls)), w2)
        end
    end.
Proof.
  cbv zeta. unfold get_node, bind at 1, except_DoesNotExist.
  rewrite objects_get_run. cbv zeta.
  pose proof (pk_of_value_not_DoesNotExist id) as Hnot.
  destruct (pk_of_value id) as [k | e].
  - destruct (find (has_pk k) _) as [inst | ].
    + unfold bind at 1.
      rewrite ensure_user_can_view_instance_run. cbv zeta. cbn [db trace].
      rewrite <- app_assoc. cbn [app].
      destruct (can_view _ _ _ _); reflexivity.
    + reflexivity.
  - destruct e; try reflexivity. congruence.
Qed.


(** [get_node] as a state machine: look the row up; a missing row is the
    not-found error, with no policy predicate evaluated; a found row is
    checked once with [can_view], returned when accepted, and refused with
    the permission error otherwise.  That error is built from the model's
    name alone, so it is the same for every row of the type.  The rows are
    never changed. *)
Theorem get_node_lookup_then_can_view
        (cls : PermissionedType) (info : Info) (id : value) (w : World) :
  let rows := filter (fun o => (obj_class o =? model_name (meta_model cls))%string)
                     (db w) in
  let user := context_user info in
  let run := get_node cls info id w in
  db (snd run) = db w
  /\ match pk_of_value id with
     | Raise e =>
         fst run = Raise e
         /\ filter is_policy_event (new_events w (snd run)) = []
     | Ok k =>
         match find (has_pk k) rows with
         | None =>
             fst run = Raise (GraphQLError not_found_message)
             /\ filter is_policy_event (new_events w (snd run)) = []
         | Some inst =>
             fst run = (if can_view (permission_class cls) rows user inst
                        then Ok inst
                        else Raise (GraphQLError (view_denied_message cls)))
             /\ filter is_policy_event (new_events w (snd run)) = [EvCanView user inst]
         end
     end.
Proof.
  cbv zeta. rewrite get_node_run. cbv zeta.
  destruct (pk_of_value id) as [k | e].
  - destruct (find (has_pk k) _) as [inst | ].
    + destruct (can_view _ _ _ _); cbn [fst snd db]; rewrite new_events_app;
        repeat split.
    + cbn [fst snd db]. rewrite new_events_app. repeat split.
  - cbn [fst snd db]. rewrite new_events_app. repeat split.
Qed.

(** C4, where the code departs from the claim: looking up an id that no
    group has fails with a [GraphQLError] whose text is the unformatted
    literal; it does not name the entity type, while the permission error
    of the same type does. *)
Theorem get_node_missing_row_message :
  let run := get_node TestSchema.GroupType
               (TestSchema.info_for TestSchema.selection_ok) (PInt 99)
               TestSchema.world0 in
  fst run
  = Raise (GraphQLError "Requested {cls._meta.model.__name__} instance does not exist.")
  /\ str_contains (model_name (meta_model TestSchema.GroupType))
                  "Requested {cls._meta.model.__name__} instance does not exist."
     = false
  /\ str_contains (model_name (meta_model TestSchema.GroupType))
                  (view_denied_message TestSchema.GroupType)
     = true.
Proof.
  cbv zeta. repeat split; reflexivity.
Qed.

(** ** List queries *)

Lemma rbind_ok {A C} (r : result A) (k : A -> result C) (c : C) :
  rbind r k = Ok c -> exists a, r = Ok a /\ k a = Ok c.
Proof.
  destruct r as [a | e]; cbn [rbind]; intros H; [ | discriminate ].
  exists a. split; [ reflexivity | exact H ].
Qed.

Lemma Ok_inj {A} (a b : A) : Ok a = Ok b -> a = b.
Proof. intros H. injection H as ->. reflexivity. Qed.

Lemma rbind_fails {A C} (r : result A) (k : A -> result C) :
  (forall a, r = Ok a -> is_ok (k a) = false) -> is_ok (rbind r k) = false.
Proof.
  destruct r as [a | e]; cbn [rbind is_ok]; intros H;
    [ exact (H a eq_refl) | reflexivity ].
Qed.

Lemma prefix_append (s t : string) : prefix s (s ++ t) = true.
Proof.
  induction s as [ | c s IH ]; [ destruct t; reflexivity | ].
  cbn [append prefix].
  destruct (ascii_dec c c) as [ _ | Hne ]; [ exact IH | congruence ].
Qed.

Lemma str_contains_cons (old : string) (c : ascii) (rest : string) :
  str_contains old (String c rest)
  = if prefix old (String c rest) then true else str_contains old rest.
Proof. reflexivity. Qed.


(** *** The arguments the bound checks hand on *)

Lemma lookup_set_other (k k' : string) (v : value) (d : dict) :
  k <> k' -> lookup k (set k' v d) = lookup k d.
Proof.
  intros Hne. induction d as [ | [k0 v0] d IH ]; cbn [set lookup].
  - destruct (String.eqb_spec k k'); [ congruence | reflexivity ].
  - destruct (String.eqb_spec k' k0) as [-> | Hk]; cbn [lookup].
    + destruct (String.eqb_spec k k0); [ congruence | reflexivity ].
    + rewrite IH. reflexivity.
Qed.

Lemma lookup_set_same (k : string) (v : value) (d : dict) :
  lookup k (set k v d) = Some v.
Proof.
  induction d as [ | [k0 v0] d IH ]; cbn [set lookup].
  - now rewrite String.eqb_refl.
  - destruct (String.eqb_spec k k0) as [-> | Hk]; cbn [lookup].
    + now rewrite String.eqb_refl.
    + destruct (String.eqb_spec k k0); [ congruence | exact IH ].
Qed.

Lemma por_falsy (a b : value) :
  truthy (por a b) = false -> truthy a = false /\ truthy b = false.
Proof.
  unfold por. destruct (truthy a) eqn:Ha; intros H; [ congruence | now split ].
Qed.

Lemma por_supplied (a b : value) : a <> PNone -> b <> PNone -> por a b <> PNone.
Proof. unfold por. destruct (truthy a); auto. Qed.

(** A [max_limit] check touches its own bound only, keeps a supplied
    bound supplied, and leaves a falsy bound alone. *)
Lemma apply_max_limit_ok (key : string) (max_limit : value) (info : Info)
      (args args' : dict) :
  apply_max_limit key max_limit info args = Ok args' ->
  (forall k, k <> key -> lookup k args' = lookup k args)
  /\ (get key args <> PNone -> get key args' <> PNone)
  /\ (truthy (get key args) = false -> args' = args).
Proof.
  unfold apply_max_limit.
  destruct max_limit as [ | m | | | ];
    try (intros H; apply Ok_inj in H; subst args'; repeat split; auto; fail).
  destruct (get key args) as [ | n | | | ] eqn:Hget;
    try (intros H; apply Ok_inj in H; subst args'; rewrite Hget;
         repeat split; auto; fail).
  destruct (truthy (PInt m) && truthy (PInt n)) eqn:Ht.
  - destruct (n <=? m); [ | discriminate ].
    intros H. apply Ok_inj in H. subst args'.
    split; [ intros k Hk; apply lookup_set_other; exact Hk | ].
    split.
    + intros _. unfold get. rewrite lookup_set_same. discriminate.
    + intros Hf. apply andb_prop in Ht. destruct Ht as [_ Ht]. congruence.
  - intros H. apply Ok_inj in H. subst args'. rewrite Hget. repeat split; auto.
Qed.

Lemma get_of_lookup (k : string) (d d' : dict) :
  lookup k d' = lookup k d -> get k d' = get k d.
Proof. unfold get. now intros ->. Qed.

(** What passes the bound checks: with the flag set, a truthy bound was
    given; the ordering is untouched, a supplied bound stays supplied, and
    without a truthy bound the arguments are handed on as they came. *)
Lemma checked_bounds_ok (max_limit : value) (enforce_first_or_last : bool)
      (info : Info) (args args' : dict) :
  checked_bounds max_limit enforce_first_or_last info args = Ok args' ->
  (enforce_first_or_last = true ->
   truthy (por (get "first" args) (get "last" args)) = true)
  /\ args_orderBy args' = args_orderBy args
  /\ (get "first" args <> PNone -> get "first" args' <> PNone)
  /\ (get "last" args <> PNone -> get "last" args' <> PNone)
  /\ (truthy (por (get "first" args) (get "last" args)) = false -> args' = args).
Proof.
  unfold checked_bounds. intros H.
  apply rbind_ok in H. destruct H as [u [Hflag H]].
  apply rbind_ok in H. destruct H as [args1 [H1 H2]].
  apply apply_max_limit_ok in H1. destruct H1 as [Hother1 [Hkeep1 Hsame1]].
  apply apply_max_limit_ok in H2. destruct H2 as [Hother2 [Hkeep2 Hsame2]].
  split; [ | split; [ | split; [ | split ] ] ].
  - intros He. rewrite He in Hflag. cbn [andb] in Hflag.
    destruct (truthy (por (get "first" args) (get "last" args)));
      [ reflexivity | discriminate ].
  - unfold args_orderBy.
    rewrite (Hother2 "orderBy"), (Hother1 "orderBy"); [ reflexivity | | ];
      discriminate.
  - intros Hf. rewrite (get_of_lookup "first" args1 args').
    + exact (Hkeep1 Hf).
    + apply Hother2. discriminate.
  - intros Hl. apply Hkeep2.
    rewrite (get_of_lookup "last" args args1); [ exact Hl | ].
    apply Hother1. discriminate.
  - intros Hnone. apply por_falsy in Hnone. destruct Hnone as [Hf Hl].
    rewrite (Hsame1 Hf) in *. exact (Hsame2 Hl).
Qed.

(** *** What a resolved connection holds *)

Lemma head_cursor_map (p : Paginator) (l : list Instance) :
  head_cursor (map (fun n => mkEdge n (cursor p n)) l)
  = option_map (cursor p) (hd_error l).
Proof. destruct l; reflexivity. Qed.

(** A connection built by [connection_from_queryset] is the page its
    paginator returned. *)
Lemma connection_from_queryset_ok (B : Backend) (it : iterable) (args : dict)
      (conn : Connection) :
  connection_from_queryset B it args = Ok conn ->
  exists ordering paginator pg,
    args_orderBy args = Ok ordering
    /\ CursorPaginator B it ordering = Ok paginator
    /\ page paginator (get "first" args) (get "last" args)
            (get "before" args) (get "after" args) = Ok pg
    /\ edges conn = map (fun n => mkEdge n (cursor paginator n)) (items pg)
    /\ page_info conn
       = mkPageInfo (option_map (cursor paginator) (hd_error (items pg)))
                    (option_map (cursor paginator) (hd_error (rev (items pg))))
                    (has_previous pg) (has_next pg).
Proof.
  unfold connection_from_queryset, get_paginator_for_queryset. intros H.
  apply rbind_ok in H. destruct H as [ordering [Hord H]].
  apply rbind_ok in H. destruct H as [paginator [Hpag H]].
  apply rbind_ok in H. destruct H as [pg [Hpage H]].
  apply Ok_inj in H. subst conn. exists ordering, paginator, pg.
  cbn [edges page_info]. unfold last_cursor.
  rewrite <- map_rev, !head_cursor_map.
  split; [ exact Hord | split; [ exact Hpag | split; [ exact Hpage | ] ] ].
  split; reflexivity.
Qed.

Lemma resolve_connection_ok (B : Backend) (default_manager : QuerySet)
      (args : dict) (it : option iterable) (conn : Connection) :
  resolve_connection B default_manager args it = Ok conn ->
  exists n inner,
    length_of B (paginated_iterable B default_manager it) = Ok n
    /\ connection_from_queryset B (paginated_iterable B default_manager it) args
       = Ok inner
    /\ edges conn = edges inner
    /\ page_info conn = page_info inner
    /\ conn_iterable conn = Some (paginated_iterable B default_manager it)
    /\ conn_length conn = Some n.
Proof.
  unfold resolve_connection. cbv zeta. intros H.
  apply rbind_ok in H. destruct H as [n [Hlen H]].
  apply rbind_ok in H. destruct H as [inner [Hinner H]].
  apply Ok_inj in H. subst conn. exists n, inner. cbn.
  split; [ exact Hlen | split; [ exact Hinner | ] ]. repeat split.
Qed.

(** The parent resolvers reach [resolve_connection] with the filterset's
    queryset as default manager and the checked arguments. *)
Lemma parent_resolver_ok
      (rc : QuerySet -> dict -> option iterable -> result Connection)
      (resolver : Resolver) (default_manager : QuerySet) (max_limit : value)
      (enforce_first_or_last : bool) (filterset_class : FilterSetClass)
      (filtering_args : list string) (root : option Instance) (info : Info)
      (args : dict) (conn : Connection) :
  DjangoFilterConnectionField_connection_resolver rc resolver default_manager
    max_limit enforce_first_or_last filterset_class filtering_args root info args
  = Ok conn ->
  exists args' it,
    checked_bounds max_limit enforce_first_or_last info args = Ok args'
    /\ resolver root info args' = Ok it
    /\ rc (filterset_class
             (filter (fun kv => existsb (String.eqb (fst kv)) filtering_args) args)
             default_manager) args' it = Ok conn.
Proof.
  unfold DjangoFilterConnectionField_connection_resolver,
    DjangoConnectionField_connection_resolver.
  intros H.
  apply rbind_ok in H. destruct H as [args' [Hargs H]].
  apply rbind_ok in H. destruct H as [it [Hit H]].
  exists args', it. split; [ exact Hargs | split; [ exact Hit | exact H ] ].
Qed.

(** *** The in-memory store keeps its collaborators' contracts *)

Lemma incl_firstn {A} (n : nat) (l : list A) : incl (firstn n l) l.
Proof.
  revert n. induction l as [ | a l IH ]; intros [ | n ]; cbn [firstn];
    try (intros x Hx; destruct Hx; fail).
  intros x [<- | Hx]; [ left; reflexivity | right; exact (IH n x Hx) ].
Qed.

Lemma incl_rev_l {A} (l : list A) : incl (rev l) l.
Proof. intros x Hx. apply in_rev. exact Hx. Qed.

Lemma ListStore_insert_by_incl (ordering : list string) (x : Instance)
      (l : list Instance) :
  incl (ListStore.insert_by ordering x l) (x :: l).
Proof.
  induction l as [ | y l IH ]; cbn [ListStore.insert_by].
  - apply incl_refl.
  - destruct (ListStore.compare_by ordering x y); try apply incl_refl.
    intros z [<- | Hz]; [ right; left; reflexivity | ].
    destruct (IH z Hz) as [<- | Hin]; [ left; reflexivity | right; right; exact Hin ].
Qed.

Lemma ListStore_sort_by_incl (ordering : list string) (l : list Instance) :
  incl (ListStore.sort_by ordering l) l.
Proof.
  unfold ListStore.sort_by. induction l as [ | x l IH ]; cbn [fold_right].
  - apply incl_refl.
  - intros z Hz. apply ListStore_insert_by_incl in Hz.
    destruct Hz as [<- | Hz]; [ left; reflexivity | right; exact (IH z Hz) ].
Qed.

Lemma ListStore_order_by_incl (ordering : list string) (qs qs' : QuerySet) :
  ListStore.order_by qs ordering = Ok qs' -> incl qs' qs.
Proof.
  unfold ListStore.order_by. intros H. apply Ok_inj in H. subst qs'.
  apply ListStore_sort_by_incl.
Qed.

Lemma ListStore_paginator_page_incl (model_fields ordering : list string)
      (queryset : QuerySet) (first last before after : value) (pg : Page) :
  ListStore.paginator_page model_fields ordering queryset first last before after
  = Ok pg ->
  incl (items pg) queryset.
Proof.
  unfold ListStore.paginator_page.
  set (qa := match after with
             | PStr c => ListStore.apply_cursor ordering c queryset false
             | _ => queryset
             end).
  set (qb := match before with
             | PStr c => ListStore.apply_cursor ordering c qa true
             | _ => qa
             end).
  assert (Ha : incl qa queryset).
  { subst qa. destruct after; try apply incl_refl. apply incl_filter. }
  assert (Hb : incl qb queryset).
  { subst qb. destruct before; try exact Ha.
    eapply incl_tran; [ apply incl_filter | exact Ha ]. }
  assert (Hfirst : forall n m, incl (firstn n (firstn m qb)) queryset).
  { intros n m. eapply incl_tran; [ apply incl_firstn | ].
    eapply incl_tran; [ apply incl_firstn | exact Hb ]. }
  assert (Hlast : forall n m, incl (rev (firstn n (firstn m (rev qb)))) queryset).
  { intros n m. eapply incl_tran; [ apply incl_rev_l | ].
    eapply incl_tran; [ apply incl_firstn | ].
    eapply incl_tran; [ apply incl_firstn | ].
    eapply incl_tran; [ apply incl_rev_l | exact Hb ]. }
  clearbody qa qb.
  destruct (ListStore.resolve_fields model_fields ordering) as [ [] | e ];
    destruct (ListStore.is_cursor after || ListStore.is_cursor before);
    destruct (por first last);
    cbn [rbind];
    try (intros H; discriminate H);
    try (intros H; apply Ok_inj in H; subst pg; apply incl_refl);
    destruct first, last; cbn [rbind];
    intros H; try discriminate H; apply Ok_inj in H; subst pg; cbn [items];
    first [ apply incl_refl | apply Hfirst | apply Hlast ].
Qed.

Lemma ListStore_page_incl (model_fields ordering : list string) (qs : QuerySet)
      (p : Paginator) (first last before after : value) (pg : Page) :
  ListStore.CursorPaginator model_fields (IQuerySet qs) ordering = Ok p ->
  page p first last before after = Ok pg ->
  incl (items pg) qs.
Proof.
  unfold ListStore.CursorPaginator. intros Hp Hpage.
  apply rbind_ok in Hp. destruct Hp as [queryset [Hord Hp]].
  destruct (ListStore.directions_match ordering); [ | discriminate ].
  apply Ok_inj in Hp. subst p. cbn [page] in Hpage.
  eapply incl_tran; [ exact (ListStore_paginator_page_incl _ _ _ _ _ _ _ _ Hpage) | ].
  exact (ListStore_order_by_incl _ _ _ Hord).
Qed.

Lemma ListStore_paginator_inv (model_fields ordering : list string)
      (it : iterable) (p : Paginator) :
  ListStore.CursorPaginator model_fields it ordering = Ok p ->
  exists queryset,
    page p = ListStore.paginator_page model_fields ordering queryset.
Proof.
  unfold ListStore.CursorPaginator, ListStore.order_by.
  destruct it as [ qs | qs | l ]; cbn [rbind]; try discriminate;
    destruct (ListStore.directions_match ordering); try discriminate;
    intros H; apply Ok_inj in H; subst p; eexists; reflexivity.
Qed.

(** The stand-in's paginator refuses [first] together with [last]. *)
Lemma ListStore_page_rejects_both (model_fields ordering : list string)
      (it : iterable) (p : Paginator) (first last before after : value) :
  ListStore.CursorPaginator model_fields it ordering = Ok p ->
  first <> PNone -> last <> PNone ->
  is_ok (page p first last before after) = false.
Proof.
  intros Hp Hf Hl. apply ListStore_paginator_inv in Hp.
  destruct Hp as [queryset ->]. unfold ListStore.paginator_page.
  pose proof (por_supplied first last Hf Hl) as Hpor.
  destruct (por first last); try congruence;
    destruct (if ListStore.is_cursor after || ListStore.is_cursor before
              then ListStore.resolve_fields model_fields ordering
              else Ok tt) as [ [] | e ]; cbn [rbind]; try reflexivity;
    destruct first, last; try congruence; reflexivity.
Qed.


(** *** Pages hold viewable rows only *)

Section ViewableSubset.

Context (B : Backend) (permission : PermissionClass) (filterset_class : FilterSetClass).

(** The collaborators' contracts: ordering, the permission filter, the
    filterset and merging only select rows; a page is cut from the
    queryset its paginator was built on; and the paginator accepts nothing
    but a queryset. *)
Hypothesis order_by_selects :
  forall qs ordering qs', order_by B qs ordering = Ok qs' -> incl qs' qs.
Hypothesis viewable_selects :
  forall qs user, incl (get_viewable permission qs user) qs.
Hypothesis filterset_selects :
  forall data qs, incl (filterset_class data qs) qs.
Hypothesis merge_selects :
  forall default_queryset qs, incl (merge_querysets B default_queryset qs) default_queryset.
Hypothesis page_selects :
  forall qs ordering p first last before after pg,
    CursorPaginator B (IQuerySet qs) ordering = Ok p ->
    page p first last before after = Ok pg ->
    incl (items pg) qs.
Hypothesis paginator_needs_queryset :
  forall l ordering, is_ok (CursorPaginator B (IList l) ordering) = false.

(** C1. Whenever a list query resolves to a connection, the permission
    filter was applied to the ordered base collection before pagination:
    the collection that is counted and paginated is a queryset within
    [get_viewable] of the ordered collection for the request's user, which
    lies within the base collection.  The connection is the page the
    paginator built on that collection returns for the request's bounds
    and cursors: its nodes are the page's items, all of them viewable, and
    its [hasNextPage], [hasPreviousPage], start and end cursors and length
    are those the paginator and [count] compute from that collection.
    Rows outside the viewable set play no part: two base collections with
    the same viewable ordered rows resolve to the same result, page
    metadata included. *)
Theorem page_within_viewable
        (resolver : Resolver) (default_manager : QuerySet) (max_limit : value)
        (enforce_first_or_last : bool) (filtering_args : list string)
        (root : option Instance) (info : Info) (args : dict) :
  let user := context_user info in
  let resolve := fun rows =>
    connection_resolver B resolver rows max_limit enforce_first_or_last
      filterset_class filtering_args permission root info args in
  (forall conn,
      resolve default_manager = Ok conn ->
      exists ordering ordered args' paginated n paginator pg,
        args_orderBy args = Ok ordering
        /\ order_by B default_manager ordering = Ok ordered
        /\ checked_bounds max_limit enforce_first_or_last info args = Ok args'
        /\ incl paginated (get_viewable permission ordered user)
        /\ incl (get_viewable permission ordered user) default_manager
        /\ conn_iterable conn = Some (IQuerySet paginated)
        /\ count B paginated = Ok n
        /\ conn_length conn = Some n
        /\ CursorPaginator B (IQuerySet paginated) ordering = Ok paginator
        /\ page paginator (get "first" args') (get "last" args')
                (get "before" args') (get "after" args') = Ok pg
        /\ incl (items pg) paginated
        /\ map node (edges conn) = items pg
        /\ has_next_page (page_info conn) = has_next pg
        /\ has_previous_page (page_info conn) = has_previous pg
        /\ start_cursor (page_info conn)
           = option_map (cursor paginator) (hd_error (items pg))
        /\ end_cursor (page_info conn)
           = option_map (cursor paginator) (hd_error (rev (items pg)))
        /\ (forall e, In e (edges conn) ->
              In (node e) (get_viewable permission ordered user)))
  /\ (forall other ordering ordered ordered',
         args_orderBy args = Ok ordering ->
         order_by B default_manager ordering = Ok ordered ->
         order_by B other ordering = Ok ordered' ->
         get_viewable permission ordered user = get_viewable permission ordered' user ->
         resolve default_manager = resolve other).
Proof.
  cbv zeta. split.
  - intros conn H. unfold connection_resolver, order_queryset in H.
    apply rbind_ok in H. destruct H as [ordering [Hordering H]].
    apply rbind_ok in H. destruct H as [ordered [Hordered H]].
    set (viewable := get_viewable permission ordered (context_user info)) in *.
    apply parent_resolver_ok in H. destruct H as [args' [it [Hargs' [_ H]]]].
    set (filtered := filterset_class _ viewable) in H.
    apply resolve_connection_ok in H.
    destruct H as [n [inner [Hlen [Hinner [Hedges [Hinfo [Hiter Hconnlen]]]]]]].
    apply connection_from_queryset_ok in Hinner.
    destruct Hinner as [ordering' [paginator [pg [Hord' [Hpag [Hpage [Hinner Hpi]]]]]]].
    assert (Hsame : ordering' = ordering).
    { apply checked_bounds_ok in Hargs'. destruct Hargs' as [_ [Ho _]].
      rewrite Ho, Hordering in Hord'. apply Ok_inj in Hord'. congruence. }
    subst ordering'.
    assert (Hfiltered : incl filtered viewable) by apply filterset_selects.
    assert (Hshape : exists paginated,
               paginated_iterable B filtered it = IQuerySet paginated
               /\ incl paginated filtered).
    { destruct it as [[q | q | l] | ]; cbn [paginated_iterable maybe_queryset] in *.
      - eexists. split; [ reflexivity | apply merge_selects ].
      - eexists. split; [ reflexivity | apply merge_selects ].
      - pose proof (paginator_needs_queryset l ordering) as Hno.
        rewrite Hpag in Hno. discriminate.
      - eexists. split; [ reflexivity | apply incl_refl ]. }
    destruct Hshape as [paginated [Hshape Hsub]].
    rewrite Hshape in *. cbn [length_of] in Hlen.
    pose proof (page_selects _ _ _ _ _ _ _ _ Hpag Hpage) as Hitems.
    exists ordering, ordered, args', paginated, n, paginator, pg.
    split; [ exact Hordering | ].
    split; [ exact Hordered | ].
    split; [ exact Hargs' | ].
    split; [ eapply incl_tran; eassumption | ].
    split; [ eapply incl_tran;
             [ apply viewable_selects | exact (order_by_selects _ _ _ Hordered) ] | ].
    split; [ exact Hiter | ].
    split; [ exact Hlen | ].
    split; [ exact Hconnlen | ].
    split; [ exact Hpag | ].
    split; [ exact Hpage | ].
    split; [ exact Hitems | ].
    split; [ rewrite Hedges, Hinner, map_map; cbn [node]; apply map_id | ].
    rewrite Hinfo, Hpi. cbn [has_next_page has_previous_page start_cursor end_cursor].
    split; [ reflexivity | ].
    split; [ reflexivity | ].
    split; [ reflexivity | ].
    split; [ reflexivity | ].
    intros e He. rewrite Hedges, Hinner in He.
    apply in_map_iff in He. destruct He as [x [<- Hx]]. cbn [node].
    apply Hfiltered, Hsub, Hitems, Hx.
  - intros other ordering ordered ordered' Hordering Hordered Hordered' Hview.
    unfold connection_resolver, order_queryset.
    rewrite Hordering. cbn [rbind]. rewrite Hordered, Hordered'. cbn [rbind].
    rewrite Hview. reflexivity.
Qed.

End ViewableSubset.

Lemma page_within_viewable_witness :
  let conn := mkConnection [mkEdge TestSchema.g1 "1"]
                (mkPageInfo (Some "1") (Some "1") false false)
                (Some (IQuerySet [TestSchema.g1])) (Some 1) in
  let args := TestSchema.list_args ["id"] [("first", PInt 100)] in
  exists ordering ordered args' paginated n paginator pg,
    args_orderBy args = Ok ordering
    /\ order_by TestSchema.backend (db TestSchema.world0) ordering = Ok ordered
    /\ checked_bounds PNone true (TestSchema.info_for TestSchema.selection_ok) args
       = Ok args'
    /\ incl paginated
            (get_viewable TestSchema.GroupPermission ordered TestSchema.test_user)
    /\ incl (get_viewable TestSchema.GroupPermission ordered TestSchema.test_user)
            (db TestSchema.world0)
    /\ conn_iterable conn = Some (IQuerySet paginated)
    /\ count TestSchema.backend paginated = Ok n
    /\ conn_length conn = Some n
    /\ CursorPaginator TestSchema.backend (IQuerySet paginated) ordering = Ok paginator
    /\ page paginator (get "first" args') (get "last" args')
            (get "before" args') (get "after" args') = Ok pg
    /\ incl (items pg) paginated
    /\ map node (edges conn) = items pg
    /\ has_next_page (page_info conn) = has_next pg
    /\ has_previous_page (page_info conn) = has_previous pg
    /\ start_cursor (page_info conn)
       = option_map (cursor paginator) (hd_error (items pg))
    /\ end_cursor (page_info conn)
       = option_map (cursor paginator) (hd_error (rev (items pg)))
    /\ (forall e, In e (edges conn) ->
          In (node e)
             (get_viewable TestSchema.GroupPermission ordered TestSchema.test_user)).
Proof.
  exact (proj1 (page_within_viewable TestSchema.backend TestSchema.GroupPermission
                  TestSchema.no_filter
                  (fun qs ordering qs' => ListStore_order_by_incl ordering qs qs')
                  (fun qs user => incl_filter _ qs)
                  (fun data qs => incl_refl qs)
                  (fun dq qs => incl_filter _ dq)
                  (fun qs ordering =>
                     ListStore_page_incl TestSchema.group_fields ordering qs)
                  (fun l ordering => eq_refl)
                  TestSchema.no_resolver (db TestSchema.world0) PNone true []
                  None (TestSchema.info_for TestSchema.selection_ok)
                  (TestSchema.list_args ["id"] [("first", PInt 100)]))
               (mkConnection [mkEdge TestSchema.g1 "1"]
                  (mkPageInfo (Some "1") (Some "1") false false)
                  (Some (IQuerySet [TestSchema.g1])) (Some 1))
               eq_refl).
Defined.

(** *** Ordering tokens *)

Section OrderingFields.

Context (B : Backend).

(** The names the model resolves. *)
Context (model_fields : list string).

(** The contract of the paginator's [page] over an ordered queryset, as
    the in-memory store keeps it: the ordering's names are resolved when a
    page is asked for; with a name the model does not have no page comes
    back, and unless [first] and [last] are both given (which is refused
    before anything is resolved) the error is the [FieldError] for that
    name. *)
Hypothesis page_resolves_fields :
  forall it ordering p token first last before after,
    CursorPaginator B it ordering = Ok p ->
    ListStore.unknown_field model_fields ordering = Some token ->
    is_ok (page p first last before after) = false
    /\ (first = PNone \/ last = PNone ->
        page p first last before after
        = Raise (FieldError (ListStore.cannot_resolve_keyword model_fields
                               (ListStore.lstrip_dash token)))).


End OrderingFields.



(** *** Page bounds *)

Section PageBounds.

Context (B : Backend).

(** The contract of the paginator's [page], as the in-memory store keeps
    it: [first] together with [last] is refused. *)
Hypothesis page_rejects_both :
  forall it ordering p first last before after,
    CursorPaginator B it ordering = Ok p ->
    first <> PNone -> last <> PNone ->
    is_ok (page p first last before after) = false.

(** C6, as amended. A request that supplies both [first] and [last]
    never gets a page, from [connection_from_queryset] or from the
    resolver: the paginator refuses the two bounds.  A request with no
    truthy [first] or [last] is refused with "You must provide a `first`
    or `last` value ..." exactly when [enforce_first_or_last] is set: with
    the flag off it is paginated, and the page the paginator returns for
    the absent bounds is the connection.  With a truthy bound the flag
    changes nothing.  [connection_from_queryset] itself checks neither
    bound: it passes both, as given, to the paginator's [page], fails
    exactly when that call fails, with its error, and otherwise returns
    the page it got. *)
Theorem page_bounds_left_to_collaborators :
  (forall (it : iterable) (args : dict)
          (ordering : list string) (paginator : Paginator),
      args_orderBy args = Ok ordering ->
      CursorPaginator B it ordering = Ok paginator ->
      match page paginator (get "first" args) (get "last" args)
                 (get "before" args) (get "after" args) with
      | Raise e => connection_from_queryset B it args = Raise e
      | Ok pg =>
          exists conn,
            connection_from_queryset B it args = Ok conn
            /\ map node (edges conn) = items pg
            /\ map edge_cursor (edges conn) = map (cursor paginator) (items pg)
            /\ start_cursor (page_info conn)
               = option_map (cursor paginator) (hd_error (items pg))
            /\ end_cursor (page_info conn)
               = option_map (cursor paginator) (hd_error (rev (items pg)))
            /\ has_next_page (page_info conn) = has_next pg
            /\ has_previous_page (page_info conn) = has_previous pg
      end)
  /\ (forall (it : iterable) (args : dict),
         get "first" args <> PNone -> get "last" args <> PNone ->
         is_ok (connection_from_queryset B it args) = false)
  /\ (forall (resolver : Resolver) (default_manager : QuerySet)
             (max_limit : value) (enforce_first_or_last : bool)
             (filterset_class : FilterSetClass)
             (filtering_args : list string) (permission : PermissionClass)
             (root : option Instance) (info : Info) (args : dict),
         get "first" args <> PNone -> get "last" args <> PNone ->
         is_ok (connection_resolver B resolver default_manager max_limit
                  enforce_first_or_last filterset_class filtering_args
                  permission root info args) = false)
  /\ (forall (resolver : Resolver) (default_manager : QuerySet)
             (max_limit : value) (filterset_class : FilterSetClass)
             (filtering_args : list string) (permission : PermissionClass)
             (root : option Instance) (info : Info) (args : dict)
             (ordering : list string) (ordered : QuerySet),
         args_orderBy args = Ok ordering ->
         order_by B default_manager ordering = Ok ordered ->
         truthy (por (get "first" args) (get "last" args)) = false ->
         connection_resolver B resolver default_manager max_limit true
           filterset_class filtering_args permission root info args
         = Raise (AssertionError (first_or_last_message info))
         /\ forall it n paginator pg,
             resolver root info args = Ok it ->
             let iterable :=
               paginated_iterable B
                 (filterset_class
                    (filter (fun kv => existsb (String.eqb (fst kv)) filtering_args)
                            args)
                    (get_viewable permission ordered (context_user info))) it in
             length_of B iterable = Ok n ->
             CursorPaginator B iterable ordering = Ok paginator ->
             page paginator (get "first" args) (get "last" args)
                  (get "before" args) (get "after" args) = Ok pg ->
             exists conn,
               connection_resolver B resolver default_manager max_limit false
                 filterset_class filtering_args permission root info args
               = Ok conn
               /\ map node (edges conn) = items pg
               /\ has_next_page (page_info conn) = has_next pg
               /\ has_previous_page (page_info conn) = has_previous pg)
  /\ (forall (resolver : Resolver) (default_manager : QuerySet)
             (max_limit : value) (filterset_class : FilterSetClass)
             (filtering_args : list string) (permission : PermissionClass)
             (root : option Instance) (info : Info) (args : dict),
         truthy (por (get "first" args) (get "last" args)) = true ->
         connection_resolver B resolver default_manager max_limit true
           filterset_class filtering_args permission root info args
         = connection_resolver B resolver default_manager max_limit false
             filterset_class filtering_args permission root info args).
Proof.
  assert (Hcfq : forall it args,
             get "first" args <> PNone -> get "last" args <> PNone ->
             is_ok (connection_from_queryset B it args) = false).
  { intros it args Hf Hl.
    unfold connection_from_queryset, get_paginator_for_queryset.
    apply rbind_fails. intros ordering _.
    apply rbind_fails. intros paginator Hpag.
    apply rbind_fails with (k := fun pg => Ok _). intros pg Hpage.
    pose proof (page_rejects_both _ _ _ _ _ (get "before" args) (get "after" args)
                  Hpag Hf Hl) as Hno.
    rewrite Hpage in Hno. discriminate. }
  split; [ | split; [ exact Hcfq | split; [ | split ] ] ].
  - intros it args ordering paginator Hargs Hpag.
    unfold connection_from_queryset, get_paginator_for_queryset.
    rewrite Hargs. cbn [rbind]. rewrite Hpag. cbn [rbind].
    destruct (page paginator _ _ _ _) as [pg | e]; [ | reflexivity ].
    cbn [rbind]. eexists. split; [ reflexivity | ].
    cbn [edges page_info start_cursor end_cursor has_next_page has_previous_page].
    rewrite !map_map. cbn [node edge_cursor]. rewrite map_id.
    unfold last_cursor. rewrite <- map_rev, !head_cursor_map.
    repeat split.
  - intros resolver default_manager max_limit enforce_first_or_last
           filterset_class filtering_args permission root info args Hf Hl.
    unfold connection_resolver, order_queryset.
    apply rbind_fails. intros ordering _.
    apply rbind_fails. intros ordered _.
    unfold DjangoFilterConnectionField_connection_resolver,
      DjangoConnectionField_connection_resolver.
    apply rbind_fails. intros args' Hargs'.
    apply rbind_fails. intros it _.
    unfold resolve_connection. cbv zeta.
    apply rbind_fails. intros n _.
    apply rbind_fails with (k := fun connection => Ok _). intros conn Hconn.
    apply checked_bounds_ok in Hargs'.
    destruct Hargs' as [_ [_ [Hkeepf [Hkeepl _]]]].
    pose proof (Hcfq (paginated_iterable B
                        (filterset_class
                           (filter (fun kv => existsb (String.eqb (fst kv))
                                                      filtering_args) args)
                           (get_viewable permission ordered (context_user info)))
                        it)
                     args' (Hkeepf Hf) (Hkeepl Hl)) as Hno.
    rewrite Hconn in Hno. discriminate.
  - intros resolver default_manager max_limit filterset_class filtering_args
           permission root info args ordering ordered Hargs Hord Hnone.
    split.
    + unfold connection_resolver, order_queryset. rewrite Hargs. cbn [rbind].
      rewrite Hord. cbn [rbind].
      unfold DjangoFilterConnectionField_connection_resolver,
        DjangoConnectionField_connection_resolver, checked_bounds.
      rewrite Hnone. reflexivity.
    + intros it n paginator pg Hit. cbv zeta. intros Hn Hpag Hpage.
      assert (Hbounds : checked_bounds max_limit false info args = Ok args).
      { unfold checked_bounds. cbn [andb rbind].
        apply por_falsy in Hnone. destruct Hnone as [Hf Hl].
        unfold apply_max_limit.
        destruct max_limit as [ | m | | | ]; try reflexivity.
        destruct (get "first" args) as [ | a | | | ] eqn:Hgf;
          destruct (get "last" args) as [ | b | | | ] eqn:Hgl;
          cbn [rbind]; rewrite ?Hgl; try reflexivity;
          rewrite ?Hf, ?Hl, ?andb_false_r; cbn [rbind]; rewrite ?Hgl;
          rewrite ?Hl, ?andb_false_r; reflexivity. }
      unfold connection_resolver, order_queryset. rewrite Hargs. cbn [rbind].
      rewrite Hord. cbn [rbind].
      unfold DjangoFilterConnectionField_connection_resolver,
        DjangoConnectionField_connection_resolver.
      rewrite Hbounds. cbn [rbind]. rewrite Hit. cbn [rbind].
      unfold resolve_connection. cbv zeta. rewrite Hn. cbn [rbind].
      unfold connection_from_queryset, get_paginator_for_queryset.
      rewrite Hargs. cbn [rbind]. rewrite Hpag. cbn [rbind].
      rewrite Hpage. cbn [rbind].
      eexists. split; [ reflexivity | ].
      cbn [edges page_info has_next_page has_previous_page].
      rewrite map_map. cbn [node]. rewrite map_id. repeat split.
  - intros resolver default_manager max_limit filterset_class filtering_args
           permission root info args Htruthy.
    unfold connection_resolver,
      DjangoFilterConnectionField_connection_resolver,
      DjangoConnectionField_connection_resolver, checked_bounds.
    rewrite Htruthy. reflexivity.
Qed.

End PageBounds.

Lemma page_bounds_left_to_collaborators_witness :
  is_ok (connection_resolver TestSchema.backend TestSchema.no_resolver
           (db TestSchema.world0) PNone true TestSchema.no_filter []
           TestSchema.GroupPermission None
           (TestSchema.info_for TestSchema.selection_ok)
           (TestSchema.list_args ["id"] [("first", PInt 1); ("last", PInt 1)]))
  = false
  /\ connection_resolver TestSchema.backend TestSchema.no_resolver
       (db TestSchema.world0) PNone true TestSchema.no_filter []
       TestSchema.GroupPermission None (TestSchema.info_for TestSchema.selection_ok)
       (TestSchema.list_args ["id"] [])
     = Raise (AssertionError
                "You must provide a `first` or `last` value to properly paginate the `Group__List` connection.").
Proof.
  pose proof (page_bounds_left_to_collaborators TestSchema.backend
                (fun it ordering =>
                   ListStore_page_rejects_both TestSchema.group_fields ordering it))
    as [_ [_ [Hboth [Hneither _]]]].
  split.
  - apply Hboth; discriminate.
  - exact (proj1 (Hneither TestSchema.no_resolver (db TestSchema.world0) PNone
                    TestSchema.no_filter [] TestSchema.GroupPermission None
                    (TestSchema.info_for TestSchema.selection_ok)
                    (TestSchema.list_args ["id"] []) ["id"] _
                    eq_refl eq_refl eq_refl)).
Defined.

(** C6, the claim as worded fails: a request with neither [first] nor
    [last] is paginated — [connection_from_queryset] returns the whole
    queryset as one page, and so does the resolver when
    [enforce_first_or_last] is off. *)
Lemma page_without_bound_is_returned :
  let args := TestSchema.list_args ["id"] [] in
  get "first" args = PNone
  /\ get "last" args = PNone
  /\ (exists conn,
         connection_from_queryset TestSchema.backend
           (IQuerySet [TestSchema.g1; TestSchema.g2]) args = Ok conn
         /\ map node (edges conn) = [TestSchema.g1; TestSchema.g2])
  /\ (exists conn,
         connection_resolver TestSchema.backend TestSchema.no_resolver
           (db TestSchema.world0) PNone false TestSchema.no_filter []
           TestSchema.GroupPermission None
           (TestSchema.info_for TestSchema.selection_ok) args = Ok conn
         /\ map node (edges conn) = [TestSchema.g1]).
Proof.
  cbv zeta. repeat split; try reflexivity.
  - eexists. split; reflexivity.
  - eexists. split; reflexivity.
Qed.

(** ** Validation failures and deletion *)

(** A request that passes the edge guard and whose data the serializer
    rejects ends with the payload [ok = false] carrying one error per
    field, in the serializer's order; the rows are unchanged and nothing
    but the load and the validation has run: no policy predicate, no
    save. *)
Theorem invalid_input_reports_field_errors
        (B : Backend) (cls : MutationClass) (info : Info) (input : dict)
        (inst : option Instance) (w w1 : World) :
  edge_without_ordering info input = false ->
  get_serializer_kwargs cls info input w = (Ok inst, w1) ->
  is_valid (serializer_class cls) (db w1) inst input = false ->
  mutate_and_get_payload B cls info input w
  = (Ok (mkPayload
           (Some (map (fun kv => mkErrorType (fst kv) (snd kv))
                      (errors (serializer_class cls) (db w1) inst input)))
           None None false),
     mkWorld (db w1) (trace w1 ++ [EvIsValid input])).
Proof.
  intros Hedge Hload Hinvalid.
  rewrite (mutate_and_get_payload_after_load B cls info input inst w w1 Hedge Hload).
  rewrite Hinvalid. reflexivity.
Qed.

Lemma invalid_input_reports_field_errors_witness :
  mutate_and_get_payload TestSchema.backend TestSchema.GroupMutation
    (TestSchema.info_for TestSchema.selection_ok) [] TestSchema.world0
  = (Ok (mkPayload (Some [mkErrorType "name" ["This field is required."]])
                   None None false),
     mkWorld (db TestSchema.world0) (trace TestSchema.world0 ++ [EvIsValid []])).
Proof.
  apply (invalid_input_reports_field_errors TestSchema.backend
           TestSchema.GroupMutation (TestSchema.info_for TestSchema.selection_ok)
           [] None TestSchema.world0 TestSchema.world0); reflexivity.
Defined.

Lemma deletion_mutate_run (on_delete : OnDelete) (model : ModelClass)
      (permission : PermissionClass)
      (info : Info) (input_id : value) (w : World) :
  let rows := filter (fun o => (obj_class o =? model_name model)%string) (db w) in
  let user := context_user info in
  let looked_up := EvLookup (model_name model) input_id in
  deletion_mutate on_delete model permission info input_id w
  = match pk_of_value input_id with
    | Raise e => (Raise e, mkWorld (db w) (trace w ++ [looked_up]))
    | Ok k =>
        match find (has_pk k) rows with
        | None => (Raise (Exception (does_not_exist_message model input_id)),
                   mkWorld (db w) (trace w ++ [looked_up]))
        | Some obj =>
            if can_delete permission rows user obj
            then
              match on_delete obj (db w) with
              | Ok others =>
                  (Ok true,
                   mkWorld (filter (fun o => negb (has_pk (obj_id obj) o
                                                   && (obj_class o =? obj_class obj)%string))
                                   others)
                           (trace w ++ [looked_up; EvCanDelete user obj; EvDelete obj]))
              | Raise e =>
                  (Raise e,
                   mkWorld (db w)
                           (trace w ++ [looked_up; EvCanDelete user obj; EvDelete obj]))
              end
            else (Raise (GraphQLError permission_error_message),
                  mkWorld (db w) (trace w ++ [looked_up; EvCanDelete user obj]))
        end
    end.
Proof.
  cbv zeta. unfold deletion_mutate, bind at 1, objects_filter_first.
  unfold bind at 1, emit, bind at 1, objects_all. cbn [db trace].
  destruct (pk_of_value input_id) as [k | e]; [ | reflexivity ].
  unfold ret at 1. destruct (find (has_pk k) _) as [obj | ]; [ | reflexivity ].
  unfold bind, emit, delete_row, _raise_permission_error, raise, ret. cbn [db trace].
  destruct (can_delete _ _ _ _); cbn [negb db trace];
    [ destruct (on_delete obj (db w)) | ];
    rewrite <- !app_assoc; reflexivity.
Qed.

(** Deletion loads the row, asks [can_delete], and deletes; once a
    deletion has succeeded, a node lookup of the same id on a type of that
    model finds no row and raises the not-found error. *)
Theorem deleted_row_is_not_found
        (on_delete : OnDelete)
        (cls : PermissionedType) (permission : PermissionClass)
        (info info' : Info) (input_id : value) (w w' : World) :
  deletion_mutate on_delete (meta_model cls) permission info input_id w = (Ok true, w') ->
  fst (get_node cls info' input_id w') = Raise (GraphQLError not_found_message).
Proof.
  intros Hdel. rewrite deletion_mutate_run in Hdel. cbv zeta in Hdel.
  rewrite get_node_run. cbv zeta.
  destruct (pk_of_value input_id) as [k | e]; [ | discriminate ].
  destruct (find (has_pk k) (filter _ (db w))) as [obj | ] eqn:Hfind; [ | discriminate ].
  destruct (can_delete _ _ _ _); [ | discriminate ].
  destruct (on_delete obj (db w)) as [others | e]; [ | discriminate ].
  injection Hdel as <-. cbn [db].
  pose proof (find_filter_class _ _ _ _ Hfind) as Hclass.
  apply find_some in Hfind. destruct Hfind as [_ Hpk].
  destruct (find (has_pk k) _) as [o | ] eqn:Hagain; [ exfalso | reflexivity ].
  apply find_some in Hagain. destruct Hagain as [Hin Hpk'].
  apply filter_In in Hin. destruct Hin as [Hin Hc].
  apply filter_In in Hin. destruct Hin as [_ Hkept].
  rewrite Hclass, Hc, andb_true_r in Hkept.
  unfold has_pk in *.
  destruct k as [a | ]; [ | discriminate ].
  destruct (obj_id obj) as [b | ]; [ | discriminate ].
  destruct (obj_id o) as [c | ]; [ | discriminate ].
  apply Z.eqb_eq in Hpk, Hpk'. subst b c.
  rewrite Z.eqb_refl in Hkept. discriminate.
Qed.

Lemma deleted_row_is_not_found_witness :
  fst (get_node TestSchema.GroupType (TestSchema.info_for TestSchema.selection_ok)
         (PInt 1)
         (snd (deletion_mutate TestSchema.group_on_delete TestSchema.Group
                 TestSchema.GroupPermission
                 (TestSchema.info_for TestSchema.selection_ok) (PInt 1)
                 TestSchema.world0)))
  = Raise (GraphQLError not_found_message).
Proof.
  apply (deleted_row_is_not_found TestSchema.group_on_delete
           TestSchema.GroupType TestSchema.GroupPermission
           (TestSchema.info_for TestSchema.selection_ok)
           (TestSchema.info_for TestSchema.selection_ok) (PInt 1)
           TestSchema.world0).
  reflexivity.
Defined.

(** ** The edge of a saved object *)



(** * Further properties of the mutation handlers *)

(** ** What [get_serializer_kwargs] loads *)

(** [get_serializer_kwargs] never changes a row.  It consults the database
    only on the update branch (["update"] among the operations and the
    lookup field in the input), and an instance it returns is a stored row
    of the mutation's model whose id is the one the input names.  A class
    that cannot create refuses an input without the lookup field before
    any lookup. *)
Theorem get_serializer_kwargs_loads_stored_row
        (cls : MutationClass) (info : Info) (input : dict) (w : World) :
  let run := get_serializer_kwargs cls info input w in
  db (snd run) = db w
  /\ (forall inst, fst run = Ok (Some inst) ->
        exists model id_val k,
          model_class cls = Some model
          /\ in_ops "update" cls = true
          /\ input_lookup cls input = Some id_val
          /\ pk_of_value id_val = Ok k
          /\ In inst (db w)
          /\ obj_class inst = model_name model
          /\ has_pk k inst = true
          /\ new_events w (snd run) = [EvLookup (model_name model) id_val])
  /\ ((if in_ops "update" cls then input_lookup cls input else None) = None ->
      snd run = w
      /\ (model_class cls <> None -> in_ops "create" cls = false ->
          fst run = Raise (Exception ("Invalid update operation. Input parameter "
                                      ++ dquote ++ lookup_repr cls ++ dquote
                                      ++ " required."))))
  /\ (model_class cls = None -> run = (Ok None, w)).
Proof.
  cbv zeta.
  destruct (model_class cls) as [model | ] eqn:Hmodel.
  - destruct (if in_ops "update" cls then input_lookup cls input else None)
      as [id_val | ] eqn:Hbranch.
    + (* the update branch *)
      assert (Hupd : in_ops "update" cls = true)
        by (destruct (in_ops "update" cls); [ reflexivity | discriminate ]).
      rewrite Hupd in Hbranch.
      rewrite (get_serializer_kwargs_update cls model info input id_val w
                 Hmodel Hupd Hbranch).
      destruct (pk_of_value id_val) as [k | e] eqn:Hpk.
      * destruct (find (has_pk k) _) as [inst | ] eqn:Hfind; cbn [fst snd db].
        -- split; [ reflexivity | ].
           split; [ | split; discriminate ].
           intros i Hi. injection Hi as <-.
           pose proof (find_filter_class _ _ _ _ Hfind) as Hclass.
           apply find_some in Hfind. destruct Hfind as [Hin Hpkeq].
           apply filter_In in Hin. destruct Hin as [Hin _].
           exists model, id_val, k. rewrite new_events_app.
           repeat split; assumption.
        -- split; [ reflexivity | ].
           split; [ discriminate | split; discriminate ].
      * cbn [fst snd db]. split; [ reflexivity | ].
        split; [ discriminate | split; discriminate ].
    + (* no lookup value: create, or refuse *)
      assert (Hrun : get_serializer_kwargs cls info input w
                     = if in_ops "create" cls then (Ok None, w)
                       else (Raise (Exception
                                      ("Invalid update operation. Input parameter "
                                       ++ dquote ++ lookup_repr cls ++ dquote
                                       ++ " required.")), w)).
      { unfold get_serializer_kwargs. rewrite Hmodel, Hbranch.
        destruct (in_ops "create" cls); reflexivity. }
      rewrite Hrun.
      destruct (in_ops "create" cls); cbn [fst snd].
      * split; [ reflexivity | ].
        split; [ discriminate | ].
        split; [ | discriminate ].
        intros _. split; [ reflexivity | discriminate ].
      * split; [ reflexivity | ].
        split; [ discriminate | ].
        split; [ | discriminate ].
        intros _. split; reflexivity.
  - assert (Hrun : get_serializer_kwargs cls info input w = (Ok None, w))
      by (unfold get_serializer_kwargs; rewrite Hmodel; reflexivity).
    rewrite Hrun. cbn [fst snd]. split; [ reflexivity | ].
    split; [ discriminate | ].
    split; [ | reflexivity ].
    intros _. split; [ reflexivity | intros H; congruence ].
Qed.

(** ** Nothing is saved unvalidated or unauthorized *)

Lemma get_serializer_kwargs_world (cls : MutationClass) (info : Info)
      (input : dict) (w : World) :
  exists evs,
    snd (get_serializer_kwargs cls info input w) = mkWorld (db w) (trace w ++ evs)
    /\ filter is_save_event evs = []
    /\ filter is_policy_event evs = [].
Proof.
  unfold get_serializer_kwargs.
  assert (Hsame : exists evs, w = mkWorld (db w) (trace w ++ evs)
                              /\ filter is_save_event evs = []
                              /\ filter is_policy_event evs = []).
  { exists []. rewrite app_nil_r. destruct w; repeat split. }
  destruct (model_class cls) as [model | ]; [ | exact Hsame ].
  destruct (if in_ops "update" cls then input_lookup cls input else None)
    as [id_val | ].
  - exists [EvLookup (model_name model) id_val].
    unfold bind at 1, objects_filter_first, bind at 1, emit, bind at 1, objects_all.
    cbn [db trace].
    destruct (pk_of_value id_val) as [k | e]; [ | repeat split ].
    unfold ret at 1. destruct (find (has_pk k) _); repeat split.
  - destruct (in_ops "create" cls); exact Hsame.
Qed.

(** A run of [mutate_and_get_payload] calls [save] at most once, and only
    after the serializer has validated the data and the policy predicate
    chosen for the object has accepted it; in every other run the rows are
    exactly those it started from. *)
Theorem save_only_after_validation_and_permission
        (B : Backend) (cls : MutationClass) (info : Info) (input : dict) (w : World) :
  let run := mutate_and_get_payload B cls info input w in
  let evs := new_events w (snd run) in
  let loaded := fst (get_serializer_kwargs cls info input w) in
  (List.length (filter is_save_event evs) <= 1)%nat
  /\ (filter is_save_event evs = [] -> db (snd run) = db w)
  /\ (filter is_save_event evs <> [] ->
      exists inst,
        loaded = Ok inst
        /\ filter is_save_event evs = [EvSave inst input]
        /\ edge_without_ordering info input = false
        /\ is_valid (serializer_class cls) (db w) inst input = true
        /\ let obj := authorized_object (mkSerializer (serializer_class cls) inst input) in
           let queryset := filter (fun o => (obj_class o =? obj_class obj)%string) (db w) in
           (if id_truthy obj
            then can_change (mutation_permission_class cls) queryset (context_user info) obj
            else can_add (mutation_permission_class cls) queryset (context_user info) obj)
           = true).
Proof.
  cbv zeta.
  destruct (edge_without_ordering info input) eqn:Hedge.
  - (* refused at the guard *)
    assert (Hrun : mutate_and_get_payload B cls info input w
                   = (Raise (Exception edge_without_ordering_message), w)).
    { unfold mutate_and_get_payload. unfold edge_without_ordering in Hedge.
      change (get EDGE_ORDER_BY_INPUT_FIELD input) with (get "edge_cursor_order_by" input).
      rewrite Hedge. reflexivity. }
    rewrite Hrun. cbn [snd]. rewrite new_events_refl. cbn [filter List.length].
    split; [ apply Nat.le_0_l | ].
    split; [ reflexivity | intros H; congruence ].
  - destruct (get_serializer_kwargs_world cls info input w) as [l0 [Hw1 [Hs0 Hp0]]].
    destruct (get_serializer_kwargs cls info input w) as [[inst | e] w1] eqn:Hload;
      cbn [snd fst] in *; subst w1.
    + rewrite (mutate_and_get_payload_after_load B cls info input inst w _ Hedge Hload).
      cbn [db trace].
      destruct (is_valid (serializer_class cls) (db w) inst input) eqn:Hvalid.
      * rewrite perform_mutate_run. cbv zeta. cbn [db trace].
        set (obj := authorized_object (mkSerializer (serializer_class cls) inst input)).
        set (ev := if id_truthy obj then EvCanChange (context_user info) obj
                   else EvCanAdd (context_user info) obj).
        assert (Hev : is_save_event ev = false)
          by (subst ev; destruct (id_truthy obj); reflexivity).
        destruct (if id_truthy obj
                  then can_change (mutation_permission_class cls) _ (context_user info) obj
                  else can_add (mutation_permission_class cls) _ (context_user info) obj)
          eqn:Hperm.
        -- (* saved *)
           rewrite (new_events_trace w _
                      (l0 ++ [EvIsValid input; ev; EvSave inst input])).
           2:{ rewrite _save_and_get_payload_trace. cbn [trace instance data].
               rewrite <- !app_assoc. reflexivity. }
           rewrite filter_app, Hs0. cbn [filter is_save_event app]. rewrite Hev.
           cbn [List.length].
           split; [ apply Nat.le_refl | ].
           split; [ discriminate | ].
           intros _. exists inst.
           split; [ reflexivity | ]. split; [ reflexivity | ].
           split; [ reflexivity | ]. split; [ exact Hvalid | exact Hperm ].
        -- (* refused by the policy *)
           cbn [snd db]. rewrite <- !app_assoc. rewrite new_events_app.
           rewrite filter_app, Hs0. cbn [filter is_save_event app]. rewrite Hev.
           cbn [List.length].
           split; [ apply Nat.le_0_l | ].
           split; [ reflexivity | intros H; congruence ].
      * (* invalid data *)
        cbn [snd db]. rewrite <- !app_assoc. rewrite new_events_app.
        rewrite filter_app, Hs0. cbn [filter is_save_event app List.length].
        split; [ apply Nat.le_0_l | ].
        split; [ reflexivity | intros H; congruence ].
    + rewrite (mutate_and_get_payload_load_fails B cls info input e w _ Hedge Hload).
      cbn [snd db]. rewrite new_events_app, Hs0. cbn [List.length].
      split; [ apply Nat.le_0_l | ].
      split; [ reflexivity | intros H; congruence ].
Qed.

(** ** Deletion: found, authorized, atomic *)

(** A deletion calls [delete] at most once, and only on the row it found
    by the id and [can_delete] accepted.  When it returns, the rows are
    those the model's relations left of the others (cascades and nulled
    references are theirs), with the target's row removed, so the target
    is gone; where nothing refers to the target, that is every other row,
    unchanged and in order.  When it raises, every row is still in place,
    whether the failure came before [delete] (malformed id, missing row,
    refusal) or from [delete] itself. *)
Theorem deletion_deletes_the_authorized_target
        (on_delete : OnDelete)
        (model : ModelClass) (permission : PermissionClass) (info : Info)
        (input_id : value) (w : World) :
  let rows := filter (fun o => (obj_class o =? model_name model)%string) (db w) in
  let run := deletion_mutate on_delete model permission info input_id w in
  let deleted := filter is_delete_event (new_events w (snd run)) in
  (deleted = []
   \/ exists k obj,
        deleted = [EvDelete obj]
        /\ pk_of_value input_id = Ok k
        /\ find (has_pk k) rows = Some obj
        /\ can_delete permission rows (context_user info) obj = true)
  /\ match fst run with
     | Ok _ =>
         exists obj others,
           deleted = [EvDelete obj]
           /\ on_delete obj (db w) = Ok others
           /\ db (snd run) = filter (fun o => negb (same_row obj o)) others
           /\ (forall o, In o (db (snd run)) -> same_row obj o = false)
           /\ (others = db w ->
               db (snd run) = filter (fun o => negb (same_row obj o)) (db w))
     | Raise e =>
         db (snd run) = db w
         /\ (deleted = []
             \/ exists obj, deleted = [EvDelete obj]
                            /\ on_delete obj (db w) = Raise e)
     end.
Proof.
  cbv zeta. rewrite deletion_mutate_run. cbv zeta.
  destruct (pk_of_value input_id) as [k | e] eqn:Hpk.
  - destruct (find (has_pk k) _) as [obj | ] eqn:Hfind.
    + destruct (can_delete permission _ (context_user info) obj) eqn:Hdel.
      * destruct (on_delete obj (db w)) as [others | e] eqn:Hon;
          cbn [fst snd db]; rewrite new_events_app;
          cbn [filter is_delete_event].
        -- split.
           ++ right. exists k, obj.
              split; [ reflexivity | split; [ reflexivity | split; assumption ] ].
           ++ exists obj, others.
              split; [ reflexivity | ]. split; [ exact Hon | ].
              split; [ reflexivity | ].
              split.
              ** intros o Hin. apply filter_In in Hin. destruct Hin as [_ Hkept].
                 unfold same_row. destruct (has_pk (obj_id obj) o && _);
                   [ discriminate | reflexivity ].
              ** intros ->. reflexivity.
        -- split.
           ++ right. exists k, obj.
              split; [ reflexivity | split; [ reflexivity | split; assumption ] ].
           ++ split; [ reflexivity | ]. right. exists obj.
              split; [ reflexivity | exact Hon ].
      * cbn [fst snd db]. rewrite new_events_app. cbn [filter is_delete_event].
        split; [ left; reflexivity | split; [ reflexivity | left; reflexivity ] ].
    + cbn [fst snd db]. rewrite new_events_app. cbn [filter is_delete_event].
      split; [ left; reflexivity | split; [ reflexivity | left; reflexivity ] ].
  - cbn [fst snd db]. rewrite new_events_app. cbn [filter is_delete_event].
    split; [ left; reflexivity | split; [ reflexivity | left; reflexivity ] ].
Qed.

(** ** An edge that cannot be computed *)

(** [_save_and_get_payload] saves first and computes the edge afterwards:
    when the paginator refuses the requested ordering (or the mutation has
    no model to paginate), the handler raises that error with the rows as
    [save] left them: the write is not undone. *)
Theorem edge_failure_comes_after_the_save
        (B : Backend) (cls : MutationClass) (serializer : Serializer)
        (input : dict) (w : World) (obj : Instance) (rows : list Instance)
        (ordering : list string) :
  save (ser_class serializer) (instance serializer) (data serializer) (db w)
  = (Ok obj, rows) ->
  get EDGE_ORDER_BY_INPUT_FIELD input = PStrs ordering ->
  ordering <> [] ->
  let saved := mkWorld rows (trace w ++ [EvSave (instance serializer) (data serializer)]) in
  match model_class cls with
  | None =>
      _save_and_get_payload B cls serializer input w
      = (Raise (AttributeError "'NoneType' object has no attribute 'objects'"), saved)
  | Some model =>
      forall e,
        CursorPaginator B
          (IQuerySet (filter (fun o => (obj_class o =? model_name model)%string) rows))
          ordering = Raise e ->
        _save_and_get_payload B cls serializer input w = (Raise e, saved)
  end.
Proof.
  intros Hsave Hord Hne. cbv zeta.
  destruct ordering as [ | t l ]; [ congruence | ].
  destruct (model_class cls) as [model | ] eqn:Hmodel.
  - intros e Hpag.
    unfold _save_and_get_payload, _get_edge, serializer_save, objects_all,
      get_paginator_for_queryset, bind, ret, raise.
    rewrite Hsave, Hord, Hmodel. cbv beta iota zeta delta [truthy db].
    rewrite Hpag. reflexivity.
  - unfold _save_and_get_payload, _get_edge, serializer_save, bind, ret, raise.
    rewrite Hsave, Hord, Hmodel. reflexivity.
Qed.

Lemma edge_failure_comes_after_the_save_witness :
  _save_and_get_payload TestSchema.backend TestSchema.GroupMutation
    (mkSerializer TestSchema.GroupMutationSerializer None
       (("edge_cursor_order_by", PStrs ["id"; "-name"])
          :: TestSchema.create_input "someGroup"))
    (("edge_cursor_order_by", PStrs ["id"; "-name"])
       :: TestSchema.create_input "someGroup") TestSchema.world0
  = (Raise (InvalidCursor "Direction of orderings must match"),
     mkWorld [TestSchema.g1; TestSchema.g2; TestSchema.new_group 3 "someGroup"]
             [EvSave None (("edge_cursor_order_by", PStrs ["id"; "-name"])
                             :: TestSchema.create_input "someGroup")]).
Proof.
  refine (edge_failure_comes_after_the_save TestSchema.backend
            TestSchema.GroupMutation
            (mkSerializer TestSchema.GroupMutationSerializer None
               (("edge_cursor_order_by", PStrs ["id"; "-name"])
                  :: TestSchema.create_input "someGroup"))
            (("edge_cursor_order_by", PStrs ["id"; "-name"])
               :: TestSchema.create_input "someGroup")
            TestSchema.world0 _ _ ["id"; "-name"] eq_refl eq_refl _ _ eq_refl).
  discriminate.
Defined.

(** * Declaring classes and converting relations *)

(** ** The input fields of a declared mutation *)

Lemma assoc_has_set {A} (n k : string) (v : A) (d : list (string * A)) :
  assoc_has n (assoc_set k v d) = (n =? k)%string || assoc_has n d.
Proof.
  unfold assoc_has. induction d as [ | [k' v'] d IH ]; cbn [assoc_set existsb fst].
  - reflexivity.
  - destruct (k =? k')%string eqn:Hk; cbn [existsb fst].
    + apply String.eqb_eq in Hk. subst k'.
      destruct (n =? k)%string; reflexivity.
    + rewrite IH. destruct (n =? k')%string, (n =? k)%string; reflexivity.
Qed.

Lemma assoc_has_pop {A} (n k : string) (d : list (string * A)) :
  assoc_has n (filter (fun kv => negb (k =? fst kv)%string) d)
  = negb (k =? n)%string && assoc_has n d.
Proof.
  unfold assoc_has. induction d as [ | [k' v'] d IH ]; cbn [filter existsb fst].
  - rewrite andb_false_r. reflexivity.
  - destruct (k =? k')%string eqn:Hk; cbn [negb existsb fst].
    + rewrite IH. apply String.eqb_eq in Hk. subst k'.
      destruct (k =? n)%string eqn:Hn; cbn [negb andb]; [ reflexivity | ].
      rewrite String.eqb_sym, Hn. reflexivity.
    + rewrite IH. destruct (n =? k')%string eqn:Hn'; cbn [orb].
      * apply String.eqb_eq in Hn'. subst k'. rewrite Hk. reflexivity.
      * reflexivity.
Qed.

Lemma assoc_has_names (n : string) (names : list string) :
  assoc_has n (map (fun x => (x, SerializerInput x)) names)
  = existsb (String.eqb n) names.
Proof.
  unfold assoc_has. induction names as [ | x names IH ]; cbn [map existsb fst].
  - reflexivity.
  - rewrite IH. reflexivity.
Qed.

Lemma existsb_eqb_In (n : string) (names : list string) :
  existsb (String.eqb n) names = true <-> In n names.
Proof.
  rewrite existsb_exists. split.
  - intros [x [Hin Hx]]. apply String.eqb_eq in Hx. subst x. exact Hin.
  - intros Hin. exists n. split; [ exact Hin | apply String.eqb_refl ].
Qed.

(** Declaring a serializer mutation succeeds only with a permission
    class, an output type, a serializer class and ["create"] or ["update"]
    among the operations.  The input of the declared class then consists of
    [edge_cursor_order_by], of [id] exactly when the class can update, and
    of the serializer's other fields; a class that cannot update must have
    found an [id] among the serializer's fields to drop (declaring it
    otherwise fails with [KeyError]), and it treats every request as a
    creation. *)
Theorem declared_mutation_input_fields (pk_name : ModelClass -> string)
        (o : MutationOptions) :
  (forall d,
      mutation_init_subclass_with_meta pk_name o = Ok d ->
      exists permission_class serializer_class,
        opt_permission_class o = Some permission_class
        /\ opt_output_type o = Some (decl_output_type d)
        /\ opt_serializer_class o = Some serializer_class
        /\ model_operations (decl_mutation d) = opt_model_operations o
        /\ mutation_permission_class (decl_mutation d) = permission_class
        /\ in_ops "create" (decl_mutation d) || in_ops "update" (decl_mutation d) = true
        /\ (forall name,
              assoc_has name (decl_input_fields d) = true
              <-> name = EDGE_ORDER_BY_INPUT_FIELD
                  \/ (name = "id" /\ in_ops "update" (decl_mutation d) = true)
                  \/ (name <> "id" /\ In name (decl_input_names serializer_class)))
        /\ (in_ops "update" (decl_mutation d) = false ->
            In "id" (decl_input_names serializer_class)
            /\ forall input, is_create_request (decl_mutation d) input = true))
  /\ (forall permission_class output_type serializer_class,
         opt_permission_class o = Some permission_class ->
         opt_output_type o = Some output_type ->
         opt_serializer_class o = Some serializer_class ->
         existsb (String.eqb "create") (opt_model_operations o) = true ->
         existsb (String.eqb "update") (opt_model_operations o) = false ->
         ~ In "id" (decl_input_names serializer_class) ->
         mutation_init_subclass_with_meta pk_name o = Raise (KeyError "id")).
Proof.
  split.
  - intros d Hd. unfold mutation_init_subclass_with_meta in Hd.
    destruct (opt_permission_class o) as [permission_class | ]; [ | discriminate ].
    destruct (opt_output_type o) as [output_type | ]; [ | discriminate ].
    destruct (opt_serializer_class o) as [serializer_class | ]; [ | discriminate ].
    destruct (existsb (String.eqb "update") (opt_model_operations o)) eqn:Hupd;
      destruct (existsb (String.eqb "create") (opt_model_operations o)) eqn:Hcreate;
      cbn [negb andb] in Hd; try discriminate.
    + (* create and update *)
      cbn [rbind] in Hd. apply Ok_inj in Hd. subst d.
      exists permission_class, serializer_class. unfold in_ops.
      cbn [decl_mutation decl_output_type decl_input_fields model_operations
           mutation_permission_class].
      rewrite Hupd, Hcreate.
      repeat (split; [ reflexivity | ]). split; [ | discriminate ].
      intros name. rewrite !assoc_has_set, assoc_has_names, !orb_true_iff.
      rewrite !String.eqb_eq, existsb_eqb_In. split.
      * intros [He | [Hid | Hin]].
        -- left. exact He.
        -- right. left. split; [ exact Hid | reflexivity ].
        -- destruct (string_dec name "id") as [-> | Hne].
           ++ right. left. split; reflexivity.
           ++ right. right. split; assumption.
      * intros [He | [[Hid _] | [_ Hin]]]; auto.
    + (* update only *)
      cbn [rbind] in Hd. apply Ok_inj in Hd. subst d.
      exists permission_class, serializer_class. unfold in_ops.
      cbn [decl_mutation decl_output_type decl_input_fields model_operations
           mutation_permission_class].
      rewrite Hupd, Hcreate.
      repeat (split; [ reflexivity | ]). split; [ | discriminate ].
      intros name. rewrite !assoc_has_set, assoc_has_names, !orb_true_iff.
      rewrite !String.eqb_eq, existsb_eqb_In. split.
      * intros [He | [Hid | Hin]].
        -- left. exact He.
        -- right. left. split; [ exact Hid | reflexivity ].
        -- destruct (string_dec name "id") as [-> | Hne].
           ++ right. left. split; reflexivity.
           ++ right. right. split; assumption.
      * intros [He | [[Hid _] | [_ Hin]]]; auto.
    + (* create only: the id is dropped *)
      unfold assoc_pop in Hd. rewrite assoc_has_names in Hd.
      destruct (existsb (String.eqb "id") (decl_input_names serializer_class))
        eqn:Hhas; [ | discriminate ].
      cbn [rbind] in Hd. apply Ok_inj in Hd. subst d.
      exists permission_class, serializer_class. unfold in_ops.
      cbn [decl_mutation decl_output_type decl_input_fields model_operations
           mutation_permission_class].
      rewrite Hupd, Hcreate.
      repeat (split; [ reflexivity | ]). split.
      * intros name. rewrite assoc_has_set, assoc_has_pop, assoc_has_names.
        rewrite orb_true_iff, andb_true_iff, negb_true_iff.
        rewrite String.eqb_eq, String.eqb_neq, existsb_eqb_In. split.
        -- intros [He | [Hne Hin]].
           ++ left. exact He.
           ++ right. right. split; [ congruence | exact Hin ].
        -- intros [He | [[_ Hf] | [Hne Hin]]].
           ++ left. exact He.
           ++ discriminate.
           ++ right. split; [ congruence | exact Hin ].
      * intros _. split; [ apply existsb_eqb_In; exact Hhas | ].
        intros input. unfold is_create_request, in_ops.
        cbn [model_class model_operations]. rewrite Hupd, Hcreate.
        destruct (match opt_model_class o with
                  | Some m => Some m
                  | None => decl_meta_model serializer_class
                  end); reflexivity.
  - intros permission_class output_type serializer_class Hp Ho Hs Hcreate Hupd Hno.
    unfold mutation_init_subclass_with_meta. rewrite Hp, Ho, Hs, Hupd, Hcreate.
    cbn [negb andb]. unfold assoc_pop. rewrite assoc_has_names.
    destruct (existsb (String.eqb "id") (decl_input_names serializer_class)) eqn:Hhas.
    + exfalso. apply Hno. apply existsb_eqb_In. exact Hhas.
    + reflexivity.
Qed.

Lemma declared_mutation_input_fields_witness :
  mutation_init_subclass_with_meta id_pk_name (group_mutation_options ["create"])
  = Raise (KeyError "id").
Proof.
  refine (proj2 (declared_mutation_input_fields id_pk_name
                   (group_mutation_options ["create"]))
                TestSchema.GroupPermission "GroupType" GroupSerializerDecl
                eq_refl eq_refl eq_refl eq_refl eq_refl _).
  intros [H | []]. discriminate.
Defined.

(** ** Declared types answer node lookups *)

(** A type is declared only with a permission class, without
    [filter_fields] and with a model; the node interface is then appended
    to its interfaces, so a node lookup through the type never skips it:
    it is the type's [get_node], permission check included.  A lookup
    without a type fails, and a type that does not list the node interface
    answers [None] without touching the database or the policy. *)
Theorem declared_type_answers_node_lookups
        (deprecated_create_filter_class : ModelClass -> FilterSetClass)
        (o : TypeOptions) :
  (forall d,
      type_init_subclass_with_meta deprecated_create_filter_class o = Ok d ->
      decl_interfaces d = (topt_interfaces o ++ ["PermissionedNode"])%list
      /\ implements_node (decl_interfaces d) = true
      /\ topt_permission_class o = Some (permission_class (decl_type d))
      /\ topt_model o = Some (meta_model (decl_type d))
      /\ topt_filter_fields o = []
      /\ decl_filterset_class d
         = match topt_filterset_class o with
           | Some f => f
           | None => deprecated_create_filter_class (meta_model (decl_type d))
           end
      /\ forall info global_id w,
          PermissionedNode.get_node_from_global_id info global_id
            (Some (decl_type d, implements_node (decl_interfaces d))) w
          = match get_node (decl_type d) info global_id w with
            | (Ok n, w') => (Ok (Some n), w')
            | (Raise e, w') => (Raise e, w')
            end)
  /\ (topt_permission_class o = None ->
      type_init_subclass_with_meta deprecated_create_filter_class o
      = Raise (AssertionError
                 ("You must specify a `permission_class` to use for the "
                  ++ topt_name o ++ " type.")))
  /\ (forall info global_id w,
         PermissionedNode.get_node_from_global_id info global_id None w
         = (Raise (AssertionError "PermissionedNode requres only_type to be specified"), w))
  /\ (forall cls info global_id w,
         PermissionedNode.get_node_from_global_id info global_id (Some (cls, false)) w
         = (Ok None, w)).
Proof.
  split; [ | split; [ | split ] ].
  - intros d Hd. unfold type_init_subclass_with_meta in Hd.
    destruct (topt_permission_class o) as [p | ]; [ | discriminate ].
    destruct (topt_filter_fields o) as [ | x l ]; [ | discriminate ].
    destruct (topt_model o) as [model | ]; [ | discriminate ].
    apply Ok_inj in Hd. subst d.
    cbn [decl_interfaces decl_type decl_filterset_class permission_class meta_model].
    assert (Himpl : implements_node (topt_interfaces o ++ ["PermissionedNode"]) = true).
    { unfold implements_node. rewrite existsb_app. cbn [existsb].
      rewrite String.eqb_refl. apply orb_true_iff. right. reflexivity. }
    repeat (split; [ first [ reflexivity | exact Himpl ] | ]).
    intros info global_id w. rewrite Himpl.
    cbn [PermissionedNode.get_node_from_global_id negb]. unfold bind at 1.
    destruct (get_node _ info global_id w) as [[n | e] w']; reflexivity.
  - intros Hnone. unfold type_init_subclass_with_meta. rewrite Hnone. reflexivity.
  - intros; reflexivity.
  - intros; reflexivity.
Qed.

Lemma declared_type_answers_node_lookups_witness :
  PermissionedNode.get_node_from_global_id
    (TestSchema.info_for TestSchema.selection_ok) (PInt 2)
    (Some (TestSchema.GroupType, implements_node ["PermissionedNode"]))
    TestSchema.world0
  = match get_node TestSchema.GroupType
            (TestSchema.info_for TestSchema.selection_ok) (PInt 2)
            TestSchema.world0 with
    | (Ok n, w') => (Ok (Some n), w')
    | (Raise e, w') => (Raise e, w')
    end.
Proof.
  exact (proj2 (proj2 (proj2 (proj2 (proj2 (proj2
           (proj1 (declared_type_answers_node_lookups (fun _ => TestSchema.no_filter)
                     group_type_options)
                  (mkTypeDecl TestSchema.GroupType ["PermissionedNode"]
                              TestSchema.no_filter)
                  eq_refl))))))
           (TestSchema.info_for TestSchema.selection_ok) (PInt 2) TestSchema.world0).
Defined.

(** ** Converted relations are permissioned *)

(** Whatever type the registry holds for the related model, carrying
    [permission_class], [ensure_user_can_view_instance], both or neither:
    a to-many relation becomes a connection field only for a type that has
    a [permission_class] attribute, and a foreign key or one-to-one a
    field only for a type that has [ensure_user_can_view_instance]; the
    two tests are independent, and a type that lacks the attribute asked
    for is refused by assertion.  The resolver of a converted foreign key
    calls the type's check on every instance the wrapped resolver
    returns, and on nothing else, and lets the check's error through; for
    a declared [PermissionedType] it is [resolve_with_permission_check],
    the [can_view] check.  A model without a type gives no field, and a
    reverse one-to-one relation never gives a field: with a registered
    type its conversion stops at the unbound name [null]. *)
Theorem converted_relations_are_permissioned
        (field : RelationField) (registry : Registry) :
  (forall f,
      convert_field_to_list_or_connection field registry = Field f ->
      exists type held,
        registry (related_model field) = Some type
        /\ attr_permission_class type = Some held
        /\ f = PermissionedConnection type)
  /\ (forall f,
         convert_field_to_djangomodel field registry = Field f ->
         exists type ensure,
           registry (related_model field) = Some type
           /\ attr_ensure_user_can_view_instance type = Some ensure
           /\ f = PermissionedField type (Some (help_text field)) (negb (null field))
           /\ forall res,
               exists resolver,
                 converted_resolver f res = Some resolver
                 /\ forall root info kwargs w,
                     resolver root info kwargs w
                     = match res root info kwargs w with
                       | (Ok (Some inst), w') =>
                           match ensure info inst w' with
                           | (Ok _, w'') => (Ok (Some inst), w'')
                           | (Raise e, w'') => (Raise e, w'')
                           end
                       | other => other
                       end)
  /\ (forall name t res,
         registry (related_model field) = Some (graphene_type_of name t) ->
         convert_field_to_list_or_connection field registry
         = Field (PermissionedConnection (graphene_type_of name t))
         /\ convert_field_to_djangomodel field registry
            = Field (PermissionedField (graphene_type_of name t)
                       (Some (help_text field)) (negb (null field)))
         /\ converted_resolver
              (PermissionedField (graphene_type_of name t)
                 (Some (help_text field)) (negb (null field))) res
            = Some (resolve_with_permission_check t res))
  /\ (forall type,
         registry (related_model field) = Some type ->
         (attr_permission_class type = None ->
          exists msg, convert_field_to_list_or_connection field registry
                      = ConversionFails (ConversionAssertionError msg))
         /\ (attr_ensure_user_can_view_instance type = None ->
             exists msg, convert_field_to_djangomodel field registry
                         = ConversionFails (ConversionAssertionError msg))
         /\ convert_onetoone_field_to_djangomodel field registry
            = ConversionFails (ConversionNameError "null"))
  /\ (registry (related_model field) = None ->
      convert_field_to_list_or_connection field registry = NoField
      /\ convert_field_to_djangomodel field registry = NoField
      /\ convert_onetoone_field_to_djangomodel field registry = NoField)
  /\ (forall f, convert_onetoone_field_to_djangomodel field registry = Field f -> False).
Proof.
  unfold convert_field_to_list_or_connection, convert_field_to_djangomodel,
    convert_onetoone_field_to_djangomodel, PermissionedTypeField_init.
  split; [ | split; [ | split; [ | split; [ | split ] ] ] ].
  - intros f Hf.
    destruct (registry (related_model field)) as [type | ]; [ | discriminate ].
    destruct (attr_permission_class type) as [held | ] eqn:Hattr; [ | discriminate ].
    injection Hf as <-. exists type, held.
    split; [ reflexivity | split; [ exact Hattr | reflexivity ] ].
  - intros f Hf.
    destruct (registry (related_model field)) as [type | ]; [ | discriminate ].
    destruct (attr_ensure_user_can_view_instance type) as [ensure | ] eqn:Hattr;
      [ | discriminate ].
    injection Hf as <-. exists type, ensure.
    split; [ reflexivity | split; [ exact Hattr | split; [ reflexivity | ] ] ].
    intros res. eexists. split; [ reflexivity | ].
    intros root info kwargs w.
    unfold PermissionedTypeField_get_resolver, bind, ret. rewrite Hattr.
    destruct (res root info kwargs w) as [[[inst | ] | e] w']; try reflexivity.
    all: destruct (ensure info inst w') as [[u | e] w'']; reflexivity.
  - intros name t res Hreg. rewrite Hreg. cbn.
    split; [ reflexivity | split; reflexivity ].
  - intros type Hreg. rewrite Hreg.
    split; [ | split; [ | reflexivity ] ].
    + intros ->. eexists. reflexivity.
    + intros ->. eexists. reflexivity.
  - intros ->. repeat split.
  - intros f Hf.
    destruct (registry (related_model field)); discriminate.
Qed.

(** A type that carries a permission class but not the view check, as a
    plain object type given a [permission_class] would: its to-many
    relations convert, its foreign keys are refused. *)
Lemma converted_relations_are_permissioned_witness :
  let type := mkGrapheneType "PlainGroupType"
                (Some (Some TestSchema.GroupPermission)) None in
  let registry := fun model => if (model =? "Group")%string then Some type else None in
  let field := mkRelationField "Group" "the group" false in
  convert_field_to_list_or_connection field registry
  = Field (PermissionedConnection type)
  /\ exists msg, convert_field_to_djangomodel field registry
                 = ConversionFails (ConversionAssertionError msg).
Proof.
  cbv zeta.
  pose proof (converted_relations_are_permissioned
                (mkRelationField "Group" "the group" false)
                (fun model =>
                   if (model =? "Group")%string
                   then Some (mkGrapheneType "PlainGroupType"
                                (Some (Some TestSchema.GroupPermission)) None)
                   else None)) as [_ [_ [_ [Hrefused _]]]].
  split; [ reflexivity | ].
  exact (proj1 (proj2 (Hrefused _ eq_refl)) eq_refl).
Defined.

(** * The view and the test helpers *)

(** ** Every execution error is reported once *)

Lemma fold_report_error (format_exc : exn -> string) (errors : list ExecutionError)
      (r : Reports) :
  fold_left (report_error format_exc) errors r
  = mkReports
      (captured r ++ map raise_original_error errors)
      (printed r
       ++ flat_map (fun error =>
                      ["Exception was caught by GraphQL Core. Original error:";
                       format_exc (raise_original_error error)]) errors).
Proof.
  revert r. induction errors as [ | error errors IH ]; intros r.
  - cbn [fold_left map flat_map]. rewrite !app_nil_r. destruct r; reflexivity.
  - cbn [fold_left map flat_map]. rewrite IH. unfold report_error at 1 2.
    cbn [captured printed]. rewrite <- !app_assoc. reflexivity.
Qed.

(** The view returns the parent's result untouched.  For a result with
    errors it hands one exception per error to Sentry, in the errors'
    order (the original exception where the error carries one) and prints
    two lines per error; a result without errors, or no result, reports
    nothing. *)
Theorem every_error_is_reported_once
        (format_exc : exn -> string) (result : option ExecutionResult) (r : Reports) :
  let run := execute_graphql_request format_exc result r in
  let errors := match result with
                | Some res => match result_errors res with
                              | Some es => es
                              | None => []
                              end
                | None => []
                end in
  fst run = result
  /\ captured (snd run) = (captured r ++ map raise_original_error errors)%list
  /\ List.length (captured (snd run))
     = (List.length (captured r) + List.length errors)%nat
  /\ List.length (printed (snd run))
     = (List.length (printed r) + 2 * List.length errors)%nat
  /\ (forall error e, In error errors -> original_error error = Original e ->
        In e (captured (snd run)))
  /\ (errors = [] -> snd run = r).
Proof.
  cbv zeta.
  assert (Hrun : execute_graphql_request format_exc result r
                 = (result,
                    fold_left (report_error format_exc)
                      (match result with
                       | Some res => match result_errors res with
                                     | Some es => es
                                     | None => []
                                     end
                       | None => []
                       end) r)).
  { unfold execute_graphql_request.
    destruct result as [[data [[ | e es] | ]] | ]; reflexivity. }
  rewrite Hrun. cbn [fst snd].
  set (errors := match result with Some res => _ | None => [] end).
  rewrite fold_report_error. cbn [captured printed].
  split; [ reflexivity | ]. split; [ reflexivity | ].
  split; [ rewrite length_app, length_map; reflexivity | ].
  split.
  { rewrite length_app. f_equal.
    clear Hrun. induction errors as [ | x l IH ]; [ reflexivity | ].
    cbn [flat_map app List.length]. rewrite IH. lia. }
  split.
  - intros error e Hin Horig. apply in_or_app. right.
    apply in_map_iff. exists error. split; [ | exact Hin ].
    unfold raise_original_error. rewrite Horig. reflexivity.
  - intros Hnil. rewrite Hnil. cbn [map flat_map]. rewrite !app_nil_r.
    destruct r; reflexivity.
Qed.

(** ** [assertOK] and [assertError] *)

(** Each helper executes the query once, against the test database as it
    finds it, and judges that execution's response: [assertOK] passes
    exactly when the response carries no error, [assertError] exactly when
    it carries one and its text holds the expected string, and a helper
    that passes returns the response.  The database is left as the
    execution left it, so a helper called after another judges a second
    execution, from the state the first one left.  Neither helper touches
    the user or the schema; [assertOK] leaves logging alone, [assertError]
    re-enables it when it passes and leaves it disabled at [CRITICAL] when
    it fails; before [set_schema] both fail on the missing schema without
    executing anything. *)
Theorem assertions_judge_one_execution
        {Schema Store : Type}
        (client_execute : Schema -> option User -> string -> Store -> Response * Store)
        (q_string err_string : string) (t : TestCase) :
  let passed_ok := assertOK client_execute q_string t in
  let passed_error := assertError client_execute q_string err_string t in
  test_schema (snd passed_ok) = test_schema t
  /\ test_user_of (snd passed_ok) = test_user_of t
  /\ logging_disabled (snd passed_ok) = logging_disabled t
  /\ test_schema (snd passed_error) = test_schema t
  /\ test_user_of (snd passed_error) = test_user_of t
  /\ logging_disabled (snd passed_error)
     = (if is_ok (fst passed_error) then NOTSET else CRITICAL)
  /\ match test_schema t with
     | None =>
         fst passed_ok
         = Raise (AssertionError
                    "Please call `set_schema` before calling `get_graphene_client`.")
         /\ fst passed_error = fst passed_ok
         /\ test_store (snd passed_ok) = test_store t
         /\ test_store (snd passed_error) = test_store t
     | Some schema =>
         let executed := client_execute schema (test_user_of t) q_string
                                        (test_store t) in
         let again := client_execute schema (test_user_of t) q_string
                                     (snd executed) in
         let second := assertError client_execute q_string err_string
                                   (snd passed_ok) in
         test_store (snd passed_ok) = snd executed
         /\ test_store (snd passed_error) = snd executed
         /\ (is_ok (fst passed_ok) = true <-> response_errors (fst executed) = [])
         /\ (is_ok (fst passed_ok) = true -> fst passed_ok = Ok (fst executed))
         /\ (is_ok (fst passed_error) = true
             <-> response_errors (fst executed) <> []
                 /\ str_contains err_string (response_str (fst executed)) = true)
         /\ (is_ok (fst passed_error) = true -> fst passed_error = Ok (fst executed))
         /\ test_store (snd second) = snd again
         /\ (is_ok (fst second) = true
             <-> response_errors (fst again) <> []
                 /\ str_contains err_string (response_str (fst again)) = true)
     end.
Proof.
  assert (Herror : forall t0 schema,
             test_schema t0 = Some schema ->
             let run := assertError client_execute q_string err_string t0 in
             let executed := client_execute schema (test_user_of t0) q_string
                                            (test_store t0) in
             test_schema (snd run) = test_schema t0
             /\ test_user_of (snd run) = test_user_of t0
             /\ logging_disabled (snd run)
                = (if is_ok (fst run) then NOTSET else CRITICAL)
             /\ test_store (snd run) = snd executed
             /\ (is_ok (fst run) = true
                 <-> response_errors (fst executed) <> []
                     /\ str_contains err_string (response_str (fst executed)) = true)
             /\ (is_ok (fst run) = true -> fst run = Ok (fst executed))).
  { intros t0 schema Hschema. cbv zeta.
    unfold assertError, test_execute.
    cbn [test_schema test_user_of test_store]. rewrite Hschema.
    destruct (client_execute schema (test_user_of t0) q_string (test_store t0))
      as [res store].
    cbn [fst snd].
    destruct (response_errors res) as [ | x l ].
    - cbn [fst snd is_ok logging_disabled test_schema test_user_of test_store].
      repeat split; try reflexivity; try discriminate.
      intros [Hne _]. congruence.
    - destruct (str_contains err_string (response_str res));
        cbn [fst snd is_ok logging_disabled test_schema test_user_of test_store];
        repeat split; try reflexivity; try discriminate.
      intros [_ H]. discriminate. }
  cbv zeta.
  destruct (test_schema t) as [schema | ] eqn:Hschema.
  - destruct (Herror t schema Hschema) as (He1 & He2 & He3 & He4 & He5 & He6).
    rewrite Hschema in He1.
    assert (Hok : let run := assertOK client_execute q_string t in
                  let executed := client_execute schema (test_user_of t) q_string
                                                 (test_store t) in
                  test_schema (snd run) = Some schema
                  /\ test_user_of (snd run) = test_user_of t
                  /\ logging_disabled (snd run) = logging_disabled t
                  /\ test_store (snd run) = snd executed
                  /\ (is_ok (fst run) = true <-> response_errors (fst executed) = [])
                  /\ (is_ok (fst run) = true -> fst run = Ok (fst executed))).
    { cbv zeta. unfold assertOK, test_execute. rewrite Hschema.
      destruct (client_execute schema (test_user_of t) q_string (test_store t))
        as [res store].
      cbn [fst snd].
      destruct (response_errors res) as [ | x l ];
        cbn [fst snd is_ok logging_disabled test_schema test_user_of test_store];
        repeat split; try reflexivity; try discriminate. }
    destruct Hok as (Ho1 & Ho2 & Ho3 & Ho4 & Ho5 & Ho6).
    destruct (Herror (snd (assertOK client_execute q_string t)) schema Ho1)
      as (_ & _ & _ & Hs4 & Hs5 & _).
    rewrite Ho2, Ho4 in Hs4, Hs5.
    split; [ exact Ho1 | ]. split; [ exact Ho2 | ]. split; [ exact Ho3 | ].
    split; [ exact He1 | ]. split; [ exact He2 | ]. split; [ exact He3 | ].
    split; [ exact Ho4 | ]. split; [ exact He4 | ].
    split; [ exact Ho5 | ]. split; [ exact Ho6 | ].
    split; [ exact He5 | ]. split; [ exact He6 | ].
    split; [ exact Hs4 | exact Hs5 ].
  - unfold assertOK, assertError, test_execute.
    cbn [test_schema test_user_of test_store]. rewrite Hschema.
    cbn [fst snd is_ok logging_disabled test_schema test_user_of test_store].
    repeat split; try reflexivity; exact Hschema.
Qed.

(** * File fields *)

(** A string that does not hold [old] comes back from the scan as it
    is. *)
Lemma replace_from_absent (old new s : string) :
  str_contains old s = false -> replace_from old new 0 s = s.
Proof.
  induction s as [ | c rest IH ]; intros Habsent; [ reflexivity | ].
  rewrite str_contains_cons in Habsent. cbn [replace_from].
  destruct (prefix old (String c rest)); [ discriminate | ].
  rewrite (IH Habsent). reflexivity.
Qed.

Lemma replace_from_skip (old new s1 s2 : string) :
  replace_from old new (String.length s1) (s1 ++ s2) = replace_from old new 0 s2.
Proof.
  induction s1 as [ | c s1 IH ]; [ destruct s2; reflexivity | ].
  cbn [String.length append replace_from]. exact IH.
Qed.

(** A file field without a file serializes to the empty string.  With a
    non-empty [MEDIA_URL]: a url that does not hold it is served as it is,
    in every configuration; a url made of [MEDIA_URL] and a path is served
    from the production media root, or, in [DEBUG] with the file present
    locally, from the local one, computed from the stored url and not from
    the production url. *)
Theorem file_url_is_rebased (settings : MediaSettings)
        (image_file_exists : FieldFile -> bool) (value : FieldFile) :
  (file_url value = None ->
   DjangoFileType_serialize settings image_file_exists value = EmptyString)
  /\ (forall url,
         file_url value = Some url ->
         MEDIA_URL settings <> EmptyString ->
         str_contains (MEDIA_URL settings) url = false ->
         DjangoFileType_serialize settings image_file_exists value = url)
  /\ (forall path,
         file_url value = Some (MEDIA_URL settings ++ path) ->
         MEDIA_URL settings <> EmptyString ->
         str_contains (MEDIA_URL settings) path = false ->
         DjangoFileType_serialize settings image_file_exists value
         = (if DEBUG settings && image_file_exists value
            then LOCALHOST_MEDIA_URL settings
            else PROD_MEDIA_URL settings) ++ path).
Proof.
  unfold DjangoFileType_serialize.
  split; [ | split ].
  - intros ->. reflexivity.
  - intros url -> Hne Habsent. unfold py_replace.
    destruct (MEDIA_URL settings) as [ | a old ] eqn:Hold; [ congruence | ].
    rewrite !replace_from_absent by exact Habsent.
    destruct (DEBUG settings && image_file_exists value); reflexivity.
  - intros path -> Hne Habsent. unfold py_replace.
    destruct (MEDIA_URL settings) as [ | a old ] eqn:Hold; [ congruence | ].
    assert (Hscan : forall new,
               replace_from (String a old) new 0 (String a old ++ path) = new ++ path).
    { intros new. change (String a old ++ path) with (String a (old ++ path)).
      cbn [replace_from].
      change (String a (old ++ path)) with (String a old ++ path).
      rewrite prefix_append.
      replace (String.length (String a old) - 1)%nat with (String.length old)
        by (cbn [String.length]; lia).
      rewrite replace_from_skip, replace_from_absent by exact Habsent.
      reflexivity. }
    rewrite !Hscan.
    destruct (DEBUG settings && image_file_exists value); reflexivity.
Qed.

Lemma file_url_is_rebased_witness :
  DjangoFileType_serialize
    (mkMediaSettings "/media/" true "https://cdn.example.org/media/"
                     "http://localhost:8000/media/")
    (fun _ => true) (mkFieldFile (Some "/media/avatars/a.png"))
  = "http://localhost:8000/media/avatars/a.png".
Proof.
  refine (proj2 (proj2 (file_url_is_rebased
            (mkMediaSettings "/media/" true "https://cdn.example.org/media/"
                             "http://localhost:8000/media/")
            (fun _ => true) (mkFieldFile (Some "/media/avatars/a.png"))))
            "avatars/a.png" eq_refl _ eq_refl).
  discriminate.
Defined.


(** ** Schema field factories *)

Lemma list_ascii_of_string_app (s t : string) :
  list_ascii_of_string (s ++ t)
  = (list_ascii_of_string s ++ list_ascii_of_string t)%list.
Proof.
  induction s as [|a s IH]; cbn; [reflexivity | now rewrite IH].
Qed.

Lemma list_ascii_of_string_inj (s t : string) :
  list_ascii_of_string s = list_ascii_of_string t -> s = t.
Proof.
  intros H. rewrite <- (string_of_list_ascii_of_string s),
              <- (string_of_list_ascii_of_string t).
  now rewrite H.
Qed.

(** The reversed characters of a formatted name: the reversed suffix first. *)
Lemma rev_chars_app (s t : string) :
  rev (list_ascii_of_string (s ++ t))
  = (rev (list_ascii_of_string t) ++ rev (list_ascii_of_string s))%list.
Proof.
  now rewrite list_ascii_of_string_app, rev_app_distr.
Qed.

Lemma rev_chars_inj (s t : string) :
  rev (list_ascii_of_string s) = rev (list_ascii_of_string t) -> s = t.
Proof.
  intros H. apply list_ascii_of_string_inj.
  rewrite <- (rev_involutive (list_ascii_of_string s)),
          <- (rev_involutive (list_ascii_of_string t)).
  now rewrite H.
Qed.

Lemma field_name_of_inj (k1 k2 : FieldKind) (t1 t2 : string) :
  field_name_of k1 t1 = field_name_of k2 t2 -> k1 = k2 /\ t1 = t2.
Proof.
  intros H. apply (f_equal (fun s => rev (list_ascii_of_string s))) in H.
  destruct k1, k2;
    unfold field_name_of, LIST_FIELD_FORMAT, RETRIEVE_FIELD_FORMAT,
           CREATE_MUTATION_FIELD, UPDATE_MUTATION_FIELD, DELETE_MUTATION_FIELD in H;
    rewrite !rev_chars_app in H; cbn in H;
    try discriminate H;
    (split; [reflexivity | apply rev_chars_inj; congruence]).
Qed.

Lemma field_name_of_eqb (k1 k2 : FieldKind) (t : string) :
  k1 <> k2 -> (field_name_of k1 t =? field_name_of k2 t)%string = false.
Proof.
  intros Hk. apply String.eqb_neq. intros H.
  apply field_name_of_inj in H. tauto.
Qed.

(** The names a factory gives its fields tell the fields apart: two
    generated names are equal only for the same kind of field (list, item,
    create, update, delete) and the same type name, whatever the type names
    are. *)
Theorem factory_field_names_are_distinct (k1 k2 : FieldKind) (t1 t2 : string)
  (H : field_name_of k1 t1 = field_name_of k2 t2) :
  k1 = k2 /\ t1 = t2.
Proof.
  exact (field_name_of_inj k1 k2 t1 t2 H).
Qed.

Lemma factory_field_names_are_distinct_witness :
  KindUpdate = KindUpdate /\ "Group" = "Group".
Proof.
  apply (factory_field_names_are_distinct KindUpdate KindUpdate "Group" "Group").
  reflexivity.
Defined.


Lemma getattr_assoc_set (k k' : string) (v : FactoryObject) (d : FactoryAttrs) :
  getattr_or_None k (assoc_set k' v d)
  = if (k =? k')%string then Some v else getattr_or_None k d.
Proof.
  induction d as [|[k0 v0] d IH]; cbn; [reflexivity|].
  destruct (String.eqb_spec k' k0) as [->|Hne]; cbn.
  - destruct (k =? k0)%string; reflexivity.
  - rewrite IH. destruct (String.eqb_spec k k0) as [->|Hne'].
    + destruct (String.eqb_spec k0 k'); [congruence | reflexivity].
    + reflexivity.
Qed.

Lemma attrs_kept_refl (attrs : FactoryAttrs) : attrs_kept attrs attrs.
Proof. intros k v H. exact H. Qed.

Lemma attrs_kept_trans (a b c : FactoryAttrs) :
  attrs_kept a b -> attrs_kept b c -> attrs_kept a c.
Proof. intros H1 H2 k v H. apply H2, H1, H. Qed.

Lemma _get_or_make_hit (a : string) (mk : Making FactoryObject)
      (attrs : FactoryAttrs) (obj : FactoryObject) :
  getattr_or_None a attrs = Some obj -> _get_or_make a mk attrs = (Ok obj, attrs).
Proof. intros H. unfold _get_or_make. now rewrite H. Qed.

Lemma _get_or_make_ok (a : string) (mk : Making FactoryObject)
      (attrs attrs' : FactoryAttrs) (obj : FactoryObject) :
  (forall obj1 attrs1, mk attrs = (Ok obj1, attrs1) -> attrs_kept attrs attrs1) ->
  _get_or_make a mk attrs = (Ok obj, attrs') ->
  getattr_or_None a attrs' = Some obj /\ attrs_kept attrs attrs'.
Proof.
  intros Hmk H. unfold _get_or_make in H.
  destruct (getattr_or_None a attrs) as [o|] eqn:Hget.
  - inversion H; subst. split; [exact Hget | apply attrs_kept_refl].
  - destruct (mk attrs) as [[obj1|e] attrs1] eqn:Hrun; inversion H; subst.
    split.
    + rewrite getattr_assoc_set, String.eqb_refl. reflexivity.
    + intros k v Hk. rewrite getattr_assoc_set.
      destruct (String.eqb_spec k a) as [->|Hne]; [congruence|].
      apply (Hmk _ _ eq_refl), Hk.
Qed.

Lemma ListField_ok (f : Factory) (attrs : FactoryAttrs) :
  exists obj attrs',
    ListField f attrs = (Ok obj, attrs')
    /\ getattr_or_None "_list_field" attrs' = Some obj
    /\ attrs_kept attrs attrs'
    /\ (getattr_or_None "_list_field" attrs = None ->
        obj = ListFieldObject (type_class f)).
Proof.
  unfold ListField.
  destruct (_get_or_make "_list_field"
              (fun attrs0 => (Ok (ListFieldObject (type_class f)), attrs0)) attrs)
    as [[obj|e] attrs'] eqn:H.
  - exists obj, attrs'. split; [reflexivity|].
    destruct (_get_or_make_ok _ _ _ _ _
                (fun o a (E : (Ok (ListFieldObject (type_class f)), attrs) = (Ok o, a)) =>
                   match E in _ = p return attrs_kept attrs (snd p) with
                   | eq_refl => attrs_kept_refl attrs
                   end) H) as [Hg Hk].
    split; [exact Hg | split; [exact Hk|]].
    intros Hnone. unfold _get_or_make in H. rewrite Hnone in H. now inversion H.
  - unfold _get_or_make in H.
    destruct (getattr_or_None "_list_field" attrs); inversion H.
Qed.

Lemma RetrieveField_ok (f : Factory) (attrs : FactoryAttrs) :
  exists obj attrs',
    RetrieveField f attrs = (Ok obj, attrs')
    /\ getattr_or_None "_retrieve_field" attrs' = Some obj
    /\ attrs_kept attrs attrs'
    /\ (getattr_or_None "_retrieve_field" attrs = None ->
        obj = RetrieveFieldObject (type_class f)).
Proof.
  unfold RetrieveField.
  destruct (_get_or_make "_retrieve_field"
              (fun attrs0 => (Ok (RetrieveFieldObject (type_class f)), attrs0)) attrs)
    as [[obj|e] attrs'] eqn:H.
  - exists obj, attrs'. split; [reflexivity|].
    destruct (_get_or_make_ok _ _ _ _ _
                (fun o a (E : (Ok (RetrieveFieldObject (type_class f)), attrs) = (Ok o, a)) =>
                   match E in _ = p return attrs_kept attrs (snd p) with
                   | eq_refl => attrs_kept_refl attrs
                   end) H) as [Hg Hk].
    split; [exact Hg | split; [exact Hk|]].
    intros Hnone. unfold _get_or_make in H. rewrite Hnone in H. now inversion H.
  - unfold _get_or_make in H.
    destruct (getattr_or_None "_retrieve_field" attrs); inversion H.
Qed.

(** [QueryFieldsClass] never fails and gives the query class exactly
    two fields, the list field under [<Model>___List] and the retrieve
    field under [<Model>___Item]. Both are kept on the factory: on a
    factory that had none yet they are the fields built for its type
    class, and every later call, of [QueryFieldsClass], [ListField] or
    [RetrieveField], returns these same two objects and sets nothing. *)
Theorem query_fields_are_made_once (f : Factory) (attrs : FactoryAttrs) :
  exists list_field retrieve_field attrs',
    let type_name := model_name (get_model f) in
    let Query := [(LIST_FIELD_FORMAT type_name, list_field);
                  (RETRIEVE_FIELD_FORMAT type_name, retrieve_field)] in
    QueryFieldsClass f attrs = (Ok Query, attrs')
    /\ (getattr_or_None "_list_field" attrs = None ->
        list_field = ListFieldObject (type_class f))
    /\ (getattr_or_None "_retrieve_field" attrs = None ->
        retrieve_field = RetrieveFieldObject (type_class f))
    /\ QueryFieldsClass f attrs' = (Ok Query, attrs')
    /\ ListField f attrs' = (Ok list_field, attrs')
    /\ RetrieveField f attrs' = (Ok retrieve_field, attrs').
Proof.
  destruct (ListField_ok f attrs) as (lf & attrs1 & Hl & Hgl & Hk1 & Hfl).
  destruct (RetrieveField_ok f attrs1) as (rf & attrs2 & Hr & Hgr & Hk2 & Hfr).
  exists lf, rf, attrs2. cbv zeta.
  assert (Hne : (RETRIEVE_FIELD_FORMAT (model_name (get_model f))
                 =? LIST_FIELD_FORMAT (model_name (get_model f)))%string = false)
    by exact (field_name_of_eqb KindRetrieve KindList _ ltac:(discriminate)).
  assert (Hl2 : ListField f attrs2 = (Ok lf, attrs2))
    by (apply _get_or_make_hit, Hk2, Hgl).
  assert (Hr2 : RetrieveField f attrs2 = (Ok rf, attrs2))
    by (apply _get_or_make_hit, Hgr).
  split; [|split; [exact Hfl | split; [|split; [|split; [exact Hl2 | exact Hr2]]]]].
  - unfold QueryFieldsClass. rewrite Hl, Hr. cbn [assoc_set]. rewrite Hne. reflexivity.
  - intros Hnone. apply Hfr.
    destruct (getattr_or_None "_retrieve_field" attrs1) as [v|] eqn:Hv; [|reflexivity].
    exfalso.
    unfold ListField, _get_or_make in Hl.
    destruct (getattr_or_None "_list_field" attrs) eqn:Hlf.
    + inversion Hl; subst. congruence.
    + inversion Hl; subst. rewrite getattr_assoc_set in Hv. cbn in Hv. congruence.
  - unfold QueryFieldsClass. rewrite Hl2, Hr2. cbn [assoc_set]. rewrite Hne. reflexivity.
Qed.


Lemma add_mutation_field_run (f : Factory) (op name : string)
      (make : Making FactoryObject) (Mutation : list (string * FactoryObject))
      (attrs : FactoryAttrs) :
  add_mutation_field f op name make (Mutation, attrs)
  = if existsb (String.eqb op) (mutation_operations f)
    then match make attrs with
         | (Ok obj, attrs') => (Ok (assoc_set name obj Mutation), attrs')
         | (Raise e, attrs') => (Raise e, attrs')
         end
    else (Ok Mutation, attrs).
Proof. reflexivity. Qed.

Lemma MutationFieldsClass_body (pk_name : ModelClass -> string)
      (edge_type_name : PermissionedType -> string) (f : Factory)
      (attrs : FactoryAttrs) :
  mutation_operations f = [] \/ mutation_serializer_class f <> None ->
  MutationFieldsClass pk_name edge_type_name f attrs
  = match add_mutation_field f "create"
            (CREATE_MUTATION_FIELD (model_name (get_model f)))
            (CreateAndUpdateMutationClass pk_name edge_type_name f) ([], attrs) with
    | (Raise e, attrs1) => (Raise e, attrs1)
    | (Ok Mutation, attrs1) =>
        match add_mutation_field f "update"
                (UPDATE_MUTATION_FIELD (model_name (get_model f)))
                (CreateAndUpdateMutationClass pk_name edge_type_name f)
                (Mutation, attrs1) with
        | (Raise e, attrs2) => (Raise e, attrs2)
        | (Ok Mutation, attrs2) =>
            add_mutation_field f "delete"
              (DELETE_MUTATION_FIELD (model_name (get_model f)))
              (DeleteMutationClass f) (Mutation, attrs2)
        end
    end.
Proof.
  intros H. unfold MutationFieldsClass.
  destruct (mutation_operations f) eqn:Hops;
    destruct (mutation_serializer_class f) eqn:Hser; try reflexivity.
  destruct H; congruence.
Qed.

Lemma MutationFieldsClass_ok_body (pk_name : ModelClass -> string)
      (edge_type_name : PermissionedType -> string) (f : Factory)
      (attrs attrs' : FactoryAttrs) (Mutation : list (string * FactoryObject)) :
  MutationFieldsClass pk_name edge_type_name f attrs = (Ok Mutation, attrs') ->
  mutation_operations f = [] \/ mutation_serializer_class f <> None.
Proof.
  unfold MutationFieldsClass.
  destruct (mutation_operations f); [now left|].
  destruct (mutation_serializer_class f); [right; discriminate | discriminate].
Qed.

Lemma CreateAndUpdateMutationClass_ok (pk_name : ModelClass -> string)
      (edge_type_name : PermissionedType -> string) (f : Factory)
      (attrs attrs' : FactoryAttrs) (obj : FactoryObject) :
  CreateAndUpdateMutationClass pk_name edge_type_name f attrs = (Ok obj, attrs') ->
  getattr_or_None "_mutation_class" attrs' = Some obj /\ attrs_kept attrs attrs'.
Proof.
  apply _get_or_make_ok. intros obj1 attrs1.
  destruct (ListField_ok f attrs) as (lf & a1 & Hl & _ & Hk & _).
  rewrite Hl. intros E. inversion E; subst. exact Hk.
Qed.

Lemma DeleteMutationClass_ok (f : Factory) (attrs attrs' : FactoryAttrs)
      (obj : FactoryObject) :
  DeleteMutationClass f attrs = (Ok obj, attrs') ->
  getattr_or_None "_delete_mutation_type" attrs' = Some obj /\ attrs_kept attrs attrs'.
Proof.
  apply _get_or_make_ok. intros obj1 attrs1 E. inversion E; subst.
  apply attrs_kept_refl.
Qed.

Lemma mutation_field_names (n : string) :
  (UPDATE_MUTATION_FIELD n =? CREATE_MUTATION_FIELD n)%string = false
  /\ (DELETE_MUTATION_FIELD n =? CREATE_MUTATION_FIELD n)%string = false
  /\ (DELETE_MUTATION_FIELD n =? UPDATE_MUTATION_FIELD n)%string = false.
Proof.
  split; [|split].
  - exact (field_name_of_eqb KindUpdate KindCreate n ltac:(discriminate)).
  - exact (field_name_of_eqb KindDelete KindCreate n ltac:(discriminate)).
  - exact (field_name_of_eqb KindDelete KindUpdate n ltac:(discriminate)).
Qed.

Lemma MutationFieldsClass_again
      (pk_name : ModelClass -> string) (edge_type_name : PermissionedType -> string)
      (f : Factory) (attrs : FactoryAttrs) (mc dc : FactoryObject) :
  mutation_operations f = [] \/ mutation_serializer_class f <> None ->
  (existsb (String.eqb "create") (mutation_operations f)
   || existsb (String.eqb "update") (mutation_operations f) = true ->
   getattr_or_None "_mutation_class" attrs = Some mc) ->
  (existsb (String.eqb "delete") (mutation_operations f) = true ->
   getattr_or_None "_delete_mutation_type" attrs = Some dc) ->
  MutationFieldsClass pk_name edge_type_name f attrs
  = (Ok ((if existsb (String.eqb "create") (mutation_operations f)
          then [(CREATE_MUTATION_FIELD (model_name (get_model f)), mc)] else [])
         ++ (if existsb (String.eqb "update") (mutation_operations f)
             then [(UPDATE_MUTATION_FIELD (model_name (get_model f)), mc)] else [])
         ++ (if existsb (String.eqb "delete") (mutation_operations f)
             then [(DELETE_MUTATION_FIELD (model_name (get_model f)), dc)] else []))%list,
     attrs).
Proof.
  intros Hpre Hmc Hdc.
  pose proof (mutation_field_names (model_name (get_model f))) as (Huc & Hdc' & Hdu).
  rewrite (MutationFieldsClass_body _ _ _ attrs Hpre).
  rewrite add_mutation_field_run.
  destruct (existsb (String.eqb "create") (mutation_operations f)) eqn:Hc;
    destruct (existsb (String.eqb "update") (mutation_operations f)) eqn:Hu;
    destruct (existsb (String.eqb "delete") (mutation_operations f)) eqn:Hd;
    cbn [orb] in Hmc;
    try rewrite (_get_or_make_hit _ _ _ _ (Hmc eq_refl)
                 : CreateAndUpdateMutationClass _ _ _ attrs = _);
    cbv beta iota; rewrite add_mutation_field_run, Hu;
    try rewrite (_get_or_make_hit _ _ _ _ (Hmc eq_refl)
                 : CreateAndUpdateMutationClass _ _ _ attrs = _);
    cbv beta iota; rewrite add_mutation_field_run, Hd;
    try rewrite (_get_or_make_hit _ _ _ _ (Hdc eq_refl)
                 : DeleteMutationClass _ attrs = _);
    repeat (progress (cbn [assoc_set app]; rewrite ?Huc, ?Hdc', ?Hdu));
    reflexivity.
Qed.

(** The mutation class [MutationFieldsClass] returns has one field
    per operation named in [mutation_operations] and no other:
    [<Model>___Create], [<Model>___Update], [<Model>___Delete], in this
    order. The create and the update field are the same mutation class,
    kept on the factory as [_mutation_class]; the delete field is the class
    kept as [_delete_mutation_type]. A second call returns the same fields
    and sets nothing. *)
Theorem mutation_fields_follow_operations
  (pk_name : ModelClass -> string) (edge_type_name : PermissionedType -> string)
  (f : Factory) (attrs attrs' : FactoryAttrs)
  (Mutation : list (string * FactoryObject))
  (H : MutationFieldsClass pk_name edge_type_name f attrs = (Ok Mutation, attrs')) :
  let type_name := model_name (get_model f) in
  let has op := existsb (String.eqb op) (mutation_operations f) in
  exists mutation_class delete_class,
    Mutation
    = ((if has "create" then [(CREATE_MUTATION_FIELD type_name, mutation_class)] else [])
       ++ (if has "update" then [(UPDATE_MUTATION_FIELD type_name, mutation_class)] else [])
       ++ (if has "delete" then [(DELETE_MUTATION_FIELD type_name, delete_class)] else []))%list
    /\ (has "create" || has "update" = true ->
        getattr_or_None "_mutation_class" attrs' = Some mutation_class)
    /\ (has "delete" = true ->
        getattr_or_None "_delete_mutation_type" attrs' = Some delete_class)
    /\ MutationFieldsClass pk_name edge_type_name f attrs' = (Ok Mutation, attrs').
Proof.
  cbv zeta.
  pose proof (MutationFieldsClass_ok_body _ _ _ _ _ _ H) as Hpre.
  pose proof (mutation_field_names (model_name (get_model f))) as (Huc & Hdc & Hdu).
  assert (Hfacts : exists mc dc,
    Mutation
    = ((if existsb (String.eqb "create") (mutation_operations f)
        then [(CREATE_MUTATION_FIELD (model_name (get_model f)), mc)] else [])
       ++ (if existsb (String.eqb "update") (mutation_operations f)
           then [(UPDATE_MUTATION_FIELD (model_name (get_model f)), mc)] else [])
       ++ (if existsb (String.eqb "delete") (mutation_operations f)
           then [(DELETE_MUTATION_FIELD (model_name (get_model f)), dc)] else []))%list
    /\ (existsb (String.eqb "create") (mutation_operations f)
        || existsb (String.eqb "update") (mutation_operations f) = true ->
        getattr_or_None "_mutation_class" attrs' = Some mc)
    /\ (existsb (String.eqb "delete") (mutation_operations f) = true ->
        getattr_or_None "_delete_mutation_type" attrs' = Some dc)).
  { rewrite (MutationFieldsClass_body _ _ _ attrs Hpre) in H.
    rewrite add_mutation_field_run in H.
    set (dummy := ListFieldObject (type_class f)).
    destruct (existsb (String.eqb "create") (mutation_operations f)) eqn:Hc.
    - destruct (CreateAndUpdateMutationClass pk_name edge_type_name f attrs)
        as [[mc|e] attrs1] eqn:Hcu; [|discriminate H].
      destruct (CreateAndUpdateMutationClass_ok _ _ _ _ _ _ Hcu) as [Hg1 Hk1].
      cbv beta iota in H. rewrite add_mutation_field_run in H.
      destruct (existsb (String.eqb "update") (mutation_operations f)) eqn:Hu.
      + rewrite (_get_or_make_hit _ _ _ _ Hg1
                 : CreateAndUpdateMutationClass _ _ _ attrs1 = _) in H.
        cbv beta iota in H. rewrite add_mutation_field_run in H.
        destruct (existsb (String.eqb "delete") (mutation_operations f)) eqn:Hd.
        * destruct (DeleteMutationClass f attrs1) as [[dc|e] attrs2] eqn:Hdel;
            [|discriminate H].
          destruct (DeleteMutationClass_ok _ _ _ _ Hdel) as [Hg2 Hk2].
          inversion H; subst. exists mc, dc.
          repeat (progress (cbn [assoc_set app]; rewrite ?Huc, ?Hdc, ?Hdu)).
          split; [reflexivity | split; [intros _; apply Hk2, Hg1 | intros _; exact Hg2]].
        * inversion H; subst. exists mc, dummy.
          repeat (progress (cbn [assoc_set app]; rewrite ?Huc, ?Hdc, ?Hdu)).
          split; [reflexivity | split; [intros _; exact Hg1 | discriminate]].
      + cbv beta iota in H. rewrite add_mutation_field_run in H.
        destruct (existsb (String.eqb "delete") (mutation_operations f)) eqn:Hd.
        * destruct (DeleteMutationClass f attrs1) as [[dc|e] attrs2] eqn:Hdel;
            [|discriminate H].
          destruct (DeleteMutationClass_ok _ _ _ _ Hdel) as [Hg2 Hk2].
          inversion H; subst. exists mc, dc.
          repeat (progress (cbn [assoc_set app]; rewrite ?Huc, ?Hdc, ?Hdu)).
          split; [reflexivity | split; [intros _; apply Hk2, Hg1 | intros _; exact Hg2]].
        * inversion H; subst. exists mc, dummy.
          repeat (progress (cbn [assoc_set app]; rewrite ?Huc, ?Hdc, ?Hdu)).
          split; [reflexivity | split; [intros _; exact Hg1 | discriminate]].
    - cbv beta iota in H. rewrite add_mutation_field_run in H.
      destruct (existsb (String.eqb "update") (mutation_operations f)) eqn:Hu.
      + destruct (CreateAndUpdateMutationClass pk_name edge_type_name f attrs)
          as [[mc|e] attrs1] eqn:Hcu; [|discriminate H].
        destruct (CreateAndUpdateMutationClass_ok _ _ _ _ _ _ Hcu) as [Hg1 Hk1].
        cbv beta iota in H. rewrite add_mutation_field_run in H.
        destruct (existsb (String.eqb "delete") (mutation_operations f)) eqn:Hd.
        * destruct (DeleteMutationClass f attrs1) as [[dc|e] attrs2] eqn:Hdel;
            [|discriminate H].
          destruct (DeleteMutationClass_ok _ _ _ _ Hdel) as [Hg2 Hk2].
          inversion H; subst. exists mc, dc.
          repeat (progress (cbn [assoc_set app]; rewrite ?Huc, ?Hdc, ?Hdu)).
          split; [reflexivity | split; [intros _; apply Hk2, Hg1 | intros _; exact Hg2]].
        * inversion H; subst. exists mc, dummy.
          repeat (progress (cbn [assoc_set app]; rewrite ?Huc, ?Hdc, ?Hdu)).
          split; [reflexivity | split; [intros _; exact Hg1 | discriminate]].
      + cbv beta iota in H. rewrite add_mutation_field_run in H.
        destruct (existsb (String.eqb "delete") (mutation_operations f)) eqn:Hd.
        * destruct (DeleteMutationClass f attrs) as [[dc|e] attrs2] eqn:Hdel;
            [|discriminate H].
          destruct (DeleteMutationClass_ok _ _ _ _ Hdel) as [Hg2 Hk2].
          inversion H; subst. exists dummy, dc.
          repeat (progress (cbn [assoc_set app]; rewrite ?Huc, ?Hdc, ?Hdu)).
          split; [reflexivity | split; [discriminate | intros _; exact Hg2]].
        * inversion H; subst. exists dummy, dummy.
          cbn [app].
          split; [reflexivity | split; discriminate]. }
  destruct Hfacts as (mc & dc & HM & Hmc & Hdc').
  exists mc, dc.
  split; [exact HM | split; [exact Hmc | split; [exact Hdc'|]]].
  rewrite HM. apply MutationFieldsClass_again; assumption.
Qed.

Lemma mutation_fields_follow_operations_witness :
  exists mutation_class delete_class attrs',
    MutationFieldsClass id_pk_name group_edge_type_name GroupSchemaFieldsFactory []
    = (Ok [("Group___Create", mutation_class); ("Group___Update", mutation_class);
           ("Group___Delete", delete_class)], attrs')
    /\ getattr_or_None "_mutation_class" attrs' = Some mutation_class
    /\ getattr_or_None "_delete_mutation_type" attrs' = Some delete_class
    /\ MutationFieldsClass id_pk_name group_edge_type_name GroupSchemaFieldsFactory attrs'
       = (Ok [("Group___Create", mutation_class); ("Group___Update", mutation_class);
              ("Group___Delete", delete_class)], attrs').
Proof.
  destruct (MutationFieldsClass id_pk_name group_edge_type_name
              GroupSchemaFieldsFactory []) as [r attrs'] eqn:Hrun.
  vm_compute in Hrun. inversion Hrun as [[Hr Ha]].
  symmetry in Hrun. rewrite <- Hr, <- Ha in Hrun. symmetry in Hrun.
  destruct (mutation_fields_follow_operations id_pk_name group_edge_type_name
              GroupSchemaFieldsFactory [] _ _ Hrun)
    as (mc & dc & HM & Hmc & Hdc & Hagain).
  cbn in HM. inversion HM; subst.
  eexists _, _, _.
  split; [reflexivity|].
  split; [apply Hmc; reflexivity|].
  split; [apply Hdc; reflexivity|].
  exact Hagain.
Defined.


Lemma make_mutation_class_run (pk_name : ModelClass -> string) (f : Factory)
      (edge_output : string) (sd : SerializerDecl) :
  mutation_serializer_class f = Some sd ->
  existsb (String.eqb "create") (mutation_operations f)
  || existsb (String.eqb "update") (mutation_operations f) = true ->
  if existsb (String.eqb "update") (mutation_operations f)
     || existsb (String.eqb "id") (decl_input_names sd)
  then exists d,
      make_mutation_class pk_name f edge_output
      = Ok (MutationClassObject
              ("CreateOrUpdate" ++ model_name (get_model f) ++ "Mutation") d)
      /\ model_operations (decl_mutation d) = mutation_operations f
      /\ mutation_permission_class (decl_mutation d) = permission_class (type_class f)
  else make_mutation_class pk_name f edge_output = Raise (KeyError "id").
Proof.
  intros Hser Hops.
  unfold make_mutation_class, mutation_init_subclass_with_meta.
  cbn [opt_permission_class opt_output_type opt_serializer_class opt_model_operations
       opt_model_class opt_lookup_field opt_edge_output_type].
  rewrite Hser.
  destruct (existsb (String.eqb "update") (mutation_operations f)) eqn:Hu;
    destruct (existsb (String.eqb "create") (mutation_operations f)) eqn:Hc;
    try discriminate Hops; cbn [negb andb orb].
  - eexists. cbn [rbind]. split; [reflexivity | split; reflexivity].
  - eexists. cbn [rbind]. split; [reflexivity | split; reflexivity].
  - unfold assoc_pop. rewrite assoc_has_names.
    destruct (existsb (String.eqb "id") (decl_input_names sd)).
    + eexists. cbn [rbind]. split; [reflexivity | split; reflexivity].
    + reflexivity.
Qed.

Lemma CreateAndUpdateMutationClass_fresh
      (pk_name : ModelClass -> string) (edge_type_name : PermissionedType -> string)
      (f : Factory) (attrs : FactoryAttrs) (sd : SerializerDecl) :
  getattr_or_None "_mutation_class" attrs = None ->
  mutation_serializer_class f = Some sd ->
  existsb (String.eqb "create") (mutation_operations f)
  || existsb (String.eqb "update") (mutation_operations f) = true ->
  if existsb (String.eqb "update") (mutation_operations f)
     || existsb (String.eqb "id") (decl_input_names sd)
  then exists d attrs',
      CreateAndUpdateMutationClass pk_name edge_type_name f attrs
      = (Ok (MutationClassObject
               ("CreateOrUpdate" ++ model_name (get_model f) ++ "Mutation") d), attrs')
      /\ model_operations (decl_mutation d) = mutation_operations f
      /\ mutation_permission_class (decl_mutation d) = permission_class (type_class f)
  else exists attrs',
      CreateAndUpdateMutationClass pk_name edge_type_name f attrs
      = (Raise (KeyError "id"), attrs').
Proof.
  intros Hfresh Hser Hops.
  pose proof (make_mutation_class_run pk_name f (edge_type_name (type_class f)) sd
                Hser Hops) as Hmake.
  unfold CreateAndUpdateMutationClass, _get_or_make. rewrite Hfresh.
  destruct (ListField_ok f attrs) as (lf & a1 & Hl & _).
  rewrite Hl.
  destruct (existsb (String.eqb "update") (mutation_operations f)
            || existsb (String.eqb "id") (decl_input_names sd)).
  - destruct Hmake as (d & Hd & Ho & Hp). rewrite Hd.
    exists d. eexists. split; [reflexivity | split; assumption].
  - rewrite Hmake. eexists. reflexivity.
Qed.

Lemma DeleteMutationClass_total (f : Factory) (attrs : FactoryAttrs) :
  exists dc attrs', DeleteMutationClass f attrs = (Ok dc, attrs').
Proof.
  unfold DeleteMutationClass, _get_or_make.
  destruct (getattr_or_None "_delete_mutation_type" attrs).
  - eexists _, _. reflexivity.
  - unfold make_delete_mutation_class, deletion_init_subclass_with_meta.
    cbn [rbind]. eexists _, _. reflexivity.
Qed.

(** What [MutationFieldsClass] asks of a factory whose mutation class
    is not made yet. Without a serializer class it returns an empty
    mutation class when no operation is named and fails the assertion
    otherwise, also when [delete] is the only operation; nothing is set on
    the factory. With a serializer class it fails in one case only: [create]
    is named, [update] is not, and the serializer has no [id] input field,
    where declaring the mutation class raises [KeyError('id')] from
    [input_fields.pop]. In every other case it returns a mutation class. *)
Theorem mutation_fields_need_serializer_and_id
  (pk_name : ModelClass -> string) (edge_type_name : PermissionedType -> string)
  (f : Factory) (attrs : FactoryAttrs)
  (Hfresh : getattr_or_None "_mutation_class" attrs = None) :
  let has op := existsb (String.eqb op) (mutation_operations f) in
  let run := MutationFieldsClass pk_name edge_type_name f attrs in
  match mutation_serializer_class f with
  | None =>
      match mutation_operations f with
      | [] => run = (Ok [], attrs)
      | _ :: _ =>
          run = (Raise (AssertionError
                          "If mutation_operations are defined, you must also define a mutation_serializer_class."),
                 attrs)
      end
  | Some sd =>
      if has "create" && negb (has "update")
         && negb (existsb (String.eqb "id") (decl_input_names sd))
      then fst run = Raise (KeyError "id")
      else exists Mutation, fst run = Ok Mutation
  end.
Proof.
  cbv zeta.
  destruct (mutation_serializer_class f) as [sd|] eqn:Hser.
  - assert (Hpre : mutation_operations f = [] \/ mutation_serializer_class f <> None)
      by (right; congruence).
    rewrite (MutationFieldsClass_body _ _ _ attrs Hpre).
    rewrite add_mutation_field_run.
    destruct (existsb (String.eqb "create") (mutation_operations f)) eqn:Hc.
    + pose proof (CreateAndUpdateMutationClass_fresh pk_name edge_type_name f attrs sd
                    Hfresh Hser) as Hcu.
      rewrite Hc in Hcu. specialize (Hcu eq_refl).
      destruct (existsb (String.eqb "update") (mutation_operations f)) eqn:Hu;
        cbn [negb andb orb] in *.
      * destruct Hcu as (d & a1 & Hrun & _). rewrite Hrun. cbv beta iota.
        rewrite add_mutation_field_run, Hu.
        destruct (CreateAndUpdateMutationClass_ok _ _ _ _ _ _ Hrun) as [Hg _].
        rewrite (_get_or_make_hit _ _ _ _ Hg
                 : CreateAndUpdateMutationClass _ _ _ a1 = _).
        cbv beta iota. rewrite add_mutation_field_run.
        destruct (existsb (String.eqb "delete") (mutation_operations f)).
        -- destruct (DeleteMutationClass_total f a1) as (dc & a2 & Hdel).
           rewrite Hdel. eexists. reflexivity.
        -- eexists. reflexivity.
      * destruct (existsb (String.eqb "id") (decl_input_names sd)); cbn [negb].
        -- destruct Hcu as (d & a1 & Hrun & _). rewrite Hrun. cbv beta iota.
           rewrite add_mutation_field_run, Hu. cbv beta iota.
           rewrite add_mutation_field_run.
           destruct (existsb (String.eqb "delete") (mutation_operations f)).
           ++ destruct (DeleteMutationClass_total f a1) as (dc & a2 & Hdel).
              rewrite Hdel. eexists. reflexivity.
           ++ eexists. reflexivity.
        -- destruct Hcu as (a1 & Hrun). rewrite Hrun. reflexivity.
    + cbn [andb]. cbv beta iota. rewrite add_mutation_field_run.
      destruct (existsb (String.eqb "update") (mutation_operations f)) eqn:Hu.
      * pose proof (CreateAndUpdateMutationClass_fresh pk_name edge_type_name f attrs sd
                      Hfresh Hser) as Hcu.
        rewrite Hc, Hu in Hcu. specialize (Hcu eq_refl). cbn [orb] in Hcu.
        destruct Hcu as (d & a1 & Hrun & _). rewrite Hrun. cbv beta iota.
        rewrite add_mutation_field_run.
        destruct (existsb (String.eqb "delete") (mutation_operations f)).
        -- destruct (DeleteMutationClass_total f a1) as (dc & a2 & Hdel).
           rewrite Hdel. eexists. reflexivity.
        -- eexists. reflexivity.
      * cbv beta iota. rewrite add_mutation_field_run.
        destruct (existsb (String.eqb "delete") (mutation_operations f)).
        -- destruct (DeleteMutationClass_total f attrs) as (dc & a2 & Hdel).
           rewrite Hdel. eexists. reflexivity.
        -- eexists. reflexivity.
  - unfold MutationFieldsClass, add_mutation_field. rewrite Hser.
    destruct (mutation_operations f); reflexivity.
Qed.

Lemma mutation_fields_need_serializer_and_id_witness :
  fst (MutationFieldsClass id_pk_name group_edge_type_name
         (mkFactory TestSchema.GroupType "GroupType" (Some GroupSerializerDecl)
                    ["create"; "delete"]) [])
  = Raise (KeyError "id").
Proof.
  exact (mutation_fields_need_serializer_and_id id_pk_name group_edge_type_name
           (mkFactory TestSchema.GroupType "GroupType" (Some GroupSerializerDecl)
                      ["create"; "delete"]) [] eq_refl).
Defined.
